(** * GameBoy MCP server: session, snapshot store and stream broadcaster

    A shallow embedding of [src/gameboy/index.ts]: the title registry
    ([sanitizeGameName], [installRom]), the snapshot store ([saveState],
    [loadState], [listStates], [deleteState]), the session controller
    ([pressButton], [doFrame], [getScreenAsBuffer] and the tool handlers)
    and the stream broadcaster ([runStreamLoop]).

    Conventions of the embedding:
    - a JavaScript string is a [string] (a sequence of 8-bit code units);
    - the file system is a finite map from path strings to nodes;
    - a method of [GameBoyEmulator] is a function on the process state that
      returns either a value or a raised exception, in both cases together
      with the state reached;
    - [path.basename], [path.extname] and [path.join] are the POSIX
      versions of Node's [path] module;
    - the emulation core (the [serverboy] package), the PNG encoder, the
      base64 and date conversions and the process environment are an
      interface, [Platform]. *)

From Stdlib Require Import ZArith Ascii.
From stdpp Require Import gmap strings list fin_maps pretty.

Open Scope string_scope.
Open Scope list_scope.
Open Scope Z_scope.

(* ===================================================================== *)
(** ** Characters and strings *)
(* ===================================================================== *)

Definition chars (s : string) : list ascii := String.list_ascii_of_string s.
Definition str (l : list ascii) : string := String.string_of_list_ascii l.

Definition code (c : ascii) : Z := Z.of_N (N_of_ascii c).

Definition CHAR_FORWARD_SLASH : Z := 47.
Definition CHAR_DOT : Z := 46.
Definition dash : ascii := "-"%char.

Definition is_digit (c : ascii) : bool := (48 <=? code c) && (code c <=? 57).
Definition is_upper (c : ascii) : bool := (65 <=? code c) && (code c <=? 90).
Definition is_lower (c : ascii) : bool := (97 <=? code c) && (code c <=? 122).

(** The character class [[a-zA-Z0-9]]. *)
Definition is_alnum (c : ascii) : bool := is_lower c || is_upper c || is_digit c.

(** [String.prototype.toLowerCase] on one code unit; only the ASCII letters
    are mapped, which is exact on the strings it is applied to here (they
    hold nothing but ASCII letters, digits and dashes). *)
Definition lower_char (c : ascii) : ascii :=
  if is_upper c then ascii_of_N (Z.to_N (code c + 32)) else c.

Definition toLowerCase (l : list ascii) : list ascii := map lower_char l.

(** [s.slice(a, b)] for [0 <= a]. *)
Definition slice (l : list ascii) (a b : Z) : list ascii :=
  take (Z.to_nat (b - a)) (drop (Z.to_nat a) l).

(** Visit the code units from the last index down to index 0. *)
Fixpoint scan_back {St : Type} (f : Z -> ascii -> St -> St)
    (i : Z) (rev_l : list ascii) (st : St) : St :=
  match rev_l with
  | [] => st
  | c :: r => scan_back f (i - 1) r (f i c st)
  end.

Definition for_down {St : Type} (f : Z -> ascii -> St -> St)
    (l : list ascii) (st : St) : St :=
  scan_back f (Z.of_nat (length l) - 1) (rev l) st.

(* --------------------------------------------------------------------- *)
(** *** [path.extname] (POSIX) *)

Record ext_state := ExtState {
  x_startDot : Z;
  x_startPart : Z;
  x_end : Z;
  x_matchedSlash : bool;
  x_preDotState : Z;
  x_break : bool
}.

Definition ext_init : ext_state := ExtState (-1) 0 (-1) true 0 false.

Definition ext_step (i : Z) (c : ascii) (st : ext_state) : ext_state :=
  let '(ExtState startDot startPart end_ matchedSlash preDotState brk) := st in
  if brk then st
  else if code c =? CHAR_FORWARD_SLASH then
    if negb matchedSlash
    then ExtState startDot (i + 1) end_ matchedSlash preDotState true
    else st
  else
    let '(end_, matchedSlash) :=
      if end_ =? -1 then (i + 1, false) else (end_, matchedSlash) in
    if code c =? CHAR_DOT then
      if startDot =? -1
      then ExtState i startPart end_ matchedSlash preDotState false
      else if negb (preDotState =? 1)
      then ExtState startDot startPart end_ matchedSlash 1 false
      else ExtState startDot startPart end_ matchedSlash preDotState false
    else if negb (startDot =? -1)
    then ExtState startDot startPart end_ matchedSlash (-1) false
    else ExtState startDot startPart end_ matchedSlash preDotState false.

Definition extname_chars (path : list ascii) : list ascii :=
  let st := for_down ext_step path ext_init in
  if (x_startDot st =? -1)
     || (x_end st =? -1)
     || (x_preDotState st =? 0)
     || ((x_preDotState st =? 1)
         && (x_startDot st =? x_end st - 1)
         && (x_startDot st =? x_startPart st + 1))
  then []
  else slice path (x_startDot st) (x_end st).

Definition extname (path : string) : string := str (extname_chars (chars path)).

(* --------------------------------------------------------------------- *)
(** *** [path.basename] (POSIX) *)

Record base_state := BaseState {
  b_start : Z;
  b_end : Z;
  b_matchedSlash : bool;
  b_extIdx : Z;
  b_firstNonSlashEnd : Z;
  b_break : bool
}.

(** The code unit of [suffix] at index [i]. *)
Definition char_at (suffix : list ascii) (i : Z) : Z :=
  match suffix !! Z.to_nat i with
  | Some c => code c
  | None => -1
  end.

(** Loop body of the branch taken when a suffix is given. *)
Definition base_step_suffix (suffix : list ascii)
    (i : Z) (c : ascii) (st : base_state) : base_state :=
  let '(BaseState start end_ matchedSlash extIdx firstNonSlashEnd brk) := st in
  if brk then st
  else if code c =? CHAR_FORWARD_SLASH then
    if negb matchedSlash
    then BaseState (i + 1) end_ matchedSlash extIdx firstNonSlashEnd true
    else st
  else
    let '(matchedSlash, firstNonSlashEnd) :=
      if firstNonSlashEnd =? -1 then (false, i + 1)
      else (matchedSlash, firstNonSlashEnd) in
    if 0 <=? extIdx then
      if code c =? char_at suffix extIdx then
        if extIdx - 1 =? -1
        then BaseState start i matchedSlash (extIdx - 1) firstNonSlashEnd false
        else BaseState start end_ matchedSlash (extIdx - 1) firstNonSlashEnd false
      else BaseState start firstNonSlashEnd matchedSlash (-1) firstNonSlashEnd false
    else BaseState start end_ matchedSlash extIdx firstNonSlashEnd false.

(** Loop body of the branch taken without a suffix. *)
Definition base_step_plain (i : Z) (c : ascii) (st : base_state) : base_state :=
  let '(BaseState start end_ matchedSlash extIdx firstNonSlashEnd brk) := st in
  if brk then st
  else if code c =? CHAR_FORWARD_SLASH then
    if negb matchedSlash
    then BaseState (i + 1) end_ matchedSlash extIdx firstNonSlashEnd true
    else st
  else if end_ =? -1
  then BaseState start (i + 1) false extIdx firstNonSlashEnd false
  else st.

Definition list_ascii_eqb (a b : list ascii) : bool :=
  bool_decide (a = b).

Definition basename_chars (path suffix : list ascii) : list ascii :=
  let plen := Z.of_nat (length path) in
  let slen := Z.of_nat (length suffix) in
  if (0 <? slen) && (slen <=? plen) then
    if list_ascii_eqb suffix path then []
    else
      let st := for_down (base_step_suffix suffix) path
                  (BaseState 0 (-1) true (slen - 1) (-1) false) in
      let end_ :=
        if b_start st =? b_end st then b_firstNonSlashEnd st
        else if b_end st =? -1 then plen
        else b_end st in
      slice path (b_start st) end_
  else
    let st := for_down base_step_plain path
                (BaseState 0 (-1) true (-1) (-1) false) in
    if b_end st =? -1 then []
    else slice path (b_start st) (b_end st).

Definition basename (path suffix : string) : string :=
  str (basename_chars (chars path) (chars suffix)).

(* --------------------------------------------------------------------- *)
(** *** [sanitizeGameName] *)

(** [s.replace(/[^a-zA-Z0-9]+/g, '-')]: every maximal run of code units
    outside the class becomes one dash.  [in_run] tells that the previous
    code unit was already part of the run being replaced. *)
Fixpoint replace_runs (in_run : bool) (l : list ascii) : list ascii :=
  match l with
  | [] => []
  | c :: r =>
      if is_alnum c then c :: replace_runs false r
      else if in_run then replace_runs true r
      else dash :: replace_runs true r
  end.

Definition is_dash (c : ascii) : bool := code c =? 45.

(** [s.replace(/^-|-$/g, '')]: a dash at index 0 is removed, and then a dash
    at the last index (if it was not the one just removed). *)
Definition strip_edge_dashes (l : list ascii) : list ascii :=
  let l1 := match l with
            | c :: r => if is_dash c then r else l
            | [] => l
            end in
  match rev l1 with
  | c :: r => if is_dash c then rev r else l1
  | [] => l1
  end.

Definition sanitize_chars (l : list ascii) : list ascii :=
  strip_edge_dashes (toLowerCase (replace_runs false l)).

Definition sanitizeGameName (romPath : string) : string :=
  let basename := basename romPath (extname romPath) in
  str (sanitize_chars (chars basename)).


(** The shape of a sanitized id: lower-case letters, digits and dashes
    only, no two dashes in a row. *)
Definition id_char (c : ascii) : bool := is_lower c || is_digit c || is_dash c.

Fixpoint no_double_dash (l : list ascii) : bool :=
  match l with
  | c1 :: r =>
      match r with
      | c2 :: _ => negb (is_dash c1 && is_dash c2) && no_double_dash r
      | [] => true
      end
  | [] => true
  end.

Definition sanitized_form (id : string) : bool :=
  forallb id_char (chars id) && no_double_dash (chars id).

Definition starts_with_dash (l : list ascii) : bool :=
  match l with
  | c :: _ => is_dash c
  | [] => false
  end.

(** No dash at either end. *)
Definition no_edge_dash (id : string) : bool :=
  negb (starts_with_dash (chars id)) && negb (starts_with_dash (rev (chars id))).

(** The default id, following the words of the specification: the
    extension stripped, every run of non-alphanumeric characters replaced
    by one separator, lower-cased. *)
Definition spec_sanitize (name : string) : string :=
  str (toLowerCase (replace_runs false (chars name))).

Definition spec_default_id (sourcePath : string) : string :=
  spec_sanitize (basename sourcePath (extname sourcePath)).

(* --------------------------------------------------------------------- *)
(** *** [path.join] (POSIX, two arguments) *)

Definition dot : ascii := "."%char.
Definition slash : ascii := "/"%char.

(** The segments between the separators; [cur] is the segment being read,
    in reverse. *)
Fixpoint split_slash (l cur : list ascii) : list (list ascii) :=
  match l with
  | [] => [rev cur]
  | c :: r =>
      if code c =? CHAR_FORWARD_SLASH then rev cur :: split_slash r []
      else split_slash r (c :: cur)
  end.

(** One segment of [normalizeString]; [acc] holds the segments kept so far,
    the last one first. *)
Definition normalize_step (allowAboveRoot : bool)
    (acc : list (list ascii)) (seg : list ascii) : list (list ascii) :=
  if bool_decide (seg = []) || bool_decide (seg = [dot]) then acc
  else if bool_decide (seg = [dot; dot]) then
    match acc with
    | top :: rest =>
        if bool_decide (top = [dot; dot])
        then (if allowAboveRoot then seg :: acc else acc)
        else rest
    | [] => if allowAboveRoot then [seg] else []
    end
  else seg :: acc.

Fixpoint join_segments (segs : list (list ascii)) : list ascii :=
  match segs with
  | [] => []
  | [s] => s
  | s :: r => s ++ slash :: join_segments r
  end.

Definition normalizeString (path : list ascii) (allowAboveRoot : bool) : list ascii :=
  join_segments (rev (fold_left (normalize_step allowAboveRoot) (split_slash path []) [])).

Definition normalize_chars (path : list ascii) : list ascii :=
  match path with
  | [] => [dot]
  | c0 :: _ =>
      let isAbsolute := code c0 =? CHAR_FORWARD_SLASH in
      let trailingSeparator :=
        match last path with
        | Some c => code c =? CHAR_FORWARD_SLASH
        | None => false
        end in
      let p := normalizeString path (negb isAbsolute) in
      match p with
      | [] =>
          if isAbsolute then [slash]
          else if trailingSeparator then [dot; slash] else [dot]
      | _ =>
          let p := if trailingSeparator then p ++ [slash] else p in
          if isAbsolute then slash :: p else p
      end
  end.

Definition path_join (a b : string) : string :=
  let joined :=
    match chars a, chars b with
    | [], [] => []
    | [], lb => lb
    | la, [] => la
    | la, lb => la ++ slash :: lb
    end in
  str (normalize_chars joined).

(** No separator occurs in [t]. *)
Definition no_slash (t : list ascii) : bool :=
  forallb (fun c => negb (code c =? CHAR_FORWARD_SLASH)) t.

(* ===================================================================== *)
(** ** Values, exceptions and the platform *)
(* ===================================================================== *)

Set Warnings "-register-all,-clear-no-such-hyp".

(** A value that [JSON.stringify] writes and [JSON.parse] reads back. *)
Inductive json :=
  | JNull
  | JBool (b : bool)
  | JNum (n : Z)
  | JStr (s : string)
  | JArr (items : list json)
  | JObj (fields : list (string * json)).

(** A raised JavaScript exception. *)
Inductive exn :=
  | Error (message : string)        (* [new Error(message)] *)
  | SystemError (code path : string) (* raised by the [fs] module *)
  | SyntaxError                     (* raised by [JSON.parse] *)
  | TypeError
  | CoreError.                      (* raised inside the emulation core *)

(** What a regular file holds: the text of a JSON value, or any other
    bytes (a ROM image, or text that [JSON.parse] rejects). *)
Inductive content :=
  | Json (v : json)
  | Raw (bytes : string).

Inductive GameBoyButton := UP | DOWN | LEFT | RIGHT | A | B | START | SELECT.

Definition button_name (b : GameBoyButton) : string :=
  match b with
  | UP => "UP" | DOWN => "DOWN" | LEFT => "LEFT" | RIGHT => "RIGHT"
  | A => "A" | B => "B" | START => "START" | SELECT => "SELECT"
  end.

(** What the program takes from its surroundings: the emulation core behind
    [new Gameboy()], the canvas encoder, [Buffer.toString('base64')], the
    [Date] conversions and the process environment. *)
Class Platform := {
  core : Type;
  gb_new : core;
  gb_loadRom : content -> core -> core;
  gb_doFrame : core -> core;
  gb_pressKeys : list Z -> core -> core;
  gb_getScreen : core -> list Z;
  gb_saveState : core -> json;
  (** [returnFromState]: the core reached, and whether the call returned
      ([true]) or raised ([false]). *)
  gb_returnFromState : json -> core -> core * bool;
  KEYMAP : GameBoyButton -> Z;
  canvas_toBuffer : list Z -> string;
  base64 : string -> string;
  toISOString : Z -> string;
  date_getTime : string -> option Z;   (* [None] is [NaN] *)
  homedir : string;
  STREAM_FPS : Z;
  STREAM_PORT : Z
}.

(* ===================================================================== *)
(** ** The file system *)
(* ===================================================================== *)

(** A path names a regular file or a directory.  The map is flat: each
    file is known under one path string, and an operation on a path looks at
    that path alone (a write does not ask for the directory above it, which
    [ensureDir] has made by then). *)
Inductive node :=
  | File (mtime : Z) (data : content)
  | Dir (mtime : Z).

Definition node_mtime (n : node) : Z :=
  match n with
  | File t _ => t
  | Dir t => t
  end.

(** The entry name of [p] inside directory [dir], when [p] is one of its
    direct children. *)
Definition entry_name (dir p : string) : option string :=
  let d := chars dir ++ [slash] in
  let lp := chars p in
  if bool_decide (take (length d) lp = d) then
    let n := drop (length d) lp in
    if bool_decide (n = []) || existsb (fun c => code c =? CHAR_FORWARD_SLASH) n
    then None else Some (str n)
  else None.

Definition ends_with (suffix s : string) : bool :=
  let ls := chars s in
  let lx := chars suffix in
  bool_decide (drop (length ls - length lx) ls = lx)
  && bool_decide (length lx <= length ls)%nat.

(* ===================================================================== *)
(** ** Process state and the monad of methods *)
(* ===================================================================== *)

(** A stream client: the callback registered with [addStreamClient].  Set
    membership is by identity ([cid]); [accepts frame] tells whether the call
    [client(frame)] returns ([true]) or raises ([false]).  A callback does
    not call back into the emulator. *)
Record client := Client {
  cid : nat;
  accepts : string -> bool
}.

(** One call [client(frame)] made by the broadcaster. *)
Record delivery := Delivery {
  d_client : nat;
  d_frame : string;
  d_returned : bool
}.

Section Model.
Context `{Platform}.

(** The fields of [GameBoyEmulator].  [frames] is a ghost field: the number
    of calls of [this.gameboy.doFrame()] made so far (the tick counter). *)
Record Emulator := mkEmulator {
  gameboy : core;
  frames : nat;
  canvas : list Z;
  romLoaded : bool;
  romPath : option string;
  gameName : option string;
  streamActive : bool;
  streamClients : list client
}.

(** The whole process: the emulator instance, the disk, the clock, the
    source of random ids, and ghost logs of what the broadcaster did. *)
Record state := mkState {
  emulator : Emulator;
  fs : gmap string node;
  now : Z;
  entropy : nat -> string;
  drawn : nat;
  deliveries : list delivery;  (* ghost: callback calls, oldest first *)
  timers : list Z;             (* ghost: pending [setTimeout] delays *)
  copies : nat                 (* ghost: calls of [fs.copyFileSync] that wrote *)
}.

Inductive outcome (R : Type) :=
  | Ok (s : state) (r : R)
  | Throw (s : state) (e : exn)
  | Hang.                      (* the call does not return *)

Definition M (R : Type) : Type := state -> outcome R.

Definition ret {R} (r : R) : M R := fun s => Ok R s r.

Definition bind {R Q} (m : M R) (k : R -> M Q) : M Q :=
  fun s =>
    match m s with
    | Ok _ s' r => k r s'
    | Throw _ s' e => Throw Q s' e
    | Hang _ => Hang Q
    end.

Definition throw {R} (e : exn) : M R := fun s => Throw R s e.

Definition get : M state := fun s => Ok state s s.

Definition modify (f : state -> state) : M unit := fun s => Ok unit (f s) tt.

(** [try { m } catch { h }] *)
Definition try_catch {R} (m : M R) (h : exn -> M R) : M R :=
  fun s =>
    match m s with
    | Throw _ s' e => h e s'
    | o => o
    end.

End Model.

Arguments Ok {_ R} s r.
Arguments Throw {_ R} s e.
Arguments Hang {_ R}.

Notation "'let*' x ':=' m 'in' k" := (bind m (fun x => k))
  (at level 10, x pattern, m at level 100, k at level 200).
Notation "'do*' m 'in' k" := (bind m (fun _ => k))
  (at level 10, m at level 100, k at level 200).

Section Operations.
Context `{Platform}.

Definition set_emulator (e : Emulator) (s : state) : state :=
  mkState e (fs s) (now s) (entropy s) (drawn s) (deliveries s) (timers s) (copies s).

Definition set_fs (f : gmap string node) (s : state) : state :=
  mkState (emulator s) f (now s) (entropy s) (drawn s) (deliveries s) (timers s) (copies s).

Definition set_now (t : Z) (s : state) : state :=
  mkState (emulator s) (fs s) t (entropy s) (drawn s) (deliveries s) (timers s) (copies s).

Definition this : M Emulator := fun s => Ok s (emulator s).

Definition update_this (f : Emulator -> Emulator) : M unit :=
  modify (fun s => set_emulator (f (emulator s)) s).

(** [new Date().toISOString()] *)
Definition new_Date_toISOString : M string := fun s => Ok s (toISOString (now s)).

(* --------------------------------------------------------------------- *)
(** *** The [fs] module *)

Definition existsSync (p : string) : M bool :=
  fun s => Ok s (bool_decide (is_Some (fs s !! p))).

(** [fs.mkdirSync(dir, { recursive: true })], as far as the flat map goes:
    only [dir] itself gets a key.  The missing directories above [dir],
    which the call makes as well, are not recorded, and a regular file
    above [dir] (for which the call raises [ENOTDIR]) is not looked at.
    So the properties below say which regular files an operation adds or
    changes and which paths it keeps, and count new directories only where
    [ensureDir] finds its directory in place and makes none. *)
Definition mkdirSync (dir : string) : M unit :=
  fun s =>
    match fs s !! dir with
    | Some (File _ _) => Throw s (SystemError "EEXIST" dir)
    | Some (Dir _) => Ok s tt
    | None => Ok (set_fs (<[dir := Dir (now s)]> (fs s)) s) tt
    end.

(** [fs.statSync(p).mtime], as milliseconds *)
Definition statSync_mtime (p : string) : M Z :=
  fun s =>
    match fs s !! p with
    | Some n => Ok s (node_mtime n)
    | None => Throw s (SystemError "ENOENT" p)
    end.

Definition readFileSync (p : string) : M content :=
  fun s =>
    match fs s !! p with
    | Some (File _ d) => Ok s d
    | Some (Dir _) => Throw s (SystemError "EISDIR" p)
    | None => Throw s (SystemError "ENOENT" p)
    end.

Definition writeFileSync (p : string) (d : content) : M unit :=
  fun s =>
    match fs s !! p with
    | Some (Dir _) => Throw s (SystemError "EISDIR" p)
    | _ => Ok (set_fs (<[p := File (now s) d]> (fs s)) s) tt
    end.

Definition count_copy (s : state) : state :=
  mkState (emulator s) (fs s) (now s) (entropy s) (drawn s) (deliveries s)
          (timers s) (S (copies s)).

Definition copyFileSync (src dest : string) : M unit :=
  let* d := readFileSync src in
  do* writeFileSync dest d in
  modify count_copy.

Definition unlinkSync (p : string) : M unit :=
  fun s =>
    match fs s !! p with
    | Some (File _ _) => Ok (set_fs (delete p (fs s)) s) tt
    | Some (Dir _) => Throw s (SystemError "EISDIR" p)
    | None => Throw s (SystemError "ENOENT" p)
    end.

Definition readdirSync (dir : string) : M (list string) :=
  fun s =>
    match fs s !! dir with
    | Some (Dir _) =>
        Ok s (omap (fun kv => entry_name dir kv.1) (map_to_list (fs s)))
    | Some (File _ _) => Throw s (SystemError "ENOTDIR" dir)
    | None => Throw s (SystemError "ENOENT" dir)
    end.

(** [JSON.parse(fs.readFileSync(p, 'utf-8'))] *)
Definition JSON_parse (d : content) : M json :=
  match d with
  | Json v => ret v
  | Raw _ => throw SyntaxError
  end.

End Operations.

(* ===================================================================== *)
(** ** Types and helper functions of the server *)
(* ===================================================================== *)

Record SaveStateMetadata := mkSaveStateMetadata {
  ss_id : string;
  ss_name : string;
  ss_gameName : string;
  ss_timestamp : string;
  ss_screenshotBase64 : string
}.

Record InstalledGame := mkInstalledGame {
  ig_name : string;
  ig_romPath : string;
  ig_savesDir : string;
  ig_installedAt : string
}.

(** The object that [JSON.stringify(metadata, null, 2)] serialises. *)
Definition metadata_json (m : SaveStateMetadata) : json :=
  JObj [("id", JStr (ss_id m)); ("name", JStr (ss_name m));
        ("gameName", JStr (ss_gameName m)); ("timestamp", JStr (ss_timestamp m));
        ("screenshotBase64", JStr (ss_screenshotBase64 m))].

Definition game_json (name originalPath installedAt : string) : json :=
  JObj [("name", JStr name); ("originalPath", JStr originalPath);
        ("installedAt", JStr installedAt)].

(** Truthiness of a string, and of [string | undefined]. *)
Definition truthy (s : string) : bool := negb (bool_decide (s = "")).

Definition truthy_opt (o : option string) : bool :=
  match o with
  | Some s => truthy s
  | None => false
  end.

(** [a || b] on [string | undefined] *)
Definition or_else (a b : option string) : option string :=
  if truthy_opt a then a else b.

Section Helpers.
Context `{Platform}.

Definition GAMEBOY_HOME : string := path_join homedir ".gameboy-mcp".
Definition GAMES_DIR : string := path_join GAMEBOY_HOME "games".

Definition ensureDir (dir : string) : M unit :=
  let* e := existsSync dir in
  if negb e then mkdirSync dir else ret tt.

(** [crypto.randomBytes(4).toString('hex')]: the next id of the random
    source. *)
Definition generateId : M string :=
  fun s =>
    Ok (mkState (emulator s) (fs s) (now s) (entropy s) (S (drawn s))
                (deliveries s) (timers s) (copies s))
       (entropy s (drawn s)).

Definition getGameDir (gameName : string) : string :=
  path_join GAMES_DIR gameName.

Definition getSavesDir (gameName : string) : string :=
  path_join (getGameDir gameName) "saves".

End Helpers.

(* ===================================================================== *)
(** ** [class GameBoyEmulator] *)
(* ===================================================================== *)

Module GameBoyEmulator.
Section Methods.
Context `{Platform}.

Definition constructor : Emulator :=
  mkEmulator gb_new 0 (replicate (160 * 144 * 4) 0) false None None false [].

(** [this.gameboy.doFrame()], counted in the ghost field [frames]. *)
Definition gameboy_doFrame : M unit :=
  update_this (fun e =>
    mkEmulator (gb_doFrame (gameboy e)) (S (frames e)) (canvas e) (romLoaded e)
               (romPath e) (gameName e) (streamActive e) (streamClients e)).

Definition gameboy_pressKeys (keys : list Z) : M unit :=
  update_this (fun e =>
    mkEmulator (gb_pressKeys keys (gameboy e)) (frames e) (canvas e) (romLoaded e)
               (romPath e) (gameName e) (streamActive e) (streamClients e)).

Definition set_clients (cs : list client) (e : Emulator) : Emulator :=
  mkEmulator (gameboy e) (frames e) (canvas e) (romLoaded e)
             (romPath e) (gameName e) (streamActive e) cs.

Definition set_streamActive (b : bool) (e : Emulator) : Emulator :=
  mkEmulator (gameboy e) (frames e) (canvas e) (romLoaded e)
             (romPath e) (gameName e) b (streamClients e).

Definition set_canvas (c : list Z) (e : Emulator) : Emulator :=
  mkEmulator (gameboy e) (frames e) c (romLoaded e)
             (romPath e) (gameName e) (streamActive e) (streamClients e).

(** [for (let i = 0; i < n; i++) body], for an integer [n]. *)
Fixpoint repeat_M (n : nat) (body : M unit) : M unit :=
  match n with
  | O => ret tt
  | S k => do* body in repeat_M k body
  end.

Definition installRom (sourcePath : string) (customName : option string)
    : M InstalledGame :=
  let* src_exists := existsSync sourcePath in
  if negb src_exists then
    throw (Error ("ROM file not found: " +:+ sourcePath))
  else
    let gameName :=
      if truthy_opt customName then default "" customName
      else sanitizeGameName sourcePath in
    let gameDir := getGameDir gameName in
    let destRomPath := path_join gameDir ("rom" +:+ extname sourcePath) in
    let savesDir := getSavesDir gameName in
    do* ensureDir gameDir in
    do* ensureDir savesDir in
    let* dest_exists := existsSync destRomPath in
    do* (if negb dest_exists then copyFileSync sourcePath destRomPath
         else
           let* src_mtime := statSync_mtime sourcePath in
           let* dest_mtime := statSync_mtime destRomPath in
           if src_mtime >? dest_mtime then copyFileSync sourcePath destRomPath
           else ret tt) in
    let metadataPath := path_join gameDir "game.json" in
    let* installedAt := new_Date_toISOString in
    do* writeFileSync metadataPath (Json (game_json gameName sourcePath installedAt)) in
    ret (mkInstalledGame gameName destRomPath savesDir installedAt).

Definition loadRom (romPathOrGameName : string) : M unit :=
  let gameDir := getGameDir romPathOrGameName in
  let potentialRomGb := path_join gameDir "rom.gb" in
  let potentialRomGbc := path_join gameDir "rom.gbc" in
  let* gb_exists := existsSync potentialRomGb in
  let* found :=
    (if gb_exists then ret (potentialRomGb, romPathOrGameName)
     else
       let* gbc_exists := existsSync potentialRomGbc in
       if gbc_exists then ret (potentialRomGbc, romPathOrGameName)
       else
         let* ext_exists := existsSync romPathOrGameName in
         if ext_exists then
           let* installed := installRom romPathOrGameName None in
           ret (ig_romPath installed, ig_name installed)
         else throw (Error ("ROM not found: " +:+ romPathOrGameName))) in
  let '(actualRomPath, name) := found in
  let* rom := readFileSync actualRomPath in
  update_this (fun e =>
    mkEmulator (gb_loadRom rom (gameboy e)) (frames e) (canvas e) true
               (Some actualRomPath) (Some name) (streamActive e) (streamClients e)).

Definition getGameName : M (option string) :=
  let* e := this in ret (gameName e).

(** A [Uint8ClampedArray] cell keeps its value within [0, 255]. *)
Definition clamp8 (x : Z) : Z := Z.max 0 (Z.min 255 x).

(** [for (i = 0; i < screenData.length; i++) imageData.data[i] = screenData[i]]
    on a fresh [createImageData(160, 144)]; a store past the end of the
    typed array is dropped. *)
Fixpoint fill_imageData (i : nat) (screenData data : list Z) : list Z :=
  match screenData with
  | [] => data
  | x :: r => fill_imageData (S i) r (<[i := clamp8 x]> data)
  end.

Definition render (screenData : list Z) : list Z :=
  fill_imageData 0 screenData (replicate (160 * 144 * 4) 0).

Definition getScreenAsBuffer : M string :=
  let* e := this in
  if negb (romLoaded e) then throw (Error "No ROM loaded")
  else
    let screenData := gb_getScreen (gameboy e) in
    let imageData := render screenData in
    do* update_this (set_canvas imageData) in
    ret (canvas_toBuffer imageData).

Definition getScreenAsBase64 : M string :=
  let* b := getScreenAsBuffer in ret (base64 b).

Definition saveState (name : option string) : M SaveStateMetadata :=
  let* e := this in
  if negb (romLoaded e) || negb (truthy_opt (gameName e)) then
    throw (Error "No ROM loaded")
  else
    let game := default "" (gameName e) in
    let savesDir := getSavesDir game in
    do* ensureDir savesDir in
    let* id := generateId in
    let stateName := if truthy_opt name then default "" name else "save-" +:+ id in
    let* timestamp := new_Date_toISOString in
    let state := gb_saveState (gameboy e) in
    let* screenshotBase64 := getScreenAsBase64 in
    let stateFile := path_join savesDir (id +:+ ".state.json") in
    do* writeFileSync stateFile (Json state) in
    let metadata := mkSaveStateMetadata id stateName game timestamp screenshotBase64 in
    let metadataFile := path_join savesDir (id +:+ ".meta.json") in
    do* writeFileSync metadataFile (Json (metadata_json metadata)) in
    ret metadata.

(** [this.gameboy.returnFromState(state)] *)
Definition gameboy_returnFromState (st : json) : M unit :=
  let* e := this in
  let '(c, returned) := gb_returnFromState st (gameboy e) in
  do* update_this (fun e =>
    mkEmulator c (frames e) (canvas e) (romLoaded e)
               (romPath e) (gameName e) (streamActive e) (streamClients e)) in
  if returned then ret tt else throw CoreError.

(** The result is the parsed metadata file, cast to [SaveStateMetadata]
    without a check. *)
Definition loadState (stateId : string) : M json :=
  let* e := this in
  if negb (romLoaded e) || negb (truthy_opt (gameName e)) then
    throw (Error "No ROM loaded")
  else
    let savesDir := getSavesDir (default "" (gameName e)) in
    let stateFile := path_join savesDir (stateId +:+ ".state.json") in
    let metadataFile := path_join savesDir (stateId +:+ ".meta.json") in
    let* state_exists := existsSync stateFile in
    if negb state_exists then
      throw (Error ("Save state not found: " +:+ stateId))
    else
      let* state_text := readFileSync stateFile in
      let* st := JSON_parse state_text in
      let* metadata_text := readFileSync metadataFile in
      let* metadata := JSON_parse metadata_text in
      do* gameboy_returnFromState st in
      ret metadata.

(** [new Date(v.timestamp).getTime()] for a parsed metadata value [v]:
    [None] when reading the property raises (on [null]), [Some None] when
    the date is invalid ([NaN]).  An array or object found in place of the
    timestamp is taken as an invalid date. *)
Definition lookup_field (k : string) (fields : list (string * json)) : option json :=
  snd <$> List.find (fun kv => bool_decide (kv.1 = k)) fields.

Definition timestamp_getTime (v : json) : option (option Z) :=
  match v with
  | JNull => None
  | JObj fields =>
      Some match lookup_field "timestamp" fields with
           | Some (JStr s) => date_getTime s
           | Some (JNum n) =>
               if Z.abs n <=? 8640000000000000 then Some n else None
           | Some JNull => Some 0
           | Some (JBool b) => Some (if b then 1 else 0)
           | _ => None
           end
  | _ => Some None
  end.

(** The comparator [(a, b) => getTime(b) - getTime(a)] is positive. *)
Definition after (a b : option Z) : bool :=
  match a, b with
  | Some ta, Some tb => 0 <? tb - ta
  | _, _ => false
  end.

Fixpoint insert_sorted (x : json * option Z) (l : list (json * option Z))
    : list (json * option Z) :=
  match l with
  | [] => [x]
  | y :: r => if after y.2 x.2 then x :: y :: r else y :: insert_sorted x r
  end.

(** [Array.prototype.sort] with that comparator: a stable sort, newest
    first.  With two or more elements every element is compared, so a
    [null] among them raises. *)
Definition sort_by_timestamp (l : list json) : M (list json) :=
  match l with
  | [] | [_] => ret l
  | _ =>
      match mapM (fun v => (fun t => (v, t)) <$> timestamp_getTime v) l with
      | None => throw TypeError
      | Some keyed => ret (fst <$> foldl (fun acc x => insert_sorted x acc) [] keyed)
      end
  end.

Fixpoint map_M {X Y} (f : X -> M Y) (l : list X) : M (list Y) :=
  match l with
  | [] => ret []
  | x :: r => let* y := f x in let* ys := map_M f r in ret (y :: ys)
  end.

Definition listStates (name : option string) : M (list json) :=
  let* e := this in
  let targetGame := or_else name (gameName e) in
  if negb (truthy_opt targetGame) then ret []
  else
    let savesDir := getSavesDir (default "" targetGame) in
    let* dir_exists := existsSync savesDir in
    if negb dir_exists then ret []
    else
      let* entries := readdirSync savesDir in
      let metaFiles := filter (fun f => ends_with ".meta.json" f = true) entries in
      let* parsed :=
        map_M (fun f =>
                 let* text := readFileSync (path_join savesDir f) in
                 JSON_parse text) metaFiles in
      sort_by_timestamp parsed.

Definition deleteState (stateId : string) (name : option string) : M bool :=
  let* e := this in
  let targetGame := or_else name (gameName e) in
  if negb (truthy_opt targetGame) then ret false
  else
    let savesDir := getSavesDir (default "" targetGame) in
    let stateFile := path_join savesDir (stateId +:+ ".state.json") in
    let metadataFile := path_join savesDir (stateId +:+ ".meta.json") in
    let deleted := false in
    let* state_exists := existsSync stateFile in
    let* deleted :=
      (if state_exists then do* unlinkSync stateFile in ret true
       else ret deleted) in
    let* metadata_exists := existsSync metadataFile in
    let* deleted :=
      (if metadata_exists then do* unlinkSync metadataFile in ret true
       else ret deleted) in
    ret deleted.

(** [durationFrames] defaults to 1; the loop runs for an integer count. *)
Definition pressButton (button : GameBoyButton) (durationFrames : option Z) : M unit :=
  let durationFrames := default 1 durationFrames in
  let* e := this in
  if negb (romLoaded e) then throw (Error "No ROM loaded")
  else
    do* repeat_M (Z.to_nat durationFrames)
          (do* gameboy_pressKeys [KEYMAP button] in gameboy_doFrame) in
    gameboy_doFrame.

Definition doFrame : M unit :=
  let* e := this in
  if negb (romLoaded e) then throw (Error "No ROM loaded")
  else gameboy_doFrame.

Definition getRomPath : M (option string) :=
  let* e := this in ret (romPath e).

Definition isRomLoaded : M bool :=
  let* e := this in ret (romLoaded e).

Definition isStreamActive : M bool :=
  let* e := this in ret (streamActive e).

(* --------------------------------------------------------------------- *)
(** *** Streaming *)

(** [Math.ceil(60 / STREAM_FPS)]; with [STREAM_FPS = 0] the quotient is
    [Infinity] and the loop over it does not end. *)
Definition framesToAdvance : option nat :=
  if STREAM_FPS =? 0 then None
  else Some (Z.to_nat (- ((- 60) / STREAM_FPS))).

(** [Math.floor(1000 / STREAM_FPS)] *)
Definition frameInterval : Z := 1000 / STREAM_FPS.

Definition setTimeout (delay : Z) : M unit :=
  modify (fun s =>
    mkState (emulator s) (fs s) (now s) (entropy s) (drawn s) (deliveries s)
            (timers s ++ [delay]) (copies s)).

(** The call [client(frame)]. *)
Definition call_client (c : client) (frame : string) : M unit :=
  fun s =>
    let returned := accepts c frame in
    let s' := mkState (emulator s) (fs s) (now s) (entropy s) (drawn s)
                (deliveries s ++ [Delivery (cid c) frame returned])
                (timers s) (copies s) in
    if returned then Ok s' tt else Throw s' (Error "client").

(** [this.streamClients.delete(client)] *)
Definition delete_client (c : client) : M unit :=
  update_this (fun e =>
    set_clients (filter (fun c' => cid c' <> cid c) (streamClients e)) e).

(** [for (const client of this.streamClients) try { client(frame) } catch
    { this.streamClients.delete(client) }]: deleting the element being
    visited leaves the rest of the iteration as it was. *)
Fixpoint broadcast (frame : string) (cs : list client) : M unit :=
  match cs with
  | [] => ret tt
  | c :: r =>
      do* try_catch (call_client c frame) (fun _ => delete_client c) in
      broadcast frame r
  end.

(** The closure [tick] of [runStreamLoop]. *)
Definition tick : M unit :=
  let* e := this in
  if negb (streamActive e) || negb (romLoaded e) then ret tt
  else
    match framesToAdvance with
    | None => fun _ => Hang
    | Some n =>
        do* repeat_M n gameboy_doFrame in
        let* e := this in
        do* (if (0 <? length (streamClients e))%nat then
               let* frame := getScreenAsBuffer in
               broadcast frame (streamClients e)
             else ret tt) in
        setTimeout frameInterval
    end.

Definition runStreamLoop : M unit :=
  let* e := this in
  if negb (streamActive e) || negb (romLoaded e) then ret tt
  else tick.

Definition startStream : M unit :=
  let* e := this in
  if streamActive e then ret tt
  else
    do* update_this (set_streamActive true) in
    runStreamLoop.

Definition stopStream : M unit :=
  do* update_this (set_streamActive false) in
  update_this (set_clients []).

(** [this.streamClients.add(callback)]; the function it returns is
    [unsubscribe]. *)
Definition addStreamClient (callback : client) : M unit :=
  update_this (fun e =>
    if bool_decide (cid callback ∈ cid <$> streamClients e) then e
    else set_clients (streamClients e ++ [callback]) e).

Definition unsubscribe (callback : client) : M unit := delete_client callback.

End Methods.

Arguments render : simpl never.
Arguments constructor : simpl never.

End GameBoyEmulator.

(* ===================================================================== *)
(** ** Module-level functions and the tool handler *)
(* ===================================================================== *)

Inductive content_item :=
  | ImageContent (data mimeType : string)
  | TextContent (text : string).

Record response := mkResponse {
  r_content : list content_item;
  r_isError : bool
}.

(** A [tools/call] request, after the tool name has been matched. *)
Inductive tool_call :=
  | press (button : GameBoyButton) (duration_frames : option Z)
  | wait_frames (frames : option Z)
  | get_screen
  | stop_live_view
  | delete_state (state_id game_name : option string).

(** [error.message]; for the exceptions of the platform only the error
    code is kept. *)
Definition exn_message (e : exn) : string :=
  match e with
  | Error m => m
  | SystemError c p => c +:+ ": " +:+ p
  | SyntaxError => "Unexpected token in JSON"
  | TypeError => "Cannot read properties of null"
  | CoreError => "core"
  end.

Section Server.
Context `{Platform}.

Definition getScreen : M content_item :=
  let* data := GameBoyEmulator.getScreenAsBase64 in
  ret (ImageContent data "image/png").

Definition advanceFrames (count : Z) : M unit :=
  GameBoyEmulator.repeat_M (Z.to_nat count) GameBoyEmulator.doFrame.

Definition pressButton (button : GameBoyButton) (durationFrames : Z) : M content_item :=
  let* loaded := GameBoyEmulator.isRomLoaded in
  if negb loaded then throw (Error "No ROM loaded")
  else
    do* GameBoyEmulator.pressButton button (Some durationFrames) in
    getScreen.

Definition waitFrames (frames : Z) : M content_item :=
  let* loaded := GameBoyEmulator.isRomLoaded in
  if negb loaded then throw (Error "No ROM loaded")
  else
    do* GameBoyEmulator.repeat_M (Z.to_nat frames) GameBoyEmulator.doFrame in
    getScreen.

Definition error_response (text : string) : response :=
  mkResponse [TextContent text] true.

(** The [CallToolRequestSchema] handler: the body of the [try], and the
    [catch] that turns a raised exception into an error response. *)
Definition call_tool_body (call : tool_call) : M response :=
  match call with
  | press button duration_frames =>
      let durationFrames := default 25 duration_frames in
      let* _ := pressButton button durationFrames in
      let* screen := getScreen in
      ret (mkResponse
             [screen;
              TextContent ("Pressed " +:+ button_name button +:+ " for "
                           +:+ pretty durationFrames +:+ " frames.")]
             false)
  | wait_frames frames =>
      let frames := default 100 frames in
      let* _ := waitFrames frames in
      let* screen := getScreen in
      ret (mkResponse
             [screen; TextContent ("Waited " +:+ pretty frames +:+ " frames.")]
             false)
  | get_screen =>
      let* loaded := GameBoyEmulator.isRomLoaded in
      if negb loaded then ret (error_response "Error: No ROM loaded")
      else
        do* GameBoyEmulator.doFrame in
        let* screen := getScreen in
        ret (mkResponse [screen] false)
  | stop_live_view =>
      do* GameBoyEmulator.stopStream in
      ret (mkResponse [TextContent "Live view stopped."] false)
  | delete_state state_id game_name =>
      if negb (truthy_opt state_id) then
        ret (error_response "Error: state_id is required")
      else
        let stateId := default "" state_id in
        let* deleted := GameBoyEmulator.deleteState stateId game_name in
        ret (mkResponse
               [TextContent (if deleted then "Deleted save state " +:+ stateId
                             else "Save state " +:+ stateId +:+ " not found")]
               false)
  end.

Definition call_tool (call : tool_call) : M response :=
  try_catch (call_tool_body call)
            (fun error => ret (error_response ("Error: " +:+ exn_message error))).

End Server.

(* ===================================================================== *)
(** ** Closed forms of the loops *)
(* ===================================================================== *)

Section Closed.
Context `{Platform}.

(** The emulator after [n] calls of [this.gameboy.doFrame()]. *)
Definition run_frames (n : nat) (e : Emulator) : Emulator :=
  mkEmulator (Nat.iter n gb_doFrame (gameboy e)) (n + frames e) (canvas e)
             (romLoaded e) (romPath e) (gameName e) (streamActive e)
             (streamClients e).

(** The emulator after [n] rounds of [pressKeys([key])] and [doFrame()]. *)
Definition hold_frames (key : Z) (n : nat) (e : Emulator) : Emulator :=
  mkEmulator (Nat.iter n (fun c => gb_doFrame (gb_pressKeys [key] c)) (gameboy e))
             (n + frames e) (canvas e) (romLoaded e) (romPath e) (gameName e)
             (streamActive e) (streamClients e).

(** The PNG of the screen the core currently shows. *)
Definition current_frame (e : Emulator) : string :=
  canvas_toBuffer (GameBoyEmulator.render (gb_getScreen (gameboy e))).

(** The emulator after its canvas has been redrawn from the core's screen:
    the only trace that [getScreenAsBuffer] leaves. *)
Definition redrawn (e : Emulator) : Emulator :=
  GameBoyEmulator.set_canvas
    (GameBoyEmulator.render (gb_getScreen (gameboy e))) e.

Definition delivery_of (frame : string) (c : client) : delivery :=
  Delivery (cid c) frame (accepts c frame).

(** The ids of the clients whose callback raises on [frame]. *)
Definition raising (frame : string) (cs : list client) : list nat :=
  cid <$> filter (fun c => accepts c frame = false) cs.

(** The state after the broadcast loop has visited [cs]. *)
Definition after_broadcast (frame : string) (cs : list client) (s : state) : state :=
  mkState
    (GameBoyEmulator.set_clients
       (filter (fun c => cid c ∉ raising frame cs) (streamClients (emulator s)))
       (emulator s))
    (fs s) (now s) (entropy s) (drawn s)
    (deliveries s ++ (delivery_of frame <$> cs))
    (timers s) (copies s).

(** The two artifacts of snapshot [stateId] of [game]. *)
Definition stateFile_of (game stateId : string) : string :=
  path_join (getSavesDir game) (stateId +:+ ".state.json").

Definition metadataFile_of (game stateId : string) : string :=
  path_join (getSavesDir game) (stateId +:+ ".meta.json").

(** The game a snapshot operation works on: [gameName || this.gameName]. *)
Definition target_game (name : option string) (s : state) : option string :=
  or_else name (gameName (emulator s)).

(** [p] names a regular file that holds JSON text. *)
Definition readable (p : string) (s : state) : bool :=
  match fs s !! p with
  | Some (File _ (Json _)) => true
  | _ => false
  end.

Definition is_dir (p : string) (s : state) : bool :=
  match fs s !! p with
  | Some (Dir _) => true
  | _ => false
  end.

Definition present (p : string) (s : state) : bool :=
  bool_decide (is_Some (fs s !! p)).

(** The state after [ensureDir(dir)]. *)
Definition ensured (dir : string) (s : state) : state :=
  if present dir s then s
  else set_fs (<[dir := Dir (now s)]> (fs s)) s.

(** The name [installRom] gives a game: [customName || sanitizeGameName(sourcePath)]. *)
Definition install_name (sourcePath : string) (customName : option string) : string :=
  if truthy_opt customName then default "" customName
  else sanitizeGameName sourcePath.

Definition destRomPath_of (sourcePath gameName : string) : string :=
  path_join (getGameDir gameName) ("rom" +:+ extname sourcePath).

Definition metadataPath_of (gameName : string) : string :=
  path_join (getGameDir gameName) "game.json".

Definition mtime_of (p : string) (s : state) : Z :=
  match fs s !! p with
  | Some n => node_mtime n
  | None => 0
  end.

(** The test that guards [fs.copyFileSync] in [installRom]: no destination
    yet, or a source strictly newer than the destination. *)
Definition must_copy (src dest : string) (s : state) : bool :=
  negb (present dest s) || (mtime_of src s >? mtime_of dest s).

(** The state in which [installRom] makes that test: both directories
    have been ensured. *)
Definition dirs_ensured (gameName : string) (s : state) : state :=
  ensured (getSavesDir gameName) (ensured (getGameDir gameName) s).

(** The copy step of [installRom]. *)
Definition copy_step (src dest : string) : M unit :=
  let* dest_exists := existsSync dest in
  if negb dest_exists then copyFileSync src dest
  else
    let* src_mtime := statSync_mtime src in
    let* dest_mtime := statSync_mtime dest in
    if src_mtime >? dest_mtime then copyFileSync src dest
    else ret tt.

(** The state after a copy step that did not raise. *)
Definition copied (src dest : string) (s : state) : state :=
  if must_copy src dest s then
    match fs s !! src with
    | Some (File _ d) => count_copy (set_fs (<[dest := File (now s) d]> (fs s)) s)
    | _ => s
    end
  else s.

(** The state after an [installRom] that did not raise. *)
Definition installed (sourcePath : string) (customName : option string)
    (s : state) : state :=
  let name := install_name sourcePath customName in
  let sb := copied sourcePath (destRomPath_of sourcePath name) (dirs_ensured name s) in
  set_fs (<[metadataPath_of name :=
              File (now s) (Json (game_json name sourcePath (toISOString (now s))))]>
            (fs sb)) sb.

(** The core restores what it has just exported, and then shows the same
    screen. *)
Definition restores_own_export : Prop :=
  forall c : core,
    exists c2, gb_returnFromState (gb_saveState c) c = (c2, true)
               /\ gb_getScreen c2 = gb_getScreen c.

End Closed.

(* ===================================================================== *)
(** ** A small platform on which the model runs *)
(* ===================================================================== *)

(** A core whose whole state is a frame counter and the keys held for the
    next frame; its screen shows the counter. *)
Record counter_core := CounterCore {
  cc_rom : bool;
  cc_frame : Z;
  cc_keys : list Z
}.

Definition counter_restore (v : json) (c : counter_core) : counter_core * bool :=
  match v with
  | JNum n => (CounterCore (cc_rom c) n [], true)
  | _ => (c, false)
  end.

Definition counter_buffer (data : list Z) : string :=
  str ((fun x => ascii_of_N (Z.to_N x)) <$> take 4 data).

Definition counter_platform : Platform := {|
  core := counter_core;
  gb_new := CounterCore false 0 [];
  gb_loadRom := fun _ c => CounterCore true 0 [];
  gb_doFrame := fun c => CounterCore (cc_rom c) (cc_frame c + 1) [];
  gb_pressKeys := fun keys c => CounterCore (cc_rom c) (cc_frame c) keys;
  gb_getScreen := fun c => [cc_frame c mod 256; 48; 49; 255];
  gb_saveState := fun c => JNum (cc_frame c);
  gb_returnFromState := counter_restore;
  KEYMAP := fun b =>
    match b with
    | RIGHT => 0 | LEFT => 1 | UP => 2 | DOWN => 3
    | A => 4 | B => 5 | SELECT => 6 | START => 7
    end;
  canvas_toBuffer := counter_buffer;
  base64 := fun s => s;
  toISOString := fun t => pretty t;
  date_getTime := fun _ => None;
  homedir := "/home/user";
  STREAM_FPS := 15;
  STREAM_PORT := 3100
|}.

(** What running [m] from [s] leaves behind, and what it returns. *)
Definition state_after `{Platform} {R} (m : M R) (s : state) : state :=
  match m s with
  | Ok s' _ => s'
  | Throw s' _ => s'
  | Hang => s
  end.

Definition value_after `{Platform} {R} (m : M R) (s : state) (otherwise : R) : R :=
  match m s with
  | Ok _ r => r
  | _ => otherwise
  end.

Definition succeeds `{Platform} {R} (m : M R) (s : state) : bool :=
  match m s with
  | Ok _ _ => true
  | _ => false
  end.

Section Demo.
Local Existing Instance counter_platform.

Definition demo_source : string := "/tmp/Pokemon Red.gb".

(** The process right after start-up: [ensureDir(GAMES_DIR)] has run, one
    ROM file lies in [/tmp]. *)
Definition demo_boot : state :=
  state_after (ensureDir GAMES_DIR)
    (mkState GameBoyEmulator.constructor
       {[ demo_source := File 100 (Raw "ROM") ]}
       1000 (fun n => "5f3a9c0" +:+ pretty n) 0 [] [] 0).

(** After the [load_rom] tool: the ROM is installed and loaded, five
    warm-up ticks have run. *)
Definition demo_loaded : state :=
  state_after (do* GameBoyEmulator.loadRom demo_source in advanceFrames 5)
    demo_boot.

(** The stream has been started and nobody watches. *)
Definition demo_idle_stream : state :=
  state_after GameBoyEmulator.startStream demo_loaded.

(** Three clients are attached; the callback of the second one raises. *)
Definition demo_watched_stream : state :=
  state_after
    (do* GameBoyEmulator.addStreamClient (Client 1 (fun _ => true)) in
     do* GameBoyEmulator.addStreamClient (Client 2 (fun _ => false)) in
     GameBoyEmulator.addStreamClient (Client 3 (fun _ => true)))
    demo_idle_stream.

Definition demo_saved : state :=
  state_after (GameBoyEmulator.saveState (Some "checkpoint")) demo_loaded.

Definition demo_metadata : SaveStateMetadata :=
  value_after (GameBoyEmulator.saveState (Some "checkpoint")) demo_loaded
    (mkSaveStateMetadata "" "" "" "" "").

(** The saved state file has been overwritten with text that is not JSON. *)
Definition demo_corrupt : state :=
  set_fs (<[stateFile_of "pokemon-red" "5f3a9c00" := File 2000 (Raw "{")]>
            (fs demo_saved)) demo_saved.

Definition demo_installed : state :=
  state_after (GameBoyEmulator.installRom demo_source None) demo_boot.

Definition demo_game : InstalledGame :=
  value_after (GameBoyEmulator.installRom demo_source None) demo_boot
    (mkInstalledGame "" "" "" "").

End Demo.

(* ===================================================================== *)
(** ** Notions used by the further properties *)
(* ===================================================================== *)

(** A code unit that is neither a separator nor a dot. *)
Definition plain_char (c : ascii) : bool :=
  negb (code c =? CHAR_FORWARD_SLASH) && negb (code c =? CHAR_DOT).

(** Index [j] of [l] holds a code unit that is not a separator. *)
Definition plain_at (l : list ascii) (j : Z) : Prop :=
  exists c, l !! Z.to_nat j = Some c /\ (code c =? CHAR_FORWARD_SLASH) = false.

(** What the scan of [extname] knows before it visits index [i]. *)
Definition ext_inv (l : list ascii) (i : Z) (st : ext_state) : Prop :=
  if x_break st then
    x_startDot st <> -1 ->
    0 <= x_startDot st /\ forall j, x_startDot st <= j < x_end st -> plain_at l j
  else
    (x_matchedSlash st = true -> x_end st = -1)
    /\ (x_end st = -1 -> x_startDot st = -1)
    /\ (x_end st <> -1 -> i < x_end st /\ forall j, i < j < x_end st -> plain_at l j)
    /\ (x_startDot st <> -1 -> i < x_startDot st < x_end st).

(** The kept segments [acc] of [normalizeString] replay to themselves: each
    segment is pushed again on the segments below it. *)
Fixpoint stable (allowAboveRoot : bool) (acc : list (list ascii)) : Prop :=
  match acc with
  | [] => True
  | top :: rest =>
      stable allowAboveRoot rest
      /\ normalize_step allowAboveRoot rest top = top :: rest
  end.

(** A name that a directory entry can have. *)
Definition entry (f : list ascii) : Prop :=
  f <> [] /\ f <> [dot] /\ f <> [dot; dot] /\ no_slash f = true.

(** The emulator after [loadRom] has fed [rom], read from [path], to the
    core under the game name [name]. *)
Definition loaded_with `{Platform} (rom : content) (path name : string)
    (e : Emulator) : Emulator :=
  mkEmulator (gb_loadRom rom (gameboy e)) (frames e) (canvas e) true
             (Some path) (Some name) (streamActive e) (streamClients e).


Section Scenes.
Local Existing Instance counter_platform.

(** A second snapshot, taken after the first one, under a drawn name. *)
Definition demo_resaved : state :=
  state_after (GameBoyEmulator.saveState None) demo_saved.

Definition demo_metadata2 : SaveStateMetadata :=
  value_after (GameBoyEmulator.saveState None) demo_saved
    (mkSaveStateMetadata "" "" "" "" "").

(** The metadata file of the first snapshot has been overwritten with text
    that is not JSON. *)
Definition demo_bad_listing : state :=
  set_fs (<[metadataFile_of "pokemon-red" "5f3a9c00" := File 2000 (Raw "{")]>
            (fs demo_saved)) demo_saved.

(** The session after [loadRom] of the installed game by its name. *)
Definition demo_loaded_by_name : state :=
  state_after (GameBoyEmulator.loadRom "pokemon-red") demo_installed.

End Scenes.
(* ===================================================================== *)
(** * Properties *)
(* ===================================================================== *)

(** ** Strings *)

Lemma chars_str (l : list ascii) : chars (str l) = l.
Proof. apply String.list_ascii_of_string_of_list_ascii. Qed.

Lemma str_chars (s : string) : str (chars s) = s.
Proof. apply String.string_of_list_ascii_of_string. Qed.

Lemma chars_app (a b : string) : chars (a +:+ b) = chars a ++ chars b.
Proof.
  unfold chars. induction a as [|c a IH]; simpl; [done|]. by rewrite IH.
Qed.

Lemma chars_inj (a b : string) : chars a = chars b -> a = b.
Proof. intros E. rewrite <- (str_chars a), <- (str_chars b). by rewrite E. Qed.

Lemma lower_char_alnum (c : ascii) :
  is_alnum c = true -> id_char (lower_char c) = true.
Proof.
  destruct c as [[] [] [] [] [] [] [] []]; vm_compute; congruence.
Qed.

Lemma lower_char_dash (c : ascii) : is_dash (lower_char c) = is_dash c.
Proof. destruct c as [[] [] [] [] [] [] [] []]; vm_compute; congruence. Qed.

Lemma alnum_not_dash (c : ascii) : is_alnum c = true -> is_dash c = false.
Proof. destruct c as [[] [] [] [] [] [] [] []]; vm_compute; congruence. Qed.

Lemma replace_runs_class (b : bool) (l : list ascii) :
  forallb (fun c => is_alnum c || is_dash c) (replace_runs b l) = true.
Proof.
  revert b. induction l as [|c l IH]; intros b; simpl; [done|].
  destruct (is_alnum c) eqn:E; simpl.
  - by rewrite E, IH.
  - destruct b; simpl; by rewrite ?IH.
Qed.

(** The output of the replacement never has two dashes in a row, and does
    not start with a dash when it continues a run. *)
Lemma replace_runs_dashes (b : bool) (l : list ascii) :
  no_double_dash (replace_runs b l) = true
  /\ (b = true -> starts_with_dash (replace_runs b l) = false).
Proof.
  revert b. induction l as [|c l IH]; intros b; simpl; [done|].
  destruct (is_alnum c) eqn:E.
  - destruct (IH false) as [IH1 _]. split.
    + simpl. destruct (replace_runs false l) eqn:R; [done|].
      rewrite (alnum_not_dash c E). simpl. exact IH1.
    + intros _. simpl. by apply alnum_not_dash.
  - destruct (IH true) as [IH1 IH2]. destruct b.
    + split; [exact IH1 | intros _; by apply IH2].
    + split; [|done].
      simpl. specialize (IH2 eq_refl).
      destruct (replace_runs true l) eqn:R; [done|].
      simpl in IH2. rewrite IH2. simpl. exact IH1.
Qed.

Lemma toLowerCase_class (l : list ascii) :
  forallb (fun c => is_alnum c || is_dash c) l = true ->
  forallb id_char (toLowerCase l) = true.
Proof.
  induction l as [|c l IH]; simpl; [done|].
  intros [Hc Hl]%andb_true_iff. rewrite (IH Hl), andb_true_r.
  apply orb_true_iff in Hc as [Hc|Hc].
  - by apply lower_char_alnum.
  - unfold id_char. by rewrite lower_char_dash, Hc, orb_true_r.
Qed.

Lemma toLowerCase_dashes (l : list ascii) :
  no_double_dash (toLowerCase l) = no_double_dash l.
Proof.
  induction l as [|c l IH]; [done|].
  destruct l as [|c' l]; [done|].
  change (negb (is_dash (lower_char c) && is_dash (lower_char c'))
            && no_double_dash (toLowerCase (c' :: l))
          = negb (is_dash c && is_dash c') && no_double_dash (c' :: l)).
  by rewrite !lower_char_dash, IH.
Qed.

Lemma no_double_dash_tail (c : ascii) (l : list ascii) :
  no_double_dash (c :: l) = true -> no_double_dash l = true.
Proof. simpl. destruct l; [done|]. by intros [_ ?]%andb_true_iff. Qed.

Lemma no_double_dash_init (l : list ascii) (c : ascii) :
  no_double_dash (l ++ [c]) = true -> no_double_dash l = true.
Proof.
  induction l as [|a l IH]; [done|].
  destruct l as [|a' l]; [done|].
  change (no_double_dash (a :: a' :: l ++ [c]) = true ->
          no_double_dash (a :: a' :: l) = true).
  simpl. intros [H1 H2]%andb_true_iff. rewrite H1. simpl. apply IH. exact H2.
Qed.

Lemma no_double_dash_last (l : list ascii) (c : ascii) :
  no_double_dash (l ++ [c]) = true -> is_dash c = true ->
  starts_with_dash (rev l) = false.
Proof.
  induction l as [|a l IH]; [done|].
  intros Hn Hc. destruct l as [|a' l].
  - simpl in *. rewrite Hc, andb_true_r in Hn.
    by destruct (is_dash a).
  - change (no_double_dash (a :: a' :: l ++ [c]) = true) in Hn.
    simpl in Hn. apply andb_true_iff in Hn as [_ Hn].
    specialize (IH Hn Hc).
    simpl. simpl in IH.
    destruct (rev l ++ [a']) eqn:R; [by destruct (rev l)|].
    simpl. exact IH.
Qed.

Lemma forallb_init {X} (f : X -> bool) (l : list X) (c : X) :
  forallb f (l ++ [c]) = true -> forallb f l = true.
Proof. rewrite forallb_app. by intros [? _]%andb_true_iff. Qed.

Lemma starts_with_dash_init (l : list ascii) (c : ascii) :
  starts_with_dash (l ++ [c]) = false -> starts_with_dash l = false.
Proof. by destruct l. Qed.

(** What trimming the edges leaves: the class and the absence of double
    dashes are kept, and no dash remains at either end. *)
Lemma strip_edge_dashes_form (l : list ascii) :
  forallb id_char l = true -> no_double_dash l = true ->
  forallb id_char (strip_edge_dashes l) = true
  /\ no_double_dash (strip_edge_dashes l) = true
  /\ starts_with_dash (strip_edge_dashes l) = false
  /\ starts_with_dash (rev (strip_edge_dashes l)) = false.
Proof.
  intros Hc Hn. unfold strip_edge_dashes.
  set (l1 := match l with
             | c :: r => if is_dash c then r else l
             | [] => l
             end).
  assert (H1 : forallb id_char l1 = true /\ no_double_dash l1 = true
               /\ starts_with_dash l1 = false).
  { subst l1. destruct l as [|c r]; [done|].
    destruct (is_dash c) eqn:Ec.
    - simpl in Hc. apply andb_true_iff in Hc as [_ Hc].
      split; [done|]. split; [by eapply no_double_dash_tail|].
      destruct r as [|c' r]; [done|]. simpl in Hn.
      rewrite Ec in Hn. simpl in Hn. apply andb_true_iff in Hn as [Hn _].
      simpl. by destruct (is_dash c').
    - done. }
  clearbody l1. destruct H1 as (Hc1 & Hn1 & Hs1).
  destruct (rev l1) as [|c r] eqn:R.
  - rewrite R. done.
  - assert (El : l1 = rev r ++ [c]).
    { rewrite <- (rev_involutive l1), R. done. }
    destruct (is_dash c) eqn:Ec.
    + rewrite El in Hc1, Hn1, Hs1.
      split; [by eapply forallb_init|].
      split; [by eapply no_double_dash_init|].
      split; [by eapply starts_with_dash_init|].
      by eapply no_double_dash_last.
    + rewrite R. simpl. by rewrite Ec.
Qed.

Lemma sanitize_chars_form (l : list ascii) :
  forallb id_char (sanitize_chars l) = true
  /\ no_double_dash (sanitize_chars l) = true
  /\ starts_with_dash (sanitize_chars l) = false
  /\ starts_with_dash (rev (sanitize_chars l)) = false.
Proof.
  unfold sanitize_chars. apply strip_edge_dashes_form.
  - apply toLowerCase_class, replace_runs_class.
  - rewrite toLowerCase_dashes. apply replace_runs_dashes.
Qed.

(** The source's id is the specification's default id with the dashes at
    its two ends removed. *)
Lemma sanitizeGameName_spec (p : string) :
  sanitizeGameName p = str (strip_edge_dashes (chars (spec_default_id p))).
Proof.
  unfold sanitizeGameName, spec_default_id, spec_sanitize, sanitize_chars.
  by rewrite chars_str.
Qed.

Lemma sanitizeGameName_form (p : string) :
  sanitized_form (sanitizeGameName p) = true
  /\ no_edge_dash (sanitizeGameName p) = true.
Proof.
  unfold sanitized_form, no_edge_dash, sanitizeGameName. rewrite chars_str.
  destruct (sanitize_chars_form (chars (basename p (extname p))))
    as (H1 & H2 & H3 & H4).
  by rewrite H1, H2, H3, H4.
Qed.

(** ** Paths *)

Lemma split_slash_plain (t cur : list ascii) :
  no_slash t = true -> split_slash t cur = [rev cur ++ t].
Proof.
  revert cur. induction t as [|c t IH]; intros cur N; simpl.
  - by rewrite app_nil_r.
  - simpl in N. apply andb_true_iff in N as [Nc N].
    apply negb_true_iff in Nc. rewrite Nc, (IH _ N). simpl.
    by rewrite <- app_assoc.
Qed.

(** The last segment of a path that ends with a separator-free tail ends
    with this tail, and the segments before it do not depend on the tail. *)
Lemma split_slash_tail (l cur : list ascii) :
  exists init w, forall t,
    no_slash t = true -> split_slash (l ++ t) cur = init ++ [w ++ t].
Proof.
  revert cur. induction l as [|c l IH]; intros cur.
  - exists [], (rev cur). intros t N. by apply split_slash_plain.
  - simpl. destruct (code c =? CHAR_FORWARD_SLASH).
    + destruct (IH []) as (init & w & E).
      exists (rev cur :: init), w. intros t N. by rewrite (E t N).
    + destruct (IH (c :: cur)) as (init & w & E).
      exists init, w. intros t N. by rewrite (E t N).
Qed.

Lemma normalize_step_long (b : bool) (acc : list (list ascii)) (seg : list ascii) :
  (3 <= length seg)%nat -> normalize_step b acc seg = seg :: acc.
Proof.
  intros L. unfold normalize_step.
  rewrite !bool_decide_false; [done| |  |]; intros ->; simpl in L; lia.
Qed.

Lemma join_segments_snoc (xs : list (list ascii)) (y : list ascii) :
  join_segments (xs ++ [y]) = concat ((fun x => x ++ [slash]) <$> xs) ++ y.
Proof.
  induction xs as [|x xs IH]; [done|].
  change ((x :: xs) ++ [y]) with (x :: (xs ++ [y])).
  rewrite fmap_cons. simpl concat. rewrite <- !app_assoc. simpl.
  rewrite <- IH. by destruct (xs ++ [y]) eqn:E; [destruct xs|].
Qed.

Lemma normalize_chars_tail (l : list ascii) :
  exists pre, forall t,
    no_slash t = true -> (3 <= length t)%nat ->
    normalize_chars (l ++ t) = pre ++ t.
Proof.
  destruct (split_slash_tail l []) as (init & w & E).
  set (isAbs := match l with
                | c :: _ => code c =? CHAR_FORWARD_SLASH
                | [] => false
                end).
  set (acc := fold_left (normalize_step (negb isAbs)) init []).
  exists ((if isAbs then [slash] else [])
          ++ concat ((fun x => x ++ [slash]) <$> rev acc) ++ w).
  intros t N L.
  assert (Ht : exists c t', t = t' ++ [c] /\ (code c =? CHAR_FORWARD_SLASH) = false).
  { destruct (rev t) as [|c r] eqn:R.
    - apply (f_equal length) in R. rewrite length_rev in R. simpl in R. lia.
    - exists c, (rev r). split.
      + rewrite <- (rev_involutive t), R. done.
      + assert (Hin : no_slash (rev t) = true).
        { unfold no_slash in *. rewrite forallb_forall in *.
          intros x Hx. apply N. by apply in_rev. }
        rewrite R in Hin. simpl in Hin. apply andb_true_iff in Hin as [Hc _].
        by apply negb_true_iff. }
  destruct Ht as (cl & t' & Et & Hcl).
  assert (Hhead : match l ++ t with
                  | c :: _ => code c =? CHAR_FORWARD_SLASH
                  | [] => false
                  end = isAbs).
  { subst isAbs. destruct l as [|c l]; [|done]. simpl.
    destruct t as [|c t]; [done|]. simpl in N.
    apply andb_true_iff in N as [Nc _]. by apply negb_true_iff. }
  unfold normalize_chars.
  destruct (l ++ t) as [|c0 lt] eqn:Elt.
  { apply (f_equal length) in Elt. rewrite length_app in Elt. simpl in Elt. lia. }
  rewrite <- Elt. cbv zeta.
  replace (code c0 =? CHAR_FORWARD_SLASH) with isAbs.
  assert (Hlast : last (l ++ t) = Some cl).
  { rewrite Et, app_assoc. apply last_snoc. }
  rewrite Hlast, Hcl.
  unfold normalizeString. rewrite (E t N), fold_left_app. simpl fold_left.
  fold acc. rewrite normalize_step_long by (rewrite length_app; lia).
  simpl rev. rewrite join_segments_snoc.
  destruct (concat ((fun x => x ++ [slash]) <$> rev acc) ++ w ++ t) as [|p0 p] eqn:Ep.
  { apply (f_equal length) in Ep. rewrite !length_app in Ep. simpl in Ep. lia. }
  rewrite <- Ep. destruct isAbs; simpl; by rewrite <- ?app_assoc.
Qed.

Lemma path_join_tail (a b : string) :
  exists pre, forall t,
    no_slash t = true -> (3 <= length t)%nat ->
    chars (path_join a (b +:+ str t)) = pre ++ t.
Proof.
  destruct (normalize_chars_tail (chars b)) as (pre1 & E1).
  destruct (normalize_chars_tail (chars a ++ slash :: chars b)) as (pre2 & E2).
  exists (match chars a with [] => pre1 | _ => pre2 end).
  intros t N L. unfold path_join. rewrite chars_str, chars_app, chars_str.
  destruct (chars a) as [|ca la] eqn:Ea.
  - destruct (chars b ++ t) eqn:Eb.
    + apply (f_equal length) in Eb. rewrite length_app in Eb. simpl in Eb. lia.
    + rewrite <- Eb. by apply E1.
  - destruct (chars b ++ t) eqn:Eb.
    + apply (f_equal length) in Eb. rewrite length_app in Eb. simpl in Eb. lia.
    + rewrite <- Eb.
      replace ((ca :: la) ++ slash :: chars b ++ t)
        with (((ca :: la) ++ slash :: chars b) ++ t)
        by (by rewrite <- app_assoc).
      by apply E2.
Qed.

(** The state file and the metadata file of a snapshot are two files. *)
Lemma state_meta_distinct (dir stateId : string) :
  path_join dir (stateId +:+ ".state.json")
  <> path_join dir (stateId +:+ ".meta.json").
Proof.
  destruct (path_join_tail dir stateId) as (pre & E).
  intros Eq. apply (f_equal chars) in Eq.
  pose proof (E (chars ".state.json") eq_refl ltac:(simpl; lia)) as E1.
  pose proof (E (chars ".meta.json") eq_refl ltac:(simpl; lia)) as E2.
  rewrite str_chars in E1, E2. rewrite E1, E2 in Eq.
  apply app_inv_head in Eq. discriminate.
Qed.

(** ** The monad *)

Ltac state_simpl :=
  cbn [set_fs set_emulator set_now count_copy
       emulator fs now entropy drawn deliveries timers copies
       gameboy frames canvas romLoaded romPath gameName streamActive
       streamClients].

Opaque path_join sanitizeGameName extname.

Section Properties.
Context `{Platform}.

Lemma bind_Ok {R Q} (m : M R) (k : R -> M Q) s s' r :
  m s = Ok s' r -> bind m k s = k r s'.
Proof. unfold bind. by intros ->. Qed.

Lemma bind_Throw {R Q} (m : M R) (k : R -> M Q) s s' e :
  m s = Throw s' e -> bind m k s = Throw s' e.
Proof. unfold bind. by intros ->. Qed.

Lemma set_emulator_id s : set_emulator (emulator s) s = s.
Proof. by destruct s. Qed.

Lemma run_frames_0 e : run_frames 0 e = e.
Proof. by destruct e. Qed.

Lemma run_frames_S n e : run_frames n (run_frames 1 e) = run_frames (S n) e.
Proof.
  unfold run_frames. state_simpl. f_equal.
  - symmetry. apply Nat.iter_succ_r.
  - lia.
Qed.

Lemma hold_frames_S key n e :
  hold_frames key n
    (mkEmulator (gb_doFrame (gb_pressKeys [key] (gameboy e))) (S (frames e))
       (canvas e) (romLoaded e) (romPath e) (gameName e) (streamActive e)
       (streamClients e))
  = hold_frames key (S n) e.
Proof.
  unfold hold_frames. state_simpl. f_equal.
  - symmetry.
    exact (Nat.iter_succ_r n (fun c => gb_doFrame (gb_pressKeys [key] c)) (gameboy e)).
  - lia.
Qed.

(** ** The session controller *)

Lemma gameboy_doFrame_run s :
  GameBoyEmulator.gameboy_doFrame s = Ok (set_emulator (run_frames 1 (emulator s)) s) tt.
Proof. reflexivity. Qed.

Lemma repeat_doFrame n s :
  GameBoyEmulator.repeat_M n GameBoyEmulator.gameboy_doFrame s
  = Ok (set_emulator (run_frames n (emulator s)) s) tt.
Proof.
  revert s. induction n as [|n IH]; intros s.
  - simpl. unfold ret. by rewrite run_frames_0, set_emulator_id.
  - simpl GameBoyEmulator.repeat_M. erewrite bind_Ok by apply gameboy_doFrame_run.
    rewrite IH. unfold set_emulator. state_simpl. by rewrite run_frames_S.
Qed.

Lemma repeat_hold key n s :
  GameBoyEmulator.repeat_M n (do* GameBoyEmulator.gameboy_pressKeys [key] in GameBoyEmulator.gameboy_doFrame) s
  = Ok (set_emulator (hold_frames key n (emulator s)) s) tt.
Proof.
  revert s. induction n as [|n IH]; intros s.
  - simpl. unfold ret. destruct s as [e ? ? ? ? ? ? ?]. by destruct e.
  - simpl GameBoyEmulator.repeat_M.
    erewrite bind_Ok by reflexivity.
    rewrite IH. unfold update_this, modify, set_emulator. state_simpl.
    by rewrite hold_frames_S.
Qed.

Lemma getScreenAsBuffer_loaded s :
  romLoaded (emulator s) = true ->
  GameBoyEmulator.getScreenAsBuffer s
  = Ok (set_emulator (redrawn (emulator s)) s)
       (current_frame (emulator s)).
Proof.
  intros L. unfold GameBoyEmulator.getScreenAsBuffer, bind, this. simpl. by rewrite L.
Qed.

Lemma getScreenAsBuffer_unloaded s :
  romLoaded (emulator s) = false ->
  GameBoyEmulator.getScreenAsBuffer s = Throw s (Error "No ROM loaded").
Proof.
  intros L. unfold GameBoyEmulator.getScreenAsBuffer, bind, this. simpl. by rewrite L.
Qed.

Lemma getScreen_loaded s :
  romLoaded (emulator s) = true ->
  getScreen s
  = Ok (set_emulator (redrawn (emulator s)) s)
       (ImageContent (base64 (current_frame (emulator s))) "image/png").
Proof.
  intros L. unfold getScreen, GameBoyEmulator.getScreenAsBase64.
  erewrite bind_Ok; [|erewrite bind_Ok; [|by apply getScreenAsBuffer_loaded]; reflexivity].
  reflexivity.
Qed.

(** C6: [pressButton(b, d)] on a loaded session runs [d] rounds of
    "press the key of [b], advance one tick" and then one more tick without
    a key press, [d + 1] ticks in all, and returns the frame the core then
    shows; on an unloaded session it raises [No ROM loaded] and changes
    nothing. *)
Theorem pressButton_advances (button : GameBoyButton) (d : Z) (s : state) :
  0 <= d ->
  (romLoaded (emulator s) = true ->
   exists s',
     pressButton button d s
     = Ok s' (ImageContent (base64 (current_frame (emulator s'))) "image/png")
     /\ frames (emulator s') = (frames (emulator s) + (Z.to_nat d + 1))%nat
     /\ gameboy (emulator s')
        = gb_doFrame
            (Nat.iter (Z.to_nat d)
               (fun c => gb_doFrame (gb_pressKeys [KEYMAP button] c))
               (gameboy (emulator s)))
     /\ romLoaded (emulator s') = true)
  /\ (romLoaded (emulator s) = false ->
      pressButton button d s = Throw s (Error "No ROM loaded")
      /\ GameBoyEmulator.pressButton button (Some d) s
         = Throw s (Error "No ROM loaded")).
Proof.
  intros Hd. split; intros L.
  - unfold pressButton.
    erewrite bind_Ok by reflexivity. simpl. rewrite L. simpl.
    unfold GameBoyEmulator.pressButton. simpl.
    erewrite bind_Ok; cycle 1.
    { erewrite bind_Ok by reflexivity. simpl. rewrite L. simpl.
      erewrite bind_Ok by apply repeat_hold.
      apply gameboy_doFrame_run. }
    rewrite getScreen_loaded by exact L.
    exists (set_emulator
              (redrawn (run_frames 1
                 (hold_frames (KEYMAP button) (Z.to_nat d) (emulator s)))) s).
    split; [reflexivity|]. state_simpl.
    split; [unfold redrawn; simpl; lia|]. split; [reflexivity|exact L].
  - split.
    + unfold pressButton. erewrite bind_Ok by reflexivity. simpl. by rewrite L.
    + unfold GameBoyEmulator.pressButton.
      erewrite bind_Ok by reflexivity. simpl. by rewrite L.
Qed.

Lemma call_tool_get_screen s :
  romLoaded (emulator s) = true ->
  call_tool get_screen s
  = Ok (set_emulator (redrawn (run_frames 1 (emulator s))) s)
       (mkResponse
          [ImageContent (base64 (current_frame (run_frames 1 (emulator s))))
             "image/png"] false).
Proof.
  intros L. unfold call_tool, try_catch, call_tool_body.
  erewrite bind_Ok by reflexivity. state_simpl. rewrite L.
  cbn [negb]. unfold GameBoyEmulator.doFrame.
  erewrite bind_Ok; cycle 1.
  { erewrite bind_Ok by reflexivity. state_simpl. rewrite L. cbn [negb].
    apply gameboy_doFrame_run. }
  erewrite bind_Ok by (apply getScreen_loaded; exact L).
  reflexivity.
Qed.

(** C2 (as amended): on a loaded session [getScreenAsBuffer] returns the
    frame the core shows and leaves the core and the tick counter as they
    were (only the canvas is redrawn), whereas the [get_screen] tool first
    advances the core by exactly one tick and then returns the frame of the
    core it has reached. *)
Theorem get_screen_one_tick (s : state) :
  romLoaded (emulator s) = true ->
  (exists s1,
     GameBoyEmulator.getScreenAsBuffer s = Ok s1 (current_frame (emulator s))
     /\ gameboy (emulator s1) = gameboy (emulator s)
     /\ frames (emulator s1) = frames (emulator s)
     /\ fs s1 = fs s)
  /\ (exists s2,
        call_tool get_screen s
        = Ok s2 (mkResponse
                   [ImageContent (base64 (current_frame (emulator s2))) "image/png"]
                   false)
        /\ gameboy (emulator s2) = gb_doFrame (gameboy (emulator s))
        /\ frames (emulator s2) = S (frames (emulator s))).
Proof.
  intros L. split.
  - eexists. split; [by apply getScreenAsBuffer_loaded|]. done.
  - exists (set_emulator (redrawn (run_frames 1 (emulator s))) s).
    rewrite call_tool_get_screen by exact L. done.
Qed.

(** ** The stream broadcaster *)

Lemma filter_ext_elem {X} (P Q : X -> Prop)
    `{!forall x, Decision (P x)} `{!forall x, Decision (Q x)} (l : list X) :
  (forall x, x ∈ l -> P x <-> Q x) -> filter P l = filter Q l.
Proof.
  induction l as [|x l IH]; intros E; [done|].
  rewrite !filter_cons.
  rewrite IH by (intros y Hy; apply E; by right).
  destruct (decide (P x)) as [p|p], (decide (Q x)) as [q|q]; try done.
  - destruct q. apply E; [by left|done].
  - destruct p. apply E; [by left|done].
Qed.

Lemma NoDup_fmap_elem_inj {X Y} (f : X -> Y) (l : list X) (x y : X) :
  NoDup (f <$> l) -> x ∈ l -> y ∈ l -> f x = f y -> x = y.
Proof.
  induction l as [|a l IH]; intros N Hx Hy E.
  - by apply elem_of_nil in Hx.
  - rewrite fmap_cons in N. apply NoDup_cons in N as [Na N].
    apply elem_of_cons in Hx as [->|Hx], Hy as [->|Hy]; try done.
    + destruct Na. rewrite E. by apply list_elem_of_fmap_2.
    + destruct Na. rewrite <- E. by apply list_elem_of_fmap_2.
    + by apply IH.
Qed.

(** With distinct client identities, the clients left after a broadcast
    are those whose callback returned. *)
Lemma not_raising_accepts frame (cs : list client) :
  NoDup (cid <$> cs) ->
  filter (fun c => cid c ∉ raising frame cs) cs
  = filter (fun c => accepts c frame = true) cs.
Proof.
  intros N. apply filter_ext_elem. intros c Hc. unfold raising. split.
  - intros Hn. destruct (accepts c frame) eqn:E; [done|].
    destruct Hn. apply list_elem_of_fmap_2. by apply list_elem_of_filter.
  - intros E Hin. apply list_elem_of_fmap in Hin as (c' & Ec & Hc').
    apply list_elem_of_filter in Hc' as [F Hc'].
    assert (c = c') by (by eapply NoDup_fmap_elem_inj).
    subst c'. congruence.
Qed.

Lemma after_broadcast_nil frame s : after_broadcast frame [] s = s.
Proof.
  unfold after_broadcast, raising. rewrite filter_nil. simpl.
  rewrite app_nil_r.
  replace (filter (fun c : client => cid c ∉ []) (streamClients (emulator s)))
    with (streamClients (emulator s)).
  - destruct s as [e ? ? ? ? ? ? ?]. by destruct e.
  - induction (streamClients (emulator s)) as [|c l IH]; [done|].
    rewrite filter_cons_True by apply not_elem_of_nil. by rewrite <- IH.
Qed.

Lemma broadcast_run frame cs s :
  GameBoyEmulator.broadcast frame cs s = Ok (after_broadcast frame cs s) tt.
Proof.
  revert s. induction cs as [|c r IH]; intros s.
  - simpl. unfold ret. by rewrite after_broadcast_nil.
  - simpl GameBoyEmulator.broadcast. unfold bind at 1, try_catch.
    unfold GameBoyEmulator.call_client.
    destruct (accepts c frame) eqn:E.
    + rewrite IH. f_equal. unfold after_broadcast, raising. state_simpl.
      rewrite filter_cons_False by congruence.
      rewrite fmap_cons, <- app_assoc. unfold delivery_of. by rewrite E.
    + unfold GameBoyEmulator.delete_client, update_this, modify.
      rewrite IH. f_equal. unfold after_broadcast, raising, set_emulator.
      unfold GameBoyEmulator.set_clients. state_simpl.
      rewrite filter_cons_True by done. unfold delivery_of.
      f_equal.
      * f_equal. rewrite list_filter_filter. apply list_filter_iff.
        intros c'. rewrite fmap_cons, elem_of_cons. tauto.
      * rewrite <- app_assoc. simpl. by rewrite E.
Qed.

Lemma framesToAdvance_pos :
  0 < STREAM_FPS ->
  exists n, GameBoyEmulator.framesToAdvance = Some n /\ (1 <= n)%nat.
Proof.
  intros P. unfold GameBoyEmulator.framesToAdvance.
  destruct (STREAM_FPS =? 0) eqn:E; [lia|].
  eexists. split; [reflexivity|].
  assert (-60 / STREAM_FPS < 0) by (apply Z.div_lt_upper_bound; lia).
  lia.
Qed.

(** One firing of the timer on a live stream. *)
Lemma tick_run s n :
  streamActive (emulator s) = true ->
  romLoaded (emulator s) = true ->
  GameBoyEmulator.framesToAdvance = Some n ->
  exists s',
    GameBoyEmulator.tick s = Ok s' tt
    /\ timers s' = timers s ++ [GameBoyEmulator.frameInterval]
    /\ fs s' = fs s
    /\ gameboy (emulator s') = Nat.iter n gb_doFrame (gameboy (emulator s))
    /\ frames (emulator s') = (n + frames (emulator s))%nat
    /\ streamActive (emulator s') = true
    /\ romLoaded (emulator s') = true
    /\ let frame := current_frame (run_frames n (emulator s)) in
       let cs := streamClients (emulator s) in
       deliveries s' = deliveries s ++ (delivery_of frame <$> cs)
       /\ streamClients (emulator s')
          = filter (fun c => cid c ∉ raising frame cs) cs
       /\ (cs = [] -> canvas (emulator s') = canvas (emulator s)).
Proof.
  intros A L F. unfold GameBoyEmulator.tick.
  erewrite bind_Ok by reflexivity. state_simpl. rewrite A, L, F. cbn [negb orb].
  erewrite bind_Ok by apply repeat_doFrame.
  erewrite bind_Ok by reflexivity.
  unfold set_emulator at 1 2 3. state_simpl.
  change (streamClients (run_frames n (emulator s)))
    with (streamClients (emulator s)).
  destruct (streamClients (emulator s)) as [|c cs] eqn:C.
  - cbn [length Nat.ltb Nat.leb].
    erewrite bind_Ok by reflexivity.
    eexists. split; [reflexivity|]. unfold set_emulator. state_simpl.
    rewrite fmap_nil, app_nil_r, filter_nil. unfold run_frames. state_simpl.
    done.
  - cbn [length Nat.ltb Nat.leb].
    erewrite bind_Ok; cycle 1.
    { erewrite bind_Ok by (apply getScreenAsBuffer_loaded; exact L).
      apply broadcast_run. }
    eexists. split; [reflexivity|].
    unfold after_broadcast, set_emulator, redrawn, run_frames,
      GameBoyEmulator.set_clients, GameBoyEmulator.set_canvas. state_simpl.
    rewrite ?C. repeat split; done.
Qed.

(** C1 (as amended): a firing of the stream timer on an active stream with
    a title loaded advances the clock by [ceil (60 / STREAM_FPS)] ticks, at
    least one, whether or not a client is attached; with no client
    attached it delivers no frame and draws none. *)
Theorem tick_advances_clock (s : state) :
  0 < STREAM_FPS ->
  streamActive (emulator s) = true ->
  romLoaded (emulator s) = true ->
  exists s' n,
    GameBoyEmulator.tick s = Ok s' tt
    /\ Z.of_nat n = - (- 60 / STREAM_FPS)
    /\ (1 <= n)%nat
    /\ frames (emulator s') = (frames (emulator s) + n)%nat
    /\ gameboy (emulator s') = Nat.iter n gb_doFrame (gameboy (emulator s))
    /\ (streamClients (emulator s) = [] ->
        deliveries s' = deliveries s
        /\ canvas (emulator s') = canvas (emulator s)).
Proof.
  intros P A L.
  destruct (framesToAdvance_pos P) as (n & F & Hn).
  destruct (tick_run s n A L F) as (s' & E & _ & _ & G & Fr & _ & _ & D & _ & Cv).
  exists s', n. split; [exact E|].
  split.
  { unfold GameBoyEmulator.framesToAdvance in F.
    destruct (STREAM_FPS =? 0); [done|]. injection F as <-.
    assert (-60 / STREAM_FPS < 0) by (apply Z.div_lt_upper_bound; lia). lia. }
  split; [exact Hn|]. split; [lia|]. split; [exact G|].
  intros C. split; [|by apply Cv].
  rewrite D, C. simpl. by rewrite app_nil_r.
Qed.

(** C9: on a firing of the stream timer one frame is rendered and the
    callback of every client is called once with these same bytes; the
    clients whose callback raised are removed from the client set, the
    others stay, the tick runs to its end and schedules the next one. *)
Theorem tick_fans_out (s : state) :
  STREAM_FPS <> 0 ->
  streamActive (emulator s) = true ->
  romLoaded (emulator s) = true ->
  NoDup (cid <$> streamClients (emulator s)) ->
  exists s' n frame,
    GameBoyEmulator.framesToAdvance = Some n
    /\ GameBoyEmulator.tick s = Ok s' tt
    /\ frame = current_frame (run_frames n (emulator s))
    /\ deliveries s'
       = deliveries s ++ (delivery_of frame <$> streamClients (emulator s))
    /\ streamClients (emulator s')
       = filter (fun c => accepts c frame = true) (streamClients (emulator s))
    /\ timers s' = timers s ++ [GameBoyEmulator.frameInterval]
    /\ streamActive (emulator s') = true.
Proof.
  intros P A L N.
  assert (F : exists n, GameBoyEmulator.framesToAdvance = Some n).
  { unfold GameBoyEmulator.framesToAdvance.
    destruct (STREAM_FPS =? 0) eqn:E; [lia|]. by eexists. }
  destruct F as [n F].
  destruct (tick_run s n A L F) as (s' & E & T & _ & _ & _ & A' & _ & D & C & _).
  exists s', n, (current_frame (run_frames n (emulator s))).
  repeat split; try done.
  rewrite C. by apply not_raising_accepts.
Qed.

(** ** The snapshot store *)


Lemma present_true p s : present p s = true <-> is_Some (fs s !! p).
Proof. unfold present. apply bool_decide_eq_true. Qed.

Lemma present_false p s : present p s = false <-> fs s !! p = None.
Proof.
  unfold present. rewrite bool_decide_eq_false, <- eq_None_not_Some. done.
Qed.

Lemma ensureDir_run dir s : ensureDir dir s = Ok (ensured dir s) tt.
Proof.
  unfold ensureDir. erewrite bind_Ok by reflexivity. fold (present dir s).
  unfold ensured. destruct (present dir s) eqn:P; simpl; [done|].
  apply present_false in P. unfold mkdirSync. by rewrite P.
Qed.

(** C10: listing the save states of no game at all (no name given and no
    game loaded), or of a game whose saves directory does not exist, returns
    the empty list and raises nothing. *)
Theorem listStates_absent (name : option string) (s : state) :
  (truthy_opt (target_game name s) = false ->
   GameBoyEmulator.listStates name s = Ok s [])
  /\ (forall game,
        target_game name s = Some game -> truthy game = true ->
        fs s !! getSavesDir game = None ->
        GameBoyEmulator.listStates name s = Ok s []).
Proof.
  unfold target_game. split.
  - intros T. unfold GameBoyEmulator.listStates.
    erewrite bind_Ok by reflexivity. by rewrite T.
  - intros game T G N. unfold GameBoyEmulator.listStates.
    erewrite bind_Ok by reflexivity. rewrite T.
    cbn [truthy_opt from_option id]. rewrite G. cbn [negb].
    erewrite bind_Ok by reflexivity.
    rewrite bool_decide_false by (rewrite N; intros [? ?]; done). done.
Qed.

Lemma unlinkSync_file p s t d :
  fs s !! p = Some (File t d) ->
  unlinkSync p s = Ok (set_fs (delete p (fs s)) s) tt.
Proof. intros E. unfold unlinkSync. by rewrite E. Qed.

Lemma not_dir_cases p s :
  is_dir p s = false ->
  fs s !! p = None \/ exists t d, fs s !! p = Some (File t d).
Proof.
  unfold is_dir. destruct (fs s !! p) as [[]|]; eauto. done.
Qed.

(** C8: with neither artifact path taken by a directory, [deleteState]
    removes the state file and the metadata file if they are there, returns
    [true] exactly when at least one of them was there, and never raises;
    a second call with the same id finds nothing, returns [false] and
    changes nothing.  Without a game to look in it returns [false]. *)
Theorem deleteState_idempotent (stateId : string) (name : option string) (s : state) :
  (truthy_opt (target_game name s) = false ->
   GameBoyEmulator.deleteState stateId name s = Ok s false)
  /\ (forall game,
        target_game name s = Some game -> truthy game = true ->
        is_dir (stateFile_of game stateId) s = false ->
        is_dir (metadataFile_of game stateId) s = false ->
        exists s1,
          GameBoyEmulator.deleteState stateId name s
          = Ok s1 (present (stateFile_of game stateId) s
                   || present (metadataFile_of game stateId) s)
          /\ fs s1 = delete (metadataFile_of game stateId)
                       (delete (stateFile_of game stateId) (fs s))
          /\ emulator s1 = emulator s
          /\ GameBoyEmulator.deleteState stateId name s1 = Ok s1 false).
Proof.
  unfold target_game. split.
  - intros T. unfold GameBoyEmulator.deleteState.
    erewrite bind_Ok by reflexivity. by rewrite T.
  - intros game T G Ds Dm.
    assert (Run : forall s0,
      emulator s0 = emulator s ->
      is_dir (stateFile_of game stateId) s0 = false ->
      is_dir (metadataFile_of game stateId) s0 = false ->
      GameBoyEmulator.deleteState stateId name s0
      = Ok (set_fs (delete (metadataFile_of game stateId)
                      (delete (stateFile_of game stateId) (fs s0))) s0)
           (present (stateFile_of game stateId) s0
            || present (metadataFile_of game stateId) s0)).
    { intros s0 Es0 Ds0 Dm0. unfold GameBoyEmulator.deleteState.
      erewrite bind_Ok by reflexivity. rewrite Es0, T.
      cbn [truthy_opt from_option id]. rewrite G. cbn [negb].
      change (path_join (getSavesDir game) (stateId +:+ ".state.json"))
        with (stateFile_of game stateId).
      change (path_join (getSavesDir game) (stateId +:+ ".meta.json"))
        with (metadataFile_of game stateId).
      set (sf := stateFile_of game stateId) in *.
      set (mf := metadataFile_of game stateId) in *.
      erewrite bind_Ok by reflexivity. fold (present sf s0).
      destruct (not_dir_cases _ _ Ds0) as [Es|(ts & ds & Es)].
      - rewrite (proj2 (present_false sf s0) Es).
        erewrite bind_Ok by reflexivity.
        erewrite bind_Ok by reflexivity. fold (present mf s0).
        rewrite (delete_id (fs s0) sf Es).
        destruct (not_dir_cases _ _ Dm0) as [Em|(tm & dm & Em)].
        + rewrite (proj2 (present_false mf s0) Em).
          erewrite bind_Ok by reflexivity.
          rewrite (delete_id (fs s0) mf Em).
          unfold ret. f_equal. by destruct s0.
        + rewrite (proj2 (present_true mf s0)) by eauto.
          erewrite bind_Ok; cycle 1.
          { erewrite bind_Ok by (eapply unlinkSync_file; exact Em). reflexivity. }
          reflexivity.
      - rewrite (proj2 (present_true sf s0)) by eauto.
        erewrite bind_Ok; cycle 1.
        { erewrite bind_Ok by (eapply unlinkSync_file; exact Es). reflexivity. }
        erewrite bind_Ok by reflexivity.
        unfold set_fs at 1 2. state_simpl.
        destruct (delete sf (fs s0) !! mf) as [n|] eqn:Em.
        + rewrite bool_decide_true by eauto.
          assert (Em' : fs s0 !! mf = Some n).
          { apply lookup_delete_Some in Em. tauto. }
          destruct n as [tm dm|tm].
          * erewrite bind_Ok; cycle 1.
            { erewrite bind_Ok; [reflexivity|].
              unfold unlinkSync. state_simpl. rewrite Em. reflexivity. }
            reflexivity.
          * unfold is_dir in Dm0. by rewrite Em' in Dm0.
        + rewrite bool_decide_false by (intros [? ?]; done).
          erewrite bind_Ok by reflexivity.
          rewrite (delete_id _ mf Em). reflexivity. }
    set (sf := stateFile_of game stateId) in *.
    set (mf := metadataFile_of game stateId) in *.
    set (s1 := set_fs (delete mf (delete sf (fs s))) s).
    assert (Nsf : fs s1 !! sf = None).
    { subst s1. state_simpl. rewrite !lookup_delete. by repeat case_decide. }
    assert (Nmf : fs s1 !! mf = None).
    { subst s1. state_simpl. by rewrite lookup_delete_eq. }
    exists s1. split; [by apply Run|]. split; [done|]. split; [done|].
    rewrite Run; [|done|unfold is_dir; by rewrite Nsf|unfold is_dir; by rewrite Nmf].
    rewrite (proj2 (present_false sf s1) Nsf), (proj2 (present_false mf s1) Nmf).
    rewrite (delete_id _ sf Nsf), (delete_id _ mf Nmf).
    by destruct s1.
Qed.

Lemma getScreenAsBase64_loaded s :
  romLoaded (emulator s) = true ->
  GameBoyEmulator.getScreenAsBase64 s
  = Ok (set_emulator (redrawn (emulator s)) s) (base64 (current_frame (emulator s))).
Proof.
  intros L. unfold GameBoyEmulator.getScreenAsBase64.
  by erewrite bind_Ok by (by apply getScreenAsBuffer_loaded).
Qed.

Lemma writeFileSync_inv p d s s' r :
  writeFileSync p d s = Ok s' r ->
  is_dir p s = false /\ s' = set_fs (<[p := File (now s) d]> (fs s)) s.
Proof.
  unfold writeFileSync, is_dir. destruct (fs s !! p) as [[]|]; intros E;
    by inversion E.
Qed.

Lemma writeFileSync_run p d s :
  is_dir p s = false ->
  writeFileSync p d s = Ok (set_fs (<[p := File (now s) d]> (fs s)) s) tt.
Proof.
  unfold writeFileSync, is_dir. by destruct (fs s !! p) as [[]|].
Qed.

(** What a successful [saveState] has done. *)
Lemma saveState_inv name s s1 md :
  GameBoyEmulator.saveState name s = Ok s1 md ->
  exists game,
    romLoaded (emulator s) = true
    /\ gameName (emulator s) = Some game
    /\ truthy game = true
    /\ ss_id md = entropy s (drawn s)
    /\ ss_gameName md = game
    /\ ss_screenshotBase64 md = base64 (current_frame (emulator s))
    /\ emulator s1 = redrawn (emulator s)
    /\ fs s1
       = <[metadataFile_of game (ss_id md) :=
             File (now s) (Json (metadata_json md))]>
           (<[stateFile_of game (ss_id md) :=
                File (now s) (Json (gb_saveState (gameboy (emulator s))))]>
              (fs (ensured (getSavesDir game) s))).
Proof.
  unfold GameBoyEmulator.saveState. erewrite bind_Ok by reflexivity.
  destruct (romLoaded (emulator s)) eqn:L;
    [|cbn [negb orb]; unfold throw; done].
  destruct (gameName (emulator s)) as [game|] eqn:G;
    [|cbn [negb orb truthy_opt]; unfold throw; done].
  cbn [truthy_opt]. destruct (truthy game) eqn:T;
    [|cbn [negb orb]; unfold throw; done].
  cbn [negb orb default].
  erewrite bind_Ok by apply ensureDir_run.
  erewrite bind_Ok by reflexivity.
  erewrite bind_Ok by reflexivity.
  erewrite bind_Ok; cycle 1.
  { apply getScreenAsBase64_loaded. state_simpl.
    unfold ensured. destruct (present _ s); exact L. }
  state_simpl.
  set (id := entropy (ensured (getSavesDir game) s) (drawn (ensured (getSavesDir game) s))).
  fold (stateFile_of game id). fold (metadataFile_of game id).
  intros E. unfold bind at 1 in E.
  match type of E with
  | context [writeFileSync ?p ?d ?s0] =>
      destruct (writeFileSync p d s0) as [sa ?|sa ?|] eqn:W1; try done
  end.
  apply writeFileSync_inv in W1 as [_ ->].
  unfold bind at 1 in E.
  match type of E with
  | context [writeFileSync ?p ?d ?s0] =>
      destruct (writeFileSync p d s0) as [sb ?|sb ?|] eqn:W2; try done
  end.
  apply writeFileSync_inv in W2 as [_ ->].
  unfold ret in E. injection E as <- <-.
  assert (Ee : forall x, emulator (ensured x s) = emulator s)
    by (intros x; unfold ensured; by destruct (present x s)).
  assert (En : forall x, now (ensured x s) = now s)
    by (intros x; unfold ensured; by destruct (present x s)).
  assert (Ed : id = entropy s (drawn s))
    by (subst id; unfold ensured; by destruct (present _ s)).
  exists game. state_simpl. rewrite !Ee, !En.
  repeat split; try done.
Qed.

(** [saveState] returns on a loaded session as soon as neither artifact
    path is taken by a directory. *)
Lemma saveState_runs name s game :
  romLoaded (emulator s) = true ->
  gameName (emulator s) = Some game ->
  truthy game = true ->
  is_dir (stateFile_of game (entropy s (drawn s))) (ensured (getSavesDir game) s)
  = false ->
  is_dir (metadataFile_of game (entropy s (drawn s))) (ensured (getSavesDir game) s)
  = false ->
  exists s1 md, GameBoyEmulator.saveState name s = Ok s1 md.
Proof.
  intros L G T Ds Dm.
  assert (Ee : emulator (ensured (getSavesDir game) s) = emulator s)
    by (unfold ensured; by destruct (present _ s)).
  assert (Ed : entropy (ensured (getSavesDir game) s)
                 (drawn (ensured (getSavesDir game) s)) = entropy s (drawn s))
    by (unfold ensured; by destruct (present _ s)).
  unfold GameBoyEmulator.saveState. erewrite bind_Ok by reflexivity.
  rewrite L, G. cbn [truthy_opt from_option id]. rewrite T. cbn [negb orb].
  erewrite bind_Ok by apply ensureDir_run.
  erewrite bind_Ok by reflexivity.
  erewrite bind_Ok by reflexivity.
  erewrite bind_Ok; cycle 1.
  { apply getScreenAsBase64_loaded. state_simpl. by rewrite Ee. }
  state_simpl. rewrite Ed.
  change (path_join (getSavesDir game) (entropy s (drawn s) +:+ ".state.json"))
    with (stateFile_of game (entropy s (drawn s))).
  change (path_join (getSavesDir game) (entropy s (drawn s) +:+ ".meta.json"))
    with (metadataFile_of game (entropy s (drawn s))).
  erewrite bind_Ok by (apply writeFileSync_run; exact Ds).
  erewrite bind_Ok; [by eexists _, _|].
  apply writeFileSync_run. unfold is_dir in *. state_simpl.
  destruct (decide (stateFile_of game (entropy s (drawn s))
                    = metadataFile_of game (entropy s (drawn s)))) as [Eq|Ne].
  - rewrite <- Eq. by rewrite lookup_insert_eq.
  - by rewrite lookup_insert_ne.
Qed.

Lemma loadState_missing stateId s game :
  romLoaded (emulator s) = true -> gameName (emulator s) = Some game ->
  truthy game = true ->
  fs s !! stateFile_of game stateId = None ->
  GameBoyEmulator.loadState stateId s
  = Throw s (Error ("Save state not found: " +:+ stateId)).
Proof.
  intros L G T N. unfold GameBoyEmulator.loadState.
  erewrite bind_Ok by reflexivity. rewrite L, G.
  cbn [truthy_opt from_option id]. rewrite T. cbn [negb orb].
  erewrite bind_Ok by reflexivity.
  change (path_join (getSavesDir game) (stateId +:+ ".state.json"))
    with (stateFile_of game stateId).
  rewrite bool_decide_false by (rewrite N; intros [? ?]; done). done.
Qed.

(** [loadState] once the state file is known to exist. *)
Lemma loadState_present stateId s game n :
  romLoaded (emulator s) = true -> gameName (emulator s) = Some game ->
  truthy game = true ->
  fs s !! stateFile_of game stateId = Some n ->
  GameBoyEmulator.loadState stateId s
  = (let* state_text := readFileSync (stateFile_of game stateId) in
     let* st := JSON_parse state_text in
     let* metadata_text := readFileSync (metadataFile_of game stateId) in
     let* metadata := JSON_parse metadata_text in
     do* GameBoyEmulator.gameboy_returnFromState st in
     ret metadata) s.
Proof.
  intros L G T N. unfold GameBoyEmulator.loadState.
  erewrite bind_Ok by reflexivity. rewrite L, G.
  cbn [truthy_opt from_option id]. rewrite T. cbn [negb orb].
  erewrite bind_Ok by reflexivity.
  change (path_join (getSavesDir game) (stateId +:+ ".state.json"))
    with (stateFile_of game stateId).
  rewrite bool_decide_true by (rewrite N; eauto). done.
Qed.

Lemma read_json_k p s t v Q (k : json -> M Q) :
  fs s !! p = Some (File t (Json v)) ->
  (let* text := readFileSync p in let* x := JSON_parse text in k x) s = k v s.
Proof.
  intros E. erewrite bind_Ok by (unfold readFileSync; rewrite E; reflexivity).
  reflexivity.
Qed.

Lemma read_unreadable_k p s :
  readable p s = false ->
  exists e,
    (forall Q (k : json -> M Q),
       (let* text := readFileSync p in let* x := JSON_parse text in k x) s
       = Throw s e)
    /\ forall msg, e <> Error msg.
Proof.
  unfold readable, bind, readFileSync.
  destruct (fs s !! p) as [[t [v|b]|t]|]; intros R; try done;
    eexists; (split; [reflexivity|done]).
Qed.

(** C4 (as amended): on a loaded session [loadState] raises, and leaves
    the whole state as it was, whenever the state file or the metadata file
    is missing or cannot be read as JSON; what it raises is the error
    [Save state not found] exactly when the state file does not exist, and
    the error of the failed read otherwise; it returns only when both files
    are there and readable. *)
Theorem loadState_outcomes (stateId game : string) (s : state) :
  romLoaded (emulator s) = true ->
  gameName (emulator s) = Some game ->
  truthy game = true ->
  (readable (stateFile_of game stateId) s = false
   \/ readable (metadataFile_of game stateId) s = false ->
   exists e,
     GameBoyEmulator.loadState stateId s = Throw s e
     /\ (e = Error ("Save state not found: " +:+ stateId)
         <-> present (stateFile_of game stateId) s = false))
  /\ (forall s' m,
        GameBoyEmulator.loadState stateId s = Ok s' m ->
        readable (stateFile_of game stateId) s = true
        /\ readable (metadataFile_of game stateId) s = true).
Proof.
  intros L G T.
  set (sf := stateFile_of game stateId). set (mf := metadataFile_of game stateId).
  destruct (fs s !! sf) as [n|] eqn:Es.
  - assert (P : present sf s = true) by (apply present_true; rewrite Es; eauto).
    rewrite (loadState_present stateId s game n L G T Es). fold sf mf.
    destruct (readable sf s) eqn:Rs.
    + assert (exists t v, fs s !! sf = Some (File t (Json v))) as (t & v & Es').
      { unfold readable in Rs. destruct (fs s !! sf) as [[? [?|?]|?]|]; eauto; done. }
      rewrite (read_json_k sf s t v _ _ Es').
      destruct (readable mf s) eqn:Rm.
      * split; [intros [?|?]; done|]. done.
      * destruct (read_unreadable_k mf s Rm) as (e & E & Ne).
        rewrite E. split; [|done]. intros _. exists e. split; [done|].
        rewrite P. split; [intros ->; by destruct (Ne _ eq_refl)|done].
    + destruct (read_unreadable_k sf s Rs) as (e & E & Ne).
      rewrite E. split; [|done]. intros _. exists e. split; [done|].
      rewrite P. split; [intros ->; by destruct (Ne _ eq_refl)|done].
  - rewrite (loadState_missing stateId s game L G T Es).
    split; [|done]. intros _. eexists. split; [done|].
    split; [|done]. intros _. by apply present_false.
Qed.

Lemma returnFromState_run st s c2 :
  gb_returnFromState st (gameboy (emulator s)) = (c2, true) ->
  GameBoyEmulator.gameboy_returnFromState st s
  = Ok (set_emulator
          (mkEmulator c2 (frames (emulator s)) (canvas (emulator s))
             (romLoaded (emulator s)) (romPath (emulator s))
             (gameName (emulator s)) (streamActive (emulator s))
             (streamClients (emulator s))) s) tt.
Proof.
  intros E. unfold GameBoyEmulator.gameboy_returnFromState.
  erewrite bind_Ok by reflexivity. rewrite E.
  erewrite bind_Ok by reflexivity. reflexivity.
Qed.

(** C5: when the core restores what it exports, a [saveState] followed at
    once by [loadState] of the id it returned succeeds, gives back the saved
    metadata, and leaves a session whose frame is, byte for byte, the frame
    whose base64 text was stored as the screenshot of the save. *)
Theorem save_then_load_same_frame (name : option string) (s s1 : state)
    (md : SaveStateMetadata) :
  restores_own_export ->
  GameBoyEmulator.saveState name s = Ok s1 md ->
  exists s2 s3 frame,
    GameBoyEmulator.loadState (ss_id md) s1 = Ok s2 (metadata_json md)
    /\ ss_screenshotBase64 md = base64 frame
    /\ GameBoyEmulator.getScreenAsBuffer s2 = Ok s3 frame
    /\ frame = current_frame (emulator s)
    /\ frames (emulator s2) = frames (emulator s).
Proof.
  intros Hcore Hsave.
  destruct (saveState_inv _ _ _ _ Hsave) as (game & L & G & T & _ & _ & Shot & Ee & Efs).
  set (sf := stateFile_of game (ss_id md)) in *.
  set (mf := metadataFile_of game (ss_id md)) in *.
  assert (Ds : sf <> mf) by apply state_meta_distinct.
  assert (Es : fs s1 !! sf
               = Some (File (now s) (Json (gb_saveState (gameboy (emulator s)))))).
  { rewrite Efs, lookup_insert_ne by done. apply lookup_insert_eq. }
  assert (Em : fs s1 !! mf = Some (File (now s) (Json (metadata_json md)))).
  { rewrite Efs. apply lookup_insert_eq. }
  assert (L1 : romLoaded (emulator s1) = true) by (by rewrite Ee).
  assert (G1 : gameName (emulator s1) = Some game) by (by rewrite Ee).
  destruct (Hcore (gameboy (emulator s))) as (c2 & Hret & Hscreen).
  rewrite (loadState_present _ s1 game _ L1 G1 T Es). fold sf mf.
  rewrite (read_json_k sf s1 _ _ _ _ Es).
  rewrite (read_json_k mf s1 _ _ _ _ Em).
  erewrite bind_Ok; cycle 1.
  { apply returnFromState_run. rewrite Ee. exact Hret. }
  eexists _, _, (current_frame (emulator s)).
  split; [reflexivity|]. split; [exact Shot|].
  split; [|split; [done|]].
  - rewrite getScreenAsBuffer_loaded by (state_simpl; exact L1).
    f_equal. unfold current_frame. state_simpl. by rewrite Hscreen.
  - state_simpl. by rewrite Ee.
Qed.

(** ** The title registry *)

Lemma bind_inv {R Q} (m : M R) (k : R -> M Q) s s' q :
  bind m k s = Ok s' q -> exists s0 r, m s = Ok s0 r /\ k r s0 = Ok s' q.
Proof. unfold bind. destruct (m s) as [s0 r|s0 e|]; [eauto|done|done]. Qed.

Lemma ensured_emulator dir s : emulator (ensured dir s) = emulator s.
Proof. unfold ensured. by destruct (present dir s). Qed.

Lemma ensured_now dir s : now (ensured dir s) = now s.
Proof. unfold ensured. by destruct (present dir s). Qed.

Lemma ensured_copies dir s : copies (ensured dir s) = copies s.
Proof. unfold ensured. by destruct (present dir s). Qed.

Lemma ensured_present dir s : present dir s = true -> ensured dir s = s.
Proof. unfold ensured. by intros ->. Qed.

Lemma ensured_lookup dir s p :
  is_Some (fs s !! p) -> fs (ensured dir s) !! p = fs s !! p.
Proof.
  intros Hp. unfold ensured. destruct (present dir s) eqn:P; [done|].
  state_simpl. apply present_false in P.
  rewrite lookup_insert_ne; [done|]. intros ->. rewrite P in Hp. by destruct Hp.
Qed.

Lemma ensured_dom dir s : dom (fs (ensured dir s)) = {[dir]} ∪ dom (fs s).
Proof.
  unfold ensured. destruct (present dir s) eqn:P.
  - apply present_true, elem_of_dom in P. clear -P. set_solver.
  - state_simpl. by rewrite dom_insert_L.
Qed.

(** [ensureDir] makes directories only: the regular files are the same
    before and after. *)
Lemma ensured_file dir s p t d :
  fs (ensured dir s) !! p = Some (File t d) <-> fs s !! p = Some (File t d).
Proof.
  unfold ensured. destruct (present dir s) eqn:P; [done|].
  state_simpl. apply present_false in P.
  destruct (decide (p = dir)) as [->|Ne].
  - rewrite lookup_insert_eq, P. split; intros; done.
  - by rewrite lookup_insert_ne.
Qed.

Lemma dom_four_sub (a b c d : string) (X Y : gset string) :
  Y = {[a; b; c; d]} ∪ X -> {[a; b; c; d]} ∪ X ⊆ Y.
Proof. by intros ->. Qed.

(** [installRom] is its guard, the two [ensureDir], the copy step and the
    write of [game.json]. *)
Lemma installRom_unfold src custom s :
  present src s = true ->
  GameBoyEmulator.installRom src custom s
  = (let name := install_name src custom in
     do* copy_step src (destRomPath_of src name) in
     let* installedAt := new_Date_toISOString in
     do* writeFileSync (metadataPath_of name)
           (Json (game_json name src installedAt)) in
     ret (mkInstalledGame name (destRomPath_of src name) (getSavesDir name)
            installedAt))
      (dirs_ensured (install_name src custom) s).
Proof.
  intros P. unfold GameBoyEmulator.installRom.
  erewrite bind_Ok by reflexivity. fold (present src s). rewrite P.
  cbn [negb]. fold (install_name src custom).
  erewrite bind_Ok by apply ensureDir_run.
  erewrite bind_Ok by apply ensureDir_run.
  unfold copy_step, dirs_ensured, destRomPath_of, metadataPath_of.
  reflexivity.
Qed.

Lemma installRom_absent src custom s :
  present src s = false ->
  GameBoyEmulator.installRom src custom s
  = Throw s (Error ("ROM file not found: " +:+ src)).
Proof.
  intros P. unfold GameBoyEmulator.installRom.
  erewrite bind_Ok by reflexivity. fold (present src s). by rewrite P.
Qed.

(** C3 (as amended): the name of a successfully installed game is the
    custom name, unchanged, when a non-empty one is given; otherwise it is
    [sanitizeGameName] of the source path, that is the specification's
    default id (extension stripped, runs of non-alphanumeric characters
    replaced by one dash, lower-cased) with the dash at either end removed:
    lower-case letters, digits and single dashes only, no dash first or
    last. *)
Theorem installRom_name (src : string) (custom : option string)
    (s s' : state) (g : InstalledGame) :
  GameBoyEmulator.installRom src custom s = Ok s' g ->
  (truthy_opt custom = true -> Some (ig_name g) = custom)
  /\ (truthy_opt custom = false ->
      ig_name g = sanitizeGameName src
      /\ ig_name g = str (strip_edge_dashes (chars (spec_default_id src)))
      /\ sanitized_form (ig_name g) = true
      /\ no_edge_dash (ig_name g) = true).
Proof.
  intros E.
  destruct (present src s) eqn:P;
    [|by rewrite (installRom_absent _ _ _ P) in E].
  rewrite (installRom_unfold _ _ _ P) in E. cbv zeta in E.
  apply bind_inv in E as (s0 & ? & _ & E).
  apply bind_inv in E as (s2 & at_ & _ & E).
  apply bind_inv in E as (s3 & ? & _ & E).
  unfold ret in E. inversion E; subst; clear E. simpl ig_name.
  unfold install_name. split; intros T; rewrite T.
  - destruct custom; [done|]. by simpl in T.
  - split; [done|]. split; [apply sanitizeGameName_spec|].
    apply sanitizeGameName_form.
Qed.

Lemma copy_step_run src dest s t d :
  fs s !! src = Some (File t d) ->
  copy_step src dest s
  = if must_copy src dest s && is_dir dest s
    then Throw s (SystemError "EISDIR" dest)
    else Ok (copied src dest s) tt.
Proof.
  intros Es.
  assert (Copy : copyFileSync src dest s
                 = if is_dir dest s then Throw s (SystemError "EISDIR" dest)
                   else Ok (count_copy (set_fs (<[dest := File (now s) d]> (fs s)) s)) tt).
  { unfold copyFileSync.
    erewrite bind_Ok by (unfold readFileSync; rewrite Es; reflexivity).
    unfold bind, writeFileSync, is_dir.
    by destruct (fs s !! dest) as [[]|]. }
  unfold copy_step, copied, must_copy.
  erewrite bind_Ok by reflexivity. fold (present dest s).
  destruct (present dest s) eqn:P; cbn [negb orb].
  - apply present_true in P as [n En].
    erewrite bind_Ok by (unfold statSync_mtime; rewrite Es; reflexivity).
    erewrite bind_Ok by (unfold statSync_mtime; rewrite En; reflexivity).
    unfold mtime_of. rewrite Es, En. cbn [node_mtime].
    destruct (t >? node_mtime n); cbn [andb]; [|done].
    rewrite Copy. by destruct (is_dir dest s).
  - rewrite Copy. rewrite Es. by destruct (is_dir dest s).
Qed.

(** [installRom] of a source that is a regular file. *)
Lemma installRom_run src custom s t d :
  fs s !! src = Some (File t d) ->
  let name := install_name src custom in
  let dest := destRomPath_of src name in
  let sa := dirs_ensured name s in
  GameBoyEmulator.installRom src custom s
  = if must_copy src dest sa && is_dir dest sa
    then Throw sa (SystemError "EISDIR" dest)
    else if is_dir (metadataPath_of name) (copied src dest sa)
    then Throw (copied src dest sa) (SystemError "EISDIR" (metadataPath_of name))
    else Ok (installed src custom s)
            (mkInstalledGame name dest (getSavesDir name) (toISOString (now s))).
Proof.
  intros Es name dest sa.
  assert (P : present src s = true) by (apply present_true; rewrite Es; eauto).
  rewrite (installRom_unfold _ _ _ P). cbv zeta. fold name dest sa.
  assert (Esa : fs sa !! src = Some (File t d)).
  { subst sa. unfold dirs_ensured.
    rewrite !ensured_lookup; rewrite ?ensured_lookup; rewrite ?Es; eauto. }
  unfold bind at 1. rewrite (copy_step_run src dest sa t d Esa).
  destruct (must_copy src dest sa && is_dir dest sa); [done|].
  erewrite bind_Ok by reflexivity.
  assert (Now : now (copied src dest sa) = now s).
  { unfold copied.
    destruct (must_copy _ _ _); rewrite ?Esa; unfold count_copy; state_simpl;
      subst sa; unfold dirs_ensured; by rewrite !ensured_now. }
  rewrite Now. unfold bind at 1, writeFileSync at 1, is_dir.
  destruct (fs (copied src dest sa) !! metadataPath_of name) as [[]|] eqn:Em;
    try done; unfold ret, installed; fold name dest sa; by rewrite Now.
Qed.

Lemma dom_four (a b c d : string) (X : gset string) :
  {[a]} ∪ ({[b]} ∪ ({[c]} ∪ ({[d]} ∪ X))) = {[a; b; c; d]} ∪ X.
Proof. set_solver. Qed.

Lemma dom_absorb (a b : string) (X : gset string) :
  a ∈ X -> b ∈ X -> {[a]} ∪ ({[b]} ∪ X) = X.
Proof. set_solver. Qed.

Lemma copied_dom src dest s t d :
  fs s !! src = Some (File t d) ->
  dom (fs (copied src dest s)) = {[dest]} ∪ dom (fs s).
Proof.
  intros Es. unfold copied, must_copy.
  destruct (present dest s) eqn:P; cbn [negb orb].
  - apply present_true, elem_of_dom in P.
    destruct (_ >? _); [rewrite Es; state_simpl; rewrite dom_insert_L|];
      clear -P; set_solver.
  - rewrite Es. state_simpl. by rewrite dom_insert_L.
Qed.

Lemma copied_copies src dest s t d :
  fs s !! src = Some (File t d) ->
  copies (copied src dest s)
  = (copies s + if must_copy src dest s then 1 else 0)%nat.
Proof.
  intros Es. unfold copied. destruct (must_copy src dest s); [|simpl; lia].
  rewrite Es. simpl. lia.
Qed.

Lemma copied_lookup_other src dest s p :
  p <> dest -> fs (copied src dest s) !! p = fs s !! p.
Proof.
  intros Ne. unfold copied. destruct (must_copy src dest s); [|done].
  destruct (fs s !! src) as [[]|]; try done.
  state_simpl. by rewrite lookup_insert_ne.
Qed.

(** C7: installing the same source twice, the source file untouched in
    between, succeeds the second time too and adds no path to the disk.
    The directory of the game, its saves directory, the ROM copy and
    [game.json] are there after the first install, together with all that
    was there before, and the ROM copy and [game.json] are the only regular
    files the first install has added: so one ROM copy and one [game.json]
    are there after the first install and after the second.  In each
    install [fs.copyFileSync] is called exactly when the destination does
    not exist yet or the source has the strictly newer mtime. *)
Theorem installRom_twice (src : string) (custom : option string)
    (s s1 : state) (g1 : InstalledGame) (t : Z) (d : content) (later : Z) :
  fs s !! src = Some (File t d) ->
  GameBoyEmulator.installRom src custom s = Ok s1 g1 ->
  fs s1 !! src = Some (File t d) ->
  let name := install_name src custom in
  let dest := destRomPath_of src name in
  exists s2 g2,
    GameBoyEmulator.installRom src custom (set_now later s1) = Ok s2 g2
    /\ dom (fs s2) = dom (fs s1)
    /\ {[metadataPath_of name; dest; getSavesDir name; getGameDir name]}
         ∪ dom (fs s) ⊆ dom (fs s1)
    /\ (forall p t' d',
          fs s1 !! p = Some (File t' d') -> fs s !! p = None ->
          p = dest \/ p = metadataPath_of name)
    /\ ig_name g2 = ig_name g1
    /\ ig_romPath g2 = ig_romPath g1
    /\ ig_savesDir g2 = ig_savesDir g1
    /\ copies s1
       = (copies s + if must_copy src dest (dirs_ensured name s) then 1 else 0)%nat
    /\ copies s2
       = (copies s1 + if must_copy src dest (set_now later s1) then 1 else 0)%nat.
Proof.
  intros Es H1 Es1 name dest.
  set (mp := metadataPath_of name).
  set (sa := dirs_ensured name s).
  rewrite (installRom_run src custom s t d Es) in H1. fold name dest sa mp in H1.
  destruct (must_copy src dest sa && is_dir dest sa) eqn:C1; [done|].
  destruct (is_dir mp (copied src dest sa)) eqn:C2; [done|].
  injection H1 as Hs1 Hg1.
  assert (Esa : fs sa !! src = Some (File t d)).
  { subst sa. unfold dirs_ensured.
    rewrite !ensured_lookup; rewrite ?ensured_lookup; rewrite ?Es; eauto. }
  assert (Fs1 : fs s1 = <[mp := File (now s)
                   (Json (game_json name src (toISOString (now s))))]>
                  (fs (copied src dest sa))).
  { rewrite <- Hs1. unfold installed. by fold name dest sa mp. }
  assert (Dom1 : dom (fs s1)
                 = {[mp; dest; getSavesDir name; getGameDir name]} ∪ dom (fs s)).
  { rewrite Fs1, dom_insert_L, (copied_dom _ _ _ t d Esa).
    subst sa. unfold dirs_ensured. rewrite !ensured_dom. apply dom_four. }
  assert (Pg : present (getGameDir name) s1 = true).
  { apply present_true, elem_of_dom. rewrite Dom1. clear. set_solver. }
  assert (Ps : present (getSavesDir name) s1 = true).
  { apply present_true, elem_of_dom. rewrite Dom1. clear. set_solver. }
  set (s1' := set_now later s1).
  assert (Esa' : dirs_ensured name s1' = s1').
  { unfold dirs_ensured. rewrite (ensured_present (getGameDir name) s1') by exact Pg.
    by rewrite ensured_present. }
  assert (Es1' : fs s1' !! src = Some (File t d)) by exact Es1.
  rewrite (installRom_run src custom s1' t d Es1'). cbv zeta.
  fold name dest mp. rewrite Esa'.
  assert (Em1 : exists tm dm, fs s1' !! mp = Some (File tm dm)).
  { subst s1'. state_simpl. rewrite Fs1, lookup_insert_eq. eauto. }
  assert (C1' : must_copy src dest s1' && is_dir dest s1' = false).
  { destruct (is_dir dest s1') eqn:Dd; [|by rewrite andb_false_r].
    rewrite andb_true_r.
    assert (Nmp : dest <> mp).
    { intros ->. destruct Em1 as (tm & dm & Em1).
      unfold is_dir in Dd. by rewrite Em1 in Dd. }
    assert (Ed : fs s1' !! dest = fs (copied src dest sa) !! dest).
    { subst s1'. state_simpl. by rewrite Fs1, lookup_insert_ne. }
    assert (Nc : must_copy src dest sa = false).
    { destruct (must_copy src dest sa) eqn:Mc; [|done].
      unfold is_dir in Dd. rewrite Ed in Dd. unfold copied in Dd.
      rewrite Mc, Esa in Dd. state_simpl. simpl in Dd.
      by rewrite lookup_insert_eq in Dd. }
    unfold copied in Ed. rewrite Nc in Ed.
    unfold must_copy, present, mtime_of in *.
    rewrite Es1', Ed. by rewrite Esa in Nc. }
  rewrite C1'.
  assert (C2' : is_dir mp (copied src dest s1') = false).
  { destruct Em1 as (tm & dm & Em1). unfold is_dir.
    destruct (decide (mp = dest)) as [->|Ne].
    - unfold copied. destruct (must_copy src dest s1').
      + rewrite Es1'. simpl. by rewrite lookup_insert_eq.
      + by rewrite Em1.
    - by rewrite copied_lookup_other, Em1. }
  rewrite C2'.
  eexists _, _. split; [reflexivity|].
  split.
  { unfold installed. fold name dest mp. rewrite Esa'.
    state_simpl. rewrite dom_insert_L, (copied_dom _ _ _ t d Es1').
    change (fs s1') with (fs s1).
    apply dom_absorb; rewrite Dom1; clear; set_solver. }
  split; [by apply dom_four_sub|].
  split.
  { intros p t' d' Ep En. rewrite Fs1 in Ep.
    destruct (decide (p = mp)) as [->|Nm]; [by right|]. left.
    rewrite lookup_insert_ne in Ep by done.
    destruct (decide (p = dest)) as [->|Nd]; [done|].
    rewrite copied_lookup_other in Ep by done.
    subst sa. unfold dirs_ensured in Ep.
    apply ensured_file, ensured_file in Ep. by rewrite En in Ep. }
  rewrite <- Hg1. simpl. split; [done|]. split; [done|]. split; [done|].
  split.
  - rewrite <- Hs1. unfold installed. fold name dest sa mp. state_simpl.
    rewrite (copied_copies _ _ _ t d Esa). subst sa. unfold dirs_ensured.
    by rewrite !ensured_copies.
  - unfold installed. fold name dest mp. rewrite Esa'. state_simpl.
    by rewrite (copied_copies _ _ _ t d Es1').
Qed.

End Properties.

Transparent path_join sanitizeGameName extname.

(* ===================================================================== *)
(** * The model at work *)
(* ===================================================================== *)

Example extname_examples :
  extname "/tmp/game.gb" = ".gb" /\ extname "/tmp/.bashrc" = ""
  /\ extname "/tmp/a.b/.." = "" /\ extname "/tmp/a.tar.gz//" = ".gz"
  /\ extname "..a" = ".a".
Proof. repeat split; reflexivity. Qed.

Example basename_examples :
  basename "/tmp/game.gb" ".gb" = "game" /\ basename "/tmp/game.gb" "" = "game.gb"
  /\ basename "/tmp/.gb" ".gb" = ".gb" /\ basename "/a/b.gb/" ".gb" = "b".
Proof. repeat split; reflexivity. Qed.

Example path_join_examples :
  path_join "/home/u/.gameboy-mcp/games" "tetris" = "/home/u/.gameboy-mcp/games/tetris"
  /\ path_join "/home/u/games" "../x/./y//z/" = "/home/u/x/y/z/"
  /\ path_join "/a" "../../.." = "/" /\ path_join "a" "../../b" = "../b"
  /\ path_join "" "" = ".".
Proof. repeat split; reflexivity. Qed.

Example sanitizeGameName_examples :
  sanitizeGameName "/tmp/Pokemon Red (USA).gb" = "pokemon-red-usa"
  /\ sanitizeGameName "/roms/(E) Tetris!!.gbc" = "e-tetris"
  /\ spec_default_id "/roms/(E) Tetris!!.gbc" = "-e-tetris-".
Proof. repeat split; reflexivity. Qed.

Lemma succeeds_Ok `{Platform} {R} (m : M R) (s : state) (otherwise : R) :
  succeeds m s = true ->
  m s = Ok (state_after m s) (value_after m s otherwise).
Proof. unfold succeeds, state_after, value_after. by destruct (m s). Qed.

Section Runs.
Local Existing Instance counter_platform.

(** The scenario of the specification: after loading (five warm-up ticks),
    [press_start] for ten ticks leaves the counter at warm-up + 11. *)
Example press_start_scenario :
  frames (emulator (state_after (call_tool (press START (Some 10))) demo_loaded))
  = 16%nat
  /\ romLoaded (emulator (state_after (call_tool (press START (Some 10))) demo_loaded))
     = true
  /\ succeeds (call_tool (press START (Some 10))) demo_loaded = true.
Proof. vm_compute. done. Qed.

(** The other scenario: a save named [checkpoint] is then the one entry
    of the listing, and loading it by its id succeeds. *)
Example checkpoint_scenario :
  value_after (GameBoyEmulator.listStates None) demo_saved []
  = [metadata_json demo_metadata]
  /\ ss_name demo_metadata = "checkpoint"
  /\ succeeds (GameBoyEmulator.loadState (ss_id demo_metadata)) demo_saved = true.
Proof. vm_compute. done. Qed.

(** [press_a] on a fresh process answers with an error and runs no tick. *)
Example press_unloaded :
  value_after (call_tool (press A None)) demo_boot (mkResponse [] false)
  = mkResponse [TextContent "Error: No ROM loaded"] true
  /\ frames (emulator (state_after (call_tool (press A None)) demo_boot)) = 0%nat.
Proof. vm_compute. done. Qed.

Lemma counter_restores : restores_own_export.
Proof. intros c. exists (CounterCore (cc_rom c) (cc_frame c) []). done. Qed.

Lemma demo_loaded_facts :
  romLoaded (emulator demo_loaded) = true
  /\ gameName (emulator demo_loaded) = Some "pokemon-red"
  /\ frames (emulator demo_loaded) = 5%nat.
Proof. vm_compute. done. Qed.

Lemma demo_idle_stream_facts :
  streamActive (emulator demo_idle_stream) = true
  /\ romLoaded (emulator demo_idle_stream) = true
  /\ streamClients (emulator demo_idle_stream) = [].
Proof. vm_compute. done. Qed.

(** C1, as stated, fails: on a live stream that nobody watches one firing
    of the timer moves the tick counter (by four ticks at 15 frames per
    second). *)
Lemma tick_without_clients_advances :
  ~ (forall s s' : state,
       streamActive (emulator s) = true ->
       romLoaded (emulator s) = true ->
       streamClients (emulator s) = [] ->
       GameBoyEmulator.tick s = Ok s' tt ->
       frames (emulator s') = frames (emulator s)).
Proof.
  intros C.
  destruct demo_idle_stream_facts as (A & L & N).
  destruct (tick_run demo_idle_stream 4 A L eq_refl)
    as (s' & E & _ & _ & _ & F & _).
  specialize (C _ _ A L N E). lia.
Qed.

(** C2, as stated, fails: the [get_screen] tool advances the tick counter
    of a loaded session. *)
Lemma get_screen_tool_not_pure :
  ~ (forall (s s' : state) (r : response),
       romLoaded (emulator s) = true ->
       call_tool get_screen s = Ok s' r ->
       gameboy (emulator s') = gameboy (emulator s)
       /\ frames (emulator s') = frames (emulator s)).
Proof.
  intros C.
  destruct demo_loaded_facts as (L & _ & _).
  destruct (C _ _ _ L (call_tool_get_screen demo_loaded L)) as [_ F].
  simpl in F. lia.
Qed.

Lemma demo_install_custom :
  GameBoyEmulator.installRom demo_source (Some "My Game!") demo_boot
  = Ok (installed demo_source (Some "My Game!") demo_boot)
       (mkInstalledGame "My Game!"
          "/home/user/.gameboy-mcp/games/My Game!/rom.gb"
          "/home/user/.gameboy-mcp/games/My Game!/saves" "1000").
Proof.
  rewrite (installRom_run demo_source (Some "My Game!") demo_boot 100 (Raw "ROM"))
    by (vm_compute; reflexivity).
  cbv zeta.
  replace (must_copy _ _ _ && is_dir _ _) with false by (vm_compute; reflexivity).
  replace (is_dir _ _) with false by (vm_compute; reflexivity).
  f_equal; vm_compute; reflexivity.
Qed.

Lemma demo_install_default :
  GameBoyEmulator.installRom "/tmp/(E) Tetris!!.gbc" None
    (set_fs (<["/tmp/(E) Tetris!!.gbc" := File 100 (Raw "ROM")]> (fs demo_boot))
       demo_boot)
  = Ok (installed "/tmp/(E) Tetris!!.gbc" None
          (set_fs (<["/tmp/(E) Tetris!!.gbc" := File 100 (Raw "ROM")]> (fs demo_boot))
             demo_boot))
       (mkInstalledGame "e-tetris"
          "/home/user/.gameboy-mcp/games/e-tetris/rom.gbc"
          "/home/user/.gameboy-mcp/games/e-tetris/saves" "1000").
Proof.
  rewrite (installRom_run "/tmp/(E) Tetris!!.gbc" None _ 100 (Raw "ROM"))
    by (vm_compute; reflexivity).
  cbv zeta.
  replace (must_copy _ _ _ && is_dir _ _) with false by (vm_compute; reflexivity).
  replace (is_dir _ _) with false by (vm_compute; reflexivity).
  f_equal; vm_compute; reflexivity.
Qed.

(** C3, as stated, fails twice over: a custom name is taken as it is
    ([My Game!] keeps its capitals, its space and its exclamation mark),
    and a default name loses the separators at its ends ([(E) Tetris!!]
    gives [e-tetris], not [-e-tetris-]). *)
Lemma custom_name_not_sanitized :
  ~ (forall (src : string) (custom : option string) (s s' : state)
            (g : InstalledGame),
       GameBoyEmulator.installRom src custom s = Ok s' g ->
       sanitized_form (ig_name g) = true)
  /\ ~ (forall (src : string) (s s' : state) (g : InstalledGame),
          GameBoyEmulator.installRom src None s = Ok s' g ->
          ig_name g = spec_default_id src).
Proof.
  split; intros C.
  - specialize (C _ _ _ _ _ demo_install_custom). vm_compute in C. done.
  - specialize (C _ _ _ _ demo_install_default). vm_compute in C. done.
Qed.

Lemma demo_corrupt_facts :
  romLoaded (emulator demo_corrupt) = true
  /\ gameName (emulator demo_corrupt) = Some "pokemon-red"
  /\ readable (stateFile_of "pokemon-red" "5f3a9c00") demo_corrupt = false
  /\ present (stateFile_of "pokemon-red" "5f3a9c00") demo_corrupt = true.
Proof. vm_compute. done. Qed.

(** C4, as stated, fails: a state file that is there but does not hold
    JSON makes [loadState] raise the parser's [SyntaxError], not the error
    [Save state not found]. *)
Lemma corrupt_state_not_NotFound :
  ~ (forall (stateId game : string) (s : state),
       romLoaded (emulator s) = true ->
       gameName (emulator s) = Some game ->
       truthy game = true ->
       readable (stateFile_of game stateId) s = false
       \/ readable (metadataFile_of game stateId) s = false ->
       exists s',
         GameBoyEmulator.loadState stateId s
         = Throw s' (Error ("Save state not found: " +:+ stateId))).
Proof.
  intros C.
  destruct demo_corrupt_facts as (L & G & R & P).
  destruct (C "5f3a9c00" "pokemon-red" demo_corrupt L G eq_refl (or_introl R))
    as [s' E].
  apply present_true in P as [n En].
  rewrite (loadState_present _ _ _ _ L G eq_refl En) in E.
  destruct (read_unreadable_k _ _ R) as (e & Ek & Ne).
  rewrite Ek in E. injection E as _ ->. by destruct (Ne _ eq_refl).
Qed.

End Runs.

(** ** Instances of the theorems *)

Section Witnesses.
Local Existing Instance counter_platform.

Lemma tick_advances_clock_witness :
  0 < STREAM_FPS
  /\ exists s' n,
       GameBoyEmulator.tick demo_idle_stream = Ok s' tt
       /\ Z.of_nat n = - (- 60 / STREAM_FPS)
       /\ (1 <= n)%nat
       /\ frames (emulator s') = (frames (emulator demo_idle_stream) + n)%nat
       /\ gameboy (emulator s')
          = Nat.iter n gb_doFrame (gameboy (emulator demo_idle_stream))
       /\ (streamClients (emulator demo_idle_stream) = [] ->
           deliveries s' = deliveries demo_idle_stream
           /\ canvas (emulator s') = canvas (emulator demo_idle_stream)).
Proof.
  split; [reflexivity|].
  apply (tick_advances_clock demo_idle_stream); vm_compute; reflexivity.
Defined.

Lemma get_screen_one_tick_witness :
  romLoaded (emulator demo_loaded) = true
  /\ exists s2,
       call_tool get_screen demo_loaded
       = Ok s2 (mkResponse
                  [ImageContent (base64 (current_frame (emulator s2))) "image/png"]
                  false)
       /\ gameboy (emulator s2) = gb_doFrame (gameboy (emulator demo_loaded))
       /\ frames (emulator s2) = S (frames (emulator demo_loaded)).
Proof.
  split; [vm_compute; reflexivity|].
  apply (get_screen_one_tick demo_loaded). vm_compute; reflexivity.
Defined.

Lemma installRom_name_witness :
  GameBoyEmulator.installRom demo_source None demo_boot = Ok demo_installed demo_game
  /\ ig_name demo_game = sanitizeGameName demo_source
  /\ sanitized_form (ig_name demo_game) = true.
Proof.
  assert (E : GameBoyEmulator.installRom demo_source None demo_boot
              = Ok demo_installed demo_game)
    by (unfold demo_installed, demo_game; apply succeeds_Ok;
        vm_compute; reflexivity).
  split; [exact E|].
  destruct (installRom_name demo_source None demo_boot demo_installed demo_game E)
    as [_ Hd].
  destruct (Hd eq_refl) as (H1 & _ & H2 & _). split; [exact H1|exact H2].
Defined.

Lemma loadState_outcomes_witness :
  romLoaded (emulator demo_corrupt) = true
  /\ gameName (emulator demo_corrupt) = Some "pokemon-red"
  /\ truthy "pokemon-red" = true
  /\ readable (stateFile_of "pokemon-red" "5f3a9c00") demo_corrupt = false
  /\ exists e,
       GameBoyEmulator.loadState "5f3a9c00" demo_corrupt = Throw demo_corrupt e
       /\ (e = Error ("Save state not found: " +:+ "5f3a9c00")
           <-> present (stateFile_of "pokemon-red" "5f3a9c00") demo_corrupt = false).
Proof.
  assert (L : romLoaded (emulator demo_corrupt) = true) by (vm_compute; reflexivity).
  assert (G : gameName (emulator demo_corrupt) = Some "pokemon-red")
    by (vm_compute; reflexivity).
  assert (R : readable (stateFile_of "pokemon-red" "5f3a9c00") demo_corrupt = false)
    by (vm_compute; reflexivity).
  split; [exact L|]. split; [exact G|]. split; [reflexivity|]. split; [exact R|].
  destruct (loadState_outcomes "5f3a9c00" "pokemon-red" demo_corrupt L G eq_refl)
    as [Hf _].
  exact (Hf (or_introl R)).
Defined.

Lemma save_then_load_same_frame_witness :
  restores_own_export
  /\ GameBoyEmulator.saveState (Some "checkpoint") demo_loaded
     = Ok demo_saved demo_metadata
  /\ exists s2 s3 frame,
       GameBoyEmulator.loadState (ss_id demo_metadata) demo_saved
       = Ok s2 (metadata_json demo_metadata)
       /\ ss_screenshotBase64 demo_metadata = base64 frame
       /\ GameBoyEmulator.getScreenAsBuffer s2 = Ok s3 frame
       /\ frame = current_frame (emulator demo_loaded)
       /\ frames (emulator s2) = frames (emulator demo_loaded).
Proof.
  assert (E : GameBoyEmulator.saveState (Some "checkpoint") demo_loaded
              = Ok demo_saved demo_metadata)
    by (unfold demo_saved, demo_metadata; apply succeeds_Ok;
        vm_compute; reflexivity).
  split; [exact counter_restores|]. split; [exact E|].
  exact (save_then_load_same_frame (Some "checkpoint") demo_loaded demo_saved
           demo_metadata counter_restores E).
Defined.

Lemma pressButton_advances_witness :
  0 <= 10
  /\ romLoaded (emulator demo_loaded) = true
  /\ exists s',
       pressButton START 10 demo_loaded
       = Ok s' (ImageContent (base64 (current_frame (emulator s'))) "image/png")
       /\ frames (emulator s') = (frames (emulator demo_loaded) + (Z.to_nat 10 + 1))%nat
       /\ gameboy (emulator s')
          = gb_doFrame
              (Nat.iter (Z.to_nat 10)
                 (fun c => gb_doFrame (gb_pressKeys [KEYMAP START] c))
                 (gameboy (emulator demo_loaded)))
       /\ romLoaded (emulator s') = true.
Proof.
  assert (P : 0 <= 10) by lia.
  assert (L : romLoaded (emulator demo_loaded) = true) by (vm_compute; reflexivity).
  split; [exact P|]. split; [exact L|].
  destruct (pressButton_advances START 10 demo_loaded P) as [Hl _].
  exact (Hl L).
Defined.

Lemma installRom_twice_witness :
  fs demo_boot !! demo_source = Some (File 100 (Raw "ROM"))
  /\ GameBoyEmulator.installRom demo_source None demo_boot = Ok demo_installed demo_game
  /\ fs demo_installed !! demo_source = Some (File 100 (Raw "ROM"))
  /\ exists s2 g2,
       GameBoyEmulator.installRom demo_source None (set_now 5000 demo_installed)
       = Ok s2 g2
       /\ dom (fs s2) = dom (fs demo_installed)
       /\ ig_romPath g2 = ig_romPath demo_game
       /\ copies s2
          = (copies demo_installed
             + if must_copy demo_source
                    (destRomPath_of demo_source (install_name demo_source None))
                    (set_now 5000 demo_installed)
               then 1 else 0)%nat.
Proof.
  assert (E0 : fs demo_boot !! demo_source = Some (File 100 (Raw "ROM")))
    by (vm_compute; reflexivity).
  assert (E : GameBoyEmulator.installRom demo_source None demo_boot
              = Ok demo_installed demo_game)
    by (unfold demo_installed, demo_game; apply succeeds_Ok;
        vm_compute; reflexivity).
  assert (E1 : fs demo_installed !! demo_source = Some (File 100 (Raw "ROM")))
    by (vm_compute; reflexivity).
  split; [exact E0|]. split; [exact E|]. split; [exact E1|].
  destruct (installRom_twice demo_source None demo_boot demo_installed demo_game
              100 (Raw "ROM") 5000 E0 E E1)
    as (s2 & g2 & H2 & Hdom & _ & _ & _ & Hp & _ & _ & Hc).
  exists s2, g2. split; [exact H2|]. split; [exact Hdom|]. split; [exact Hp|exact Hc].
Defined.

Lemma deleteState_idempotent_witness :
  target_game None demo_saved = Some "pokemon-red"
  /\ exists s1,
       GameBoyEmulator.deleteState "5f3a9c00" None demo_saved
       = Ok s1 (present (stateFile_of "pokemon-red" "5f3a9c00") demo_saved
                || present (metadataFile_of "pokemon-red" "5f3a9c00") demo_saved)
       /\ fs s1 = delete (metadataFile_of "pokemon-red" "5f3a9c00")
                    (delete (stateFile_of "pokemon-red" "5f3a9c00") (fs demo_saved))
       /\ emulator s1 = emulator demo_saved
       /\ GameBoyEmulator.deleteState "5f3a9c00" None s1 = Ok s1 false.
Proof.
  assert (T : target_game None demo_saved = Some "pokemon-red")
    by (vm_compute; reflexivity).
  split; [exact T|].
  destruct (deleteState_idempotent "5f3a9c00" None demo_saved) as [_ Hd].
  apply (Hd "pokemon-red" T); vm_compute; reflexivity.
Defined.

Lemma tick_fans_out_witness :
  NoDup (cid <$> streamClients (emulator demo_watched_stream))
  /\ exists s' n frame,
       GameBoyEmulator.framesToAdvance = Some n
       /\ GameBoyEmulator.tick demo_watched_stream = Ok s' tt
       /\ frame = current_frame (run_frames n (emulator demo_watched_stream))
       /\ deliveries s'
          = deliveries demo_watched_stream
            ++ (delivery_of frame <$> streamClients (emulator demo_watched_stream))
       /\ streamClients (emulator s')
          = filter (fun c => accepts c frame = true)
              (streamClients (emulator demo_watched_stream))
       /\ timers s' = timers demo_watched_stream ++ [GameBoyEmulator.frameInterval]
       /\ streamActive (emulator s') = true.
Proof.
  assert (N : NoDup (cid <$> streamClients (emulator demo_watched_stream))).
  { vm_compute. repeat constructor; set_solver. }
  split; [exact N|].
  apply (tick_fans_out demo_watched_stream); [done| | |exact N];
    vm_compute; reflexivity.
Defined.

Lemma listStates_absent_witness :
  GameBoyEmulator.listStates None demo_boot = Ok demo_boot []
  /\ GameBoyEmulator.listStates (Some "tetris") demo_loaded = Ok demo_loaded [].
Proof.
  split.
  - destruct (listStates_absent None demo_boot) as [Hn _].
    apply Hn. vm_compute; reflexivity.
  - destruct (listStates_absent (Some "tetris") demo_loaded) as [_ Hg].
    apply (Hg "tetris"); vm_compute; reflexivity.
Defined.

End Witnesses.

(* ===================================================================== *)
(** * Further properties of the server *)
(* ===================================================================== *)

(** ** Names *)

Lemma id_char_plain (c : ascii) : id_char c = true -> plain_char c = true.
Proof. destruct c as [[] [] [] [] [] [] [] []]; vm_compute; congruence. Qed.

Lemma id_char_lower (c : ascii) : id_char c = true -> lower_char c = c.
Proof. destruct c as [[] [] [] [] [] [] [] []]; vm_compute; congruence. Qed.

Lemma id_char_cases (c : ascii) :
  id_char c = true ->
  (is_alnum c = true /\ is_dash c = false) \/ (is_alnum c = false /\ c = dash).
Proof. destruct c as [[] [] [] [] [] [] [] []]; vm_compute; auto. Qed.

(** On a path without separator and without dot the scan of [extname]
    never finds a dot and never stops early. *)
Lemma ext_scan_plain (r : list ascii) (i : Z) (st : ext_state) :
  forallb plain_char r = true ->
  x_startDot st = -1 -> x_break st = false ->
  x_startDot (scan_back ext_step i r st) = -1.
Proof.
  revert i st. induction r as [|c r IH]; intros i st Hr Hd Hb; [done|].
  simpl in Hr. apply andb_true_iff in Hr as [Hc Hr].
  apply andb_true_iff in Hc as [Hs Ht].
  apply negb_true_iff in Hs, Ht.
  simpl. apply IH; [done| |];
    destruct st as [sd sp e ms pd b]; simpl in *; subst sd b;
    rewrite Hs, Ht; by destruct (e =? -1).
Qed.

Lemma extname_plain (l : list ascii) :
  forallb plain_char l = true -> extname_chars l = [].
Proof.
  intros Hl. unfold extname_chars, for_down.
  rewrite ext_scan_plain; [done| |done|done].
  rewrite forallb_forall in *. intros c Hc. apply Hl. by apply in_rev.
Qed.

(** Without separators, the scan of [basename] keeps the end it found
    first. *)
Lemma base_scan_plain (r : list ascii) (i : Z) (st : base_state) :
  forallb plain_char r = true ->
  b_end st <> -1 -> b_break st = false ->
  scan_back base_step_plain i r st = st.
Proof.
  revert i st. induction r as [|c r IH]; intros i st Hr He Hb; [done|].
  simpl in Hr. apply andb_true_iff in Hr as [Hc Hr].
  apply andb_true_iff in Hc as [Hs _]. apply negb_true_iff in Hs.
  simpl.
  assert (Est : base_step_plain i c st = st).
  { destruct st as [s e ms xi fe b]; simpl in *; subst b. rewrite Hs.
    apply Z.eqb_neq in He. by rewrite He. }
  rewrite Est. by apply IH.
Qed.

Lemma basename_plain (l : list ascii) :
  forallb plain_char l = true -> basename_chars l [] = l.
Proof.
  intros Hl.
  change (basename_chars l [])
    with (let st := for_down base_step_plain l
                      (BaseState 0 (-1) true (-1) (-1) false) in
          if b_end st =? -1 then [] else slice l (b_start st) (b_end st)).
  cbv zeta. unfold for_down.
  assert (Hr : forallb plain_char (rev l) = true).
  { rewrite forallb_forall in *. intros c Hc. apply Hl. by apply in_rev. }
  destruct (rev l) as [|c r] eqn:R.
  - assert (l = []) as -> by (rewrite <- (rev_involutive l), R; done). done.
  - simpl in Hr. apply andb_true_iff in Hr as [Hc Hr].
    apply andb_true_iff in Hc as [Hs _]. apply negb_true_iff in Hs.
    cbn [scan_back].
    assert (E1 : base_step_plain (Z.of_nat (length l) - 1) c
                   (BaseState 0 (-1) true (-1) (-1) false)
                 = BaseState 0 (Z.of_nat (length l) - 1 + 1) false (-1) (-1) false)
      by (unfold base_step_plain; by rewrite Hs).
    rewrite E1.
    rewrite base_scan_plain; [|done|cbn; lia|done].
    cbn [b_end b_start].
    replace (Z.of_nat (length l) - 1 + 1 =? -1) with false
      by (symmetry; apply Z.eqb_neq; lia).
    unfold slice.
    replace (Z.of_nat (length l) - 1 + 1 - 0) with (Z.of_nat (length l)) by lia.
    rewrite Nat2Z.id. simpl drop. by rewrite firstn_all.
Qed.

Lemma replace_runs_fixed (b : bool) (l : list ascii) :
  forallb id_char l = true -> no_double_dash l = true ->
  (b = true -> starts_with_dash l = false) ->
  replace_runs b l = l.
Proof.
  revert b. induction l as [|c l IH]; intros b Hc Hn Hb; [done|].
  simpl in Hc. apply andb_true_iff in Hc as [Hc Hl].
  pose proof (no_double_dash_tail _ _ Hn) as Hn'.
  simpl. destruct (id_char_cases c Hc) as [[Ha Hd]|[Ha ->]]; rewrite Ha.
  - f_equal. apply IH; [done|done|done].
  - destruct b; [by specialize (Hb eq_refl)|].
    f_equal. apply IH; [done|done|]. intros _.
    destruct l as [|c' l]; [done|]. simpl in Hn.
    apply andb_true_iff in Hn as [Hn _]. simpl.
    change (is_dash dash) with true in Hn. by destruct (is_dash c').
Qed.

Lemma toLowerCase_fixed (l : list ascii) :
  forallb id_char l = true -> toLowerCase l = l.
Proof.
  induction l as [|c l IH]; [done|]. simpl.
  intros [Hc Hl]%andb_true_iff. by rewrite (id_char_lower c Hc), (IH Hl).
Qed.

Lemma strip_edge_dashes_fixed (l : list ascii) :
  starts_with_dash l = false -> starts_with_dash (rev l) = false ->
  strip_edge_dashes l = l.
Proof.
  intros H1 H2. unfold strip_edge_dashes.
  destruct l as [|c l]; [done|]. simpl in H1. rewrite H1.
  destruct (rev (c :: l)) as [|c' r] eqn:R; [done|].
  simpl in H2. by rewrite H2.
Qed.

Lemma sanitize_chars_fixed (l : list ascii) :
  forallb id_char l = true -> no_double_dash l = true ->
  starts_with_dash l = false -> starts_with_dash (rev l) = false ->
  sanitize_chars l = l.
Proof.
  intros Hc Hn H1 H2. unfold sanitize_chars.
  rewrite replace_runs_fixed by done.
  rewrite toLowerCase_fixed by done.
  by apply strip_edge_dashes_fixed.
Qed.

(** X1: a name that already has the sanitized form (lower-case letters,
    digits and single dashes, no dash at either end) is left as it is by
    [sanitizeGameName]; so sanitizing twice is sanitizing once. *)
Theorem sanitizeGameName_idempotent (p : string) :
  sanitizeGameName (sanitizeGameName p) = sanitizeGameName p
  /\ forall name,
       sanitized_form name = true -> no_edge_dash name = true ->
       sanitizeGameName name = name.
Proof.
  assert (Fix : forall name,
            sanitized_form name = true -> no_edge_dash name = true ->
            sanitizeGameName name = name).
  { intros name Hf He. unfold sanitized_form in Hf. unfold no_edge_dash in He.
    apply andb_true_iff in Hf as [Hc Hn].
    apply andb_true_iff in He as [H1 H2].
    apply negb_true_iff in H1, H2.
    assert (Hp : forallb plain_char (chars name) = true).
    { rewrite forallb_forall in *. intros c Hin. by apply id_char_plain, Hc. }
    unfold sanitizeGameName, extname, basename.
    rewrite (extname_plain _ Hp), !chars_str, (basename_plain _ Hp).
    rewrite sanitize_chars_fixed by done. apply str_chars. }
  split; [|exact Fix].
  destruct (sanitizeGameName_form p) as [Hf He]. by apply Fix.
Qed.

(** ** Frames *)

Lemma clamp8_range (x : Z) : 0 <= GameBoyEmulator.clamp8 x <= 255.
Proof. unfold GameBoyEmulator.clamp8. lia. Qed.

Lemma fill_imageData_length (i : nat) (sd data : list Z) :
  length (GameBoyEmulator.fill_imageData i sd data) = length data.
Proof.
  revert i data. induction sd as [|x sd IH]; intros i data; [done|].
  simpl. by rewrite IH, length_insert.
Qed.

(** Cell [j] after the copy loop has run from index [i] on. *)
Lemma fill_imageData_lookup (i : nat) (sd data : list Z) (j : nat) :
  (j < length data)%nat ->
  GameBoyEmulator.fill_imageData i sd data !! j
  = if decide (i <= j)%nat then
      match sd !! (j - i)%nat with
      | Some x => Some (GameBoyEmulator.clamp8 x)
      | None => data !! j
      end
    else data !! j.
Proof.
  revert i data. induction sd as [|x sd IH]; intros i data Hj.
  - simpl. by destruct (decide _).
  - simpl GameBoyEmulator.fill_imageData.
    rewrite IH by (by rewrite length_insert).
    destruct (decide (S i <= j)%nat) as [H1|H1].
    + rewrite decide_True by lia.
      replace (j - i)%nat with (S (j - S i)) by lia. simpl.
      destruct (sd !! (j - S i)%nat); [done|].
      apply list_lookup_insert_ne. lia.
    + destruct (decide (i <= j)%nat) as [H2|H2].
      * assert (j = i) as -> by lia. rewrite Nat.sub_diag. simpl.
        by apply list_lookup_insert_eq.
      * apply list_lookup_insert_ne. lia.
Qed.

(** X2: whatever the core returns as its screen, the image drawn from it
    has exactly 160 x 144 x 4 cells; cell [j] holds the screen's value at
    [j] clamped to a byte, or 0 where the screen is too short, and values
    past the image are dropped. *)
Theorem render_bounds (screenData : list Z) :
  length (GameBoyEmulator.render screenData) = (160 * 144 * 4)%nat
  /\ (forall j, (j < 160 * 144 * 4)%nat ->
        GameBoyEmulator.render screenData !! j
        = Some (match screenData !! j with
                | Some x => GameBoyEmulator.clamp8 x
                | None => 0
                end))
  /\ (forall j x, GameBoyEmulator.render screenData !! j = Some x -> 0 <= x <= 255).
Proof.
  unfold GameBoyEmulator.render.
  set (n := (160 * 144 * 4)%nat).
  assert (L : length (GameBoyEmulator.fill_imageData 0 screenData (replicate n 0)) = n)
    by (by rewrite fill_imageData_length, length_replicate).
  assert (C : forall j, (j < n)%nat ->
            GameBoyEmulator.fill_imageData 0 screenData (replicate n 0) !! j
            = Some (match screenData !! j with
                    | Some x => GameBoyEmulator.clamp8 x
                    | None => 0
                    end)).
  { intros j Hj. rewrite fill_imageData_lookup by (by rewrite length_replicate).
    rewrite decide_True by lia. rewrite Nat.sub_0_r.
    destruct (screenData !! j); [done|]. by apply lookup_replicate_2. }
  split; [exact L|]. split; [exact C|].
  intros j x Hx.
  assert (Hj : (j < n)%nat) by (rewrite <- L; by eapply lookup_lt_Some).
  rewrite (C j Hj) in Hx. injection Hx as <-.
  destruct (screenData !! j); [apply clamp8_range|lia].
Qed.

(** ** The extension never holds a separator *)

Lemma ext_step_inv (l : list ascii) (i : Z) (c : ascii) (st : ext_state) :
  0 <= i -> l !! Z.to_nat i = Some c ->
  ext_inv l i st -> ext_inv l (i - 1) (ext_step i c st).
Proof.
  intros Hi Hc. unfold ext_inv.
  destruct st as [sd sp e ms pd b]. simpl.
  destruct b; [done|]. intros (I1 & I2 & I3 & I4).
  destruct (code c =? CHAR_FORWARD_SLASH) eqn:Sl.
  - destruct ms; simpl.
    + specialize (I1 eq_refl). specialize (I2 I1). subst.
      repeat split; intros; lia.
    + intros Hsd. specialize (I4 Hsd).
      assert (He : e <> -1) by lia. destruct (I3 He) as [_ I3'].
      split; [lia|]. intros j Hj. apply I3'. lia.
  - assert (Pc : plain_at l i) by (by exists c).
    destruct (e =? -1) eqn:Ee.
    + apply Z.eqb_eq in Ee. subst e. specialize (I2 eq_refl). subst sd.
      destruct (code c =? CHAR_DOT); simpl.
      * repeat split; intros; try lia; try done.
        assert (j = i) as -> by lia. done.
      * repeat split; intros; try lia; try done.
        assert (j = i) as -> by lia. done.
    + apply Z.eqb_neq in Ee. destruct (I3 Ee) as [I3a I3b].
      assert (Hms : ms = false) by (destruct ms; [by specialize (I1 eq_refl)|done]).
      subst ms.
      assert (Step : forall j, i - 1 < j < e -> plain_at l j).
      { intros j Hj. destruct (decide (j = i)) as [->|]; [done|]. apply I3b. lia. }
      destruct (code c =? CHAR_DOT); simpl.
      * destruct (sd =? -1) eqn:Esd; simpl.
        -- repeat split; intros; try lia; try done. by apply Step.
        -- apply Z.eqb_neq in Esd. specialize (I4 Esd).
           destruct (negb (pd =? 1)); simpl;
             repeat split; intros; try lia; try done; by apply Step.
      * destruct (negb (sd =? -1)) eqn:Esd; simpl.
        -- apply negb_true_iff, Z.eqb_neq in Esd. specialize (I4 Esd).
           repeat split; intros; try lia; try done. by apply Step.
        -- apply negb_false_iff, Z.eqb_eq in Esd. subst sd.
           repeat split; intros; try lia; try done. by apply Step.
Qed.

Lemma ext_scan_inv (suf r : list ascii) (st : ext_state) :
  ext_inv (rev r ++ suf) (Z.of_nat (length r) - 1) st ->
  ext_inv (rev r ++ suf) (-1)
    (scan_back ext_step (Z.of_nat (length r) - 1) r st).
Proof.
  revert suf st. induction r as [|c r IH]; intros suf st I; [done|].
  cbn [scan_back].
  replace (Z.of_nat (length (c :: r)) - 1 - 1) with (Z.of_nat (length r) - 1)
    by (simpl length; lia).
  assert (El : rev (c :: r) ++ suf = rev r ++ c :: suf)
    by (simpl; by rewrite <- app_assoc).
  rewrite El in *. apply IH.
  replace (Z.of_nat (length r) - 1) with (Z.of_nat (length (c :: r)) - 1 - 1)
    by (simpl length; lia).
  apply ext_step_inv; [simpl length; lia| |exact I].
  replace (Z.to_nat (Z.of_nat (length (c :: r)) - 1)) with (length (rev r))
    by (rewrite length_rev; simpl length; lia).
  by rewrite lookup_app_r, Nat.sub_diag.
Qed.

Lemma slice_plain (l : list ascii) (a b : Z) :
  0 <= a -> (forall j, a <= j < b -> plain_at l j) -> no_slash (slice l a b) = true.
Proof.
  intros Ha P. unfold no_slash, slice. apply forallb_forall. intros c Hc.
  apply list_elem_of_In, list_elem_of_lookup in Hc as [k Hk].
  apply lookup_take_Some in Hk as [Hk Hlt].
  rewrite lookup_drop in Hk.
  destruct (P (a + Z.of_nat k) ltac:(lia)) as (c' & Hc' & Pc').
  replace (Z.to_nat (a + Z.of_nat k)) with (Z.to_nat a + k)%nat in Hc' by lia.
  rewrite Hk in Hc'. injection Hc' as <-. by rewrite Pc'.
Qed.

Lemma extname_no_slash (l : list ascii) : no_slash (extname_chars l) = true.
Proof.
  unfold extname_chars, for_down.
  assert (I : ext_inv l (-1)
                (scan_back ext_step (Z.of_nat (length l) - 1) (rev l) ext_init)).
  { pose proof (ext_scan_inv [] (rev l) ext_init) as I.
    rewrite rev_involutive, app_nil_r, length_rev in I. apply I.
    unfold ext_inv, ext_init. simpl. repeat split; intros; lia || done. }
  set (st := scan_back ext_step (Z.of_nat (length l) - 1) (rev l) ext_init) in *.
  destruct (x_startDot st =? -1) eqn:Ed; [done|].
  apply Z.eqb_neq in Ed.
  match goal with |- no_slash (if ?b then _ else _) = true => destruct b end;
    [done|].
  unfold ext_inv in I. destruct (x_break st).
  - destruct (I Ed) as [H0 P]. by apply slice_plain.
  - destruct I as (_ & I2 & I3 & I4). specialize (I4 Ed).
    assert (He : x_end st <> -1) by lia. destruct (I3 He) as [_ P].
    apply slice_plain; [lia|]. intros j Hj. apply P. lia.
Qed.

(** The installed ROM and [game.json] are two files. *)
Lemma dest_ne_metadata `{Platform} (src name : string) :
  destRomPath_of src name <> metadataPath_of name.
Proof.
  destruct (path_join_tail (getGameDir name) "") as (pre & E).
  unfold destRomPath_of, metadataPath_of. intros Eq.
  apply (f_equal chars) in Eq.
  pose proof (E (chars "rom" ++ extname_chars (chars src))) as E1.
  pose proof (E (chars "game.json") eq_refl ltac:(simpl; lia)) as E2.
  assert (Es : "" +:+ str (chars "rom" ++ extname_chars (chars src))
               = "rom" +:+ extname src).
  { apply chars_inj. unfold extname. simpl. by rewrite !chars_app, !chars_str. }
  rewrite Es in E1. change ("" +:+ str (chars "game.json")) with "game.json" in E2.
  rewrite E1, E2 in Eq.
  - apply app_inv_head in Eq. discriminate.
  - unfold no_slash. rewrite forallb_app. simpl. apply extname_no_slash.
  - rewrite length_app. simpl. lia.
Qed.

(** ** A child of a normalised directory *)

Lemma split_slash_segments (l cur : list ascii) :
  no_slash cur = true -> Forall (fun seg => no_slash seg = true) (split_slash l cur).
Proof.
  revert cur. induction l as [|c l IH]; intros cur N.
  - constructor; [|constructor]. unfold no_slash in *.
    rewrite forallb_forall in *. intros x Hx. apply N. by apply in_rev.
  - simpl. destruct (code c =? CHAR_FORWARD_SLASH) eqn:Ec.
    + constructor; [|by apply IH].
      unfold no_slash in *. rewrite forallb_forall in *.
      intros x Hx. apply N. by apply in_rev.
    + apply IH. simpl. by rewrite Ec.
Qed.

Lemma split_slash_tail_plain (l cur : list ascii) :
  no_slash cur = true ->
  exists init w,
    Forall (fun seg => no_slash seg = true) init /\ no_slash w = true
    /\ forall t, no_slash t = true -> split_slash (l ++ t) cur = init ++ [w ++ t].
Proof.
  revert cur. induction l as [|c l IH]; intros cur N.
  - exists [], (rev cur). split; [constructor|]. split.
    + unfold no_slash in *. rewrite forallb_forall in *.
      intros x Hx. apply N. by apply in_rev.
    + intros t Nt. by apply split_slash_plain.
  - simpl. destruct (code c =? CHAR_FORWARD_SLASH) eqn:Ec.
    + destruct (IH [] eq_refl) as (init & w & Fi & Nw & E).
      exists (rev cur :: init), w. split; [|split; [done|]].
      * constructor; [|done]. unfold no_slash in *. rewrite forallb_forall in *.
        intros x Hx. apply N. by apply in_rev.
      * intros t Nt. by rewrite (E t Nt).
    + destruct (IH (c :: cur)) as (init & w & Fi & Nw & E).
      { simpl. by rewrite Ec. }
      exists init, w. split; [done|]. split; [done|].
      intros t Nt. by rewrite (E t Nt).
Qed.

Lemma split_slash_segment (seg rest cur : list ascii) :
  no_slash seg = true ->
  split_slash (seg ++ slash :: rest) cur = (rev cur ++ seg) :: split_slash rest [].
Proof.
  revert cur. induction seg as [|c seg IH]; intros cur N.
  - simpl. by rewrite app_nil_r.
  - simpl in N. apply andb_true_iff in N as [Nc N]. apply negb_true_iff in Nc.
    simpl. rewrite Nc, (IH _ N). simpl. by rewrite <- app_assoc.
Qed.

Lemma split_slash_joined (segs : list (list ascii)) (y : list ascii) :
  Forall (fun seg => no_slash seg = true) segs -> no_slash y = true ->
  split_slash (concat ((fun x => x ++ [slash]) <$> segs) ++ y) [] = segs ++ [y].
Proof.
  intros F Ny. induction F as [|seg segs Ns F IH].
  - simpl. by rewrite split_slash_plain.
  - rewrite fmap_cons. simpl concat. rewrite <- !app_assoc. simpl.
    by rewrite (split_slash_segment seg _ [] Ns), IH.
Qed.

Lemma stable_step (b : bool) (acc : list (list ascii)) (seg : list ascii) :
  stable b acc -> stable b (normalize_step b acc seg).
Proof.
  intros St. unfold normalize_step.
  destruct (bool_decide (seg = []) || bool_decide (seg = [dot])) eqn:E1; [done|].
  destruct (bool_decide (seg = [dot; dot])) eqn:E2.
  - destruct acc as [|top rest].
    + destruct b; [|done]. simpl. split; [done|].
      unfold normalize_step. by rewrite E1, E2.
    + destruct (bool_decide (top = [dot; dot])) eqn:E3.
      * destruct b; [|done]. simpl. split; [done|].
        unfold normalize_step. by rewrite E1, E2, E3.
      * by destruct St.
  - simpl. split; [done|]. unfold normalize_step. by rewrite E1, E2.
Qed.

Lemma stable_fold (b : bool) (segs acc : list (list ascii)) :
  stable b acc -> stable b (fold_left (normalize_step b) segs acc).
Proof.
  revert acc. induction segs as [|seg segs IH]; intros acc St; [done|].
  simpl. apply IH. by apply stable_step.
Qed.

Lemma stable_replay (b : bool) (acc : list (list ascii)) :
  stable b acc -> fold_left (normalize_step b) (rev acc) [] = acc.
Proof.
  induction acc as [|top rest IH]; [done|].
  intros [St E]. simpl rev. rewrite fold_left_app. simpl. by rewrite IH.
Qed.

Lemma stable_nonempty (b : bool) (acc : list (list ascii)) :
  stable b acc -> Forall (fun seg => seg <> []) acc.
Proof.
  induction acc as [|top rest IH]; [constructor|].
  intros [St E]. constructor; [|by apply IH].
  intros ->. unfold normalize_step in E. simpl in E.
  apply (f_equal length) in E. simpl in E. lia.
Qed.

Lemma normalize_step_segments (b : bool) (acc : list (list ascii)) (seg : list ascii) :
  Forall (fun seg => no_slash seg = true) acc -> no_slash seg = true ->
  Forall (fun seg => no_slash seg = true) (normalize_step b acc seg).
Proof.
  intros F N. unfold normalize_step.
  destruct (_ || _); [done|]. destruct (bool_decide (seg = [dot; dot])).
  - destruct acc as [|top rest].
    + destruct b; [by constructor|done].
    + destruct (bool_decide _); [destruct b; [by constructor|done]|].
      by inversion F.
  - by constructor.
Qed.

Lemma fold_segments (b : bool) (segs acc : list (list ascii)) :
  Forall (fun seg => no_slash seg = true) acc ->
  Forall (fun seg => no_slash seg = true) segs ->
  Forall (fun seg => no_slash seg = true) (fold_left (normalize_step b) segs acc).
Proof.
  intros Fa Fs. revert acc Fa. induction Fs as [|seg segs N Fs IH]; intros acc Fa;
    [done|].
  simpl. apply IH. by apply normalize_step_segments.
Qed.

Lemma normalize_step_name (b : bool) (acc : list (list ascii)) (f : list ascii) :
  entry f -> normalize_step b acc f = f :: acc.
Proof.
  intros (N0 & N1 & N2 & _). unfold normalize_step.
  by rewrite !bool_decide_false.
Qed.

Lemma entry_long (t : list ascii) :
  no_slash t = true -> (3 <= length t)%nat -> entry t.
Proof.
  intros N L. repeat split; [intros ->; simpl in L; lia..|exact N].
Qed.

Lemma no_slash_last (t : list ascii) (c : ascii) :
  no_slash t = true -> last t = Some c -> (code c =? CHAR_FORWARD_SLASH) = false.
Proof.
  intros N L. apply last_Some in L as [t' ->].
  unfold no_slash in N. rewrite forallb_app in N. simpl in N.
  apply andb_true_iff in N as [_ N]. apply andb_true_iff in N as [N _].
  by apply negb_true_iff.
Qed.

(** The shape of a normalised path that ends with a name. *)
Lemma normalize_chars_form (l : list ascii) :
  exists abs acc w,
    stable (negb abs) acc /\ Forall (fun seg => no_slash seg = true) acc
    /\ no_slash w = true
    /\ forall t, no_slash t = true -> (3 <= length t)%nat ->
         normalize_chars (l ++ t)
         = (if abs then [slash] else [])
           ++ concat ((fun x => x ++ [slash]) <$> rev acc) ++ w ++ t.
Proof.
  destruct (split_slash_tail_plain l [] eq_refl) as (init & w & Fi & Nw & E).
  set (isAbs := match l with
                | c :: _ => code c =? CHAR_FORWARD_SLASH
                | [] => false
                end).
  set (acc := fold_left (normalize_step (negb isAbs)) init []).
  exists isAbs, acc, w.
  split; [by apply stable_fold|]. split; [by apply fold_segments|].
  split; [done|]. intros t N L.
  destruct (last t) as [cl|] eqn:Lt;
    [|apply last_None in Lt; subst t; simpl in L; lia].
  pose proof (no_slash_last t cl N Lt) as Hcl.
  assert (Hhead : match l ++ t with
                  | c :: _ => code c =? CHAR_FORWARD_SLASH
                  | [] => false
                  end = isAbs).
  { subst isAbs. destruct l as [|c l]; [|done]. simpl.
    destruct t as [|c t]; [done|]. simpl in N.
    apply andb_true_iff in N as [Nc _]. by apply negb_true_iff. }
  unfold normalize_chars.
  destruct (l ++ t) as [|c0 lt] eqn:Elt.
  { apply (f_equal length) in Elt. rewrite length_app in Elt. simpl in Elt. lia. }
  rewrite <- Elt. cbv zeta.
  replace (code c0 =? CHAR_FORWARD_SLASH) with isAbs.
  assert (Hlast : last (l ++ t) = Some cl).
  { apply last_Some in Lt as [t' ->]. rewrite app_assoc. apply last_snoc. }
  rewrite Hlast, Hcl.
  unfold normalizeString. rewrite (E t N), fold_left_app. simpl fold_left.
  fold acc. rewrite normalize_step_long by (rewrite length_app; lia).
  simpl rev. rewrite join_segments_snoc.
  destruct (concat ((fun x => x ++ [slash]) <$> rev acc) ++ w ++ t) as [|p0 p] eqn:Ep.
  { apply (f_equal length) in Ep. rewrite !length_app in Ep. simpl in Ep. lia. }
  rewrite <- Ep. destruct isAbs; simpl; by rewrite <- ?app_assoc.
Qed.

(** Normalising a normalised path that ends with a name, followed by a
    separator and an entry name, changes nothing. *)
Lemma normalize_chars_child (l t f : list ascii) :
  no_slash t = true -> (3 <= length t)%nat -> entry f ->
  normalize_chars (normalize_chars (l ++ t) ++ slash :: f)
  = normalize_chars (l ++ t) ++ slash :: f.
Proof.
  intros N L Ef.
  destruct (normalize_chars_form l) as (abs & acc & w & St & Fa & Nw & E).
  rewrite (E t N L). clear E.
  set (body := concat ((fun x => x ++ [slash]) <$> rev acc)).
  set (D := (if abs then [slash] else []) ++ body ++ w ++ t).
  assert (Nwt : no_slash (w ++ t) = true)
    by (unfold no_slash in *; by rewrite forallb_app, Nw, N).
  assert (Nf : no_slash f = true) by apply Ef.
  assert (Fr : Forall (fun seg => no_slash seg = true) (rev acc ++ [w ++ t])).
  { apply Forall_app. split; [by apply Forall_rev|by constructor]. }
  assert (Split : split_slash (D ++ slash :: f) []
                  = (if abs then [[]] else []) ++ rev acc ++ [w ++ t; f]).
  { assert (Eb : body ++ (w ++ t) ++ slash :: f
               = concat ((fun x => x ++ [slash]) <$> (rev acc ++ [w ++ t])) ++ f).
    { subst body. rewrite fmap_app, concat_app. simpl.
      by rewrite <- !app_assoc. }
    subst D. rewrite <- !app_assoc. rewrite (app_assoc w t), Eb.
    destruct abs; simpl.
    - rewrite (split_slash_joined _ f Fr Nf). by rewrite <- app_assoc.
    - rewrite (split_slash_joined _ f Fr Nf). by rewrite <- app_assoc. }
  assert (Fold : fold_left (normalize_step (negb abs))
                   (split_slash (D ++ slash :: f) []) []
                 = f :: (w ++ t) :: acc).
  { rewrite Split. rewrite fold_left_app.
    assert (E0 : fold_left (normalize_step (negb abs)) (if abs then [[]] else []) []
                 = []) by (by destruct abs).
    rewrite E0, fold_left_app, (stable_replay _ _ St). simpl.
    rewrite (normalize_step_long _ acc (w ++ t)) by (rewrite length_app; lia).
    by apply normalize_step_name. }
  assert (Head : match D ++ slash :: f with
                 | c :: _ => code c =? CHAR_FORWARD_SLASH
                 | [] => false
                 end = abs).
  { subst D. destruct abs; [done|]. simpl.
    pose proof (stable_nonempty _ _ St) as Ne.
    apply Forall_rev in Ne. apply Forall_rev in Fa.
    subst body. destruct (rev acc) as [|s r].
    - simpl. destruct (w ++ t) as [|c wt] eqn:Ewt.
      + apply (f_equal length) in Ewt. rewrite length_app in Ewt. simpl in Ewt. lia.
      + simpl. simpl in Nwt. apply andb_true_iff in Nwt as [Nc _].
        by apply negb_true_iff.
    - inversion Ne as [|? ? Hs _]. inversion Fa as [|? ? Ns _]. subst.
      destruct s as [|c s]; [done|]. simpl. simpl in Ns.
      apply andb_true_iff in Ns as [Nc _]. by apply negb_true_iff. }
  destruct (last f) as [cf|] eqn:Lf;
    [|apply last_None in Lf; by destruct Ef as (? & _)].
  unfold normalize_chars at 1.
  destruct (D ++ slash :: f) as [|c0 rest] eqn:ED.
  { apply (f_equal length) in ED. rewrite length_app in ED. simpl in ED. lia. }
  rewrite <- ED in Fold |- *. cbv zeta.
  replace (code c0 =? CHAR_FORWARD_SLASH) with abs.
  assert (Hlast : last (D ++ slash :: f) = Some cf).
  { apply last_Some in Lf as [f' ->].
    rewrite app_comm_cons, app_assoc. apply last_snoc. }
  rewrite Hlast, (no_slash_last f cf Nf Lf).
  unfold normalizeString. rewrite Fold. simpl rev.
  rewrite <- app_assoc. simpl app.
  replace (rev acc ++ [w ++ t; f]) with ((rev acc ++ [w ++ t]) ++ [f])
    by (by rewrite <- app_assoc).
  rewrite join_segments_snoc, fmap_app, concat_app. simpl concat.
  fold body. rewrite app_nil_r.
  destruct ((body ++ (w ++ t) ++ [slash]) ++ f) as [|p0 p] eqn:Ep.
  { apply (f_equal length) in Ep. rewrite !length_app in Ep. simpl in Ep. lia. }
  rewrite <- Ep. subst D. destruct abs; simpl; by rewrite <- !app_assoc.
Qed.

(** [path.join(dir, name)] is [dir + '/' + name] when [dir] is itself a join
    that ends with a name and [name] is an entry name. *)
Lemma path_join_child (a b : string) (t f : list ascii) :
  no_slash t = true -> (3 <= length t)%nat -> entry f ->
  chars (path_join (path_join a (b +:+ str t)) (str f))
  = chars (path_join a (b +:+ str t)) ++ slash :: f.
Proof.
  intros N L Ef.
  assert (Form : exists l, chars (path_join a (b +:+ str t)) = normalize_chars (l ++ t)).
  { unfold path_join. rewrite chars_str, chars_app, chars_str.
    destruct (chars a) as [|ca la] eqn:Ea.
    - exists (chars b). destruct (chars b ++ t) eqn:Eb; [|done].
      apply (f_equal length) in Eb. rewrite length_app in Eb. simpl in Eb. lia.
    - exists ((ca :: la) ++ slash :: chars b).
      destruct (chars b ++ t) eqn:Eb.
      + apply (f_equal length) in Eb. rewrite length_app in Eb. simpl in Eb. lia.
      + rewrite <- Eb. by rewrite <- app_assoc. }
  destruct Form as (l & El).
  unfold path_join at 1. rewrite El, !chars_str.
  destruct (normalize_chars_form l) as (abs & acc & w & _ & _ & _ & E).
  destruct (normalize_chars (l ++ t)) as [|d0 dl] eqn:Ed.
  { rewrite (E t N L) in Ed. apply (f_equal length) in Ed.
    rewrite !length_app in Ed. simpl in Ed. lia. }
  destruct f as [|f0 fl] eqn:Ef0; [by destruct Ef as (? & _)|].
  rewrite <- Ed, <- Ef0. subst f. by apply normalize_chars_child.
Qed.

Lemma saves_child `{Platform} (game : string) (f : list ascii) :
  entry f ->
  chars (path_join (getSavesDir game) (str f))
  = chars (getSavesDir game) ++ slash :: f.
Proof.
  intros Ef.
  exact (path_join_child (getGameDir game) "" (chars "saves") f eq_refl
           ltac:(simpl; lia) Ef).
Qed.

Lemma entry_name_child (dir p : string) (f : list ascii) :
  entry f -> chars p = chars dir ++ slash :: f -> entry_name dir p = Some (str f).
Proof.
  intros (N0 & _ & _ & Ns) E. unfold entry_name. cbv zeta. rewrite E.
  replace (chars dir ++ slash :: f) with ((chars dir ++ [slash]) ++ f)
    by (by rewrite <- app_assoc).
  rewrite take_app_length, bool_decide_true by done.
  rewrite drop_app_length, bool_decide_false by done.
  assert (Ex : existsb (fun c => code c =? CHAR_FORWARD_SLASH) f = false).
  { clear -Ns. induction f as [|c f IH]; [done|]. simpl in *.
    apply andb_true_iff in Ns as [Nc Ns]. apply negb_true_iff in Nc.
    by rewrite Nc, IH. }
  by rewrite Ex.
Qed.

Lemma ends_with_app (a x : string) : ends_with x (a +:+ x) = true.
Proof.
  unfold ends_with. cbv zeta. rewrite chars_app, length_app.
  replace (length (chars a) + length (chars x) - length (chars x))%nat
    with (length (chars a)) by lia.
  rewrite drop_app_length, bool_decide_true by done.
  rewrite bool_decide_true by lia. done.
Qed.

(** The file name of a snapshot's metadata is an entry name when the id
    holds no separator. *)
Lemma meta_entry (stateId : string) :
  no_slash (chars stateId) = true -> entry (chars (stateId +:+ ".meta.json")).
Proof.
  intros N. rewrite chars_app. apply entry_long.
  - unfold no_slash in *. by rewrite forallb_app, N.
  - rewrite length_app. simpl. lia.
Qed.

Lemma state_entry (stateId : string) :
  no_slash (chars stateId) = true -> entry (chars (stateId +:+ ".state.json")).
Proof.
  intros N. rewrite chars_app. apply entry_long.
  - unfold no_slash in *. by rewrite forallb_app, N.
  - rewrite length_app. simpl. lia.
Qed.

Lemma saves_child_ne `{Platform} (game f : string) :
  entry (chars f) -> getSavesDir game <> path_join (getSavesDir game) f.
Proof.
  intros Ef Eq. apply (f_equal chars) in Eq.
  rewrite <- (str_chars f) in Eq at 1. rewrite (saves_child game _ Ef) in Eq.
  apply (f_equal length) in Eq. rewrite length_app in Eq. simpl in Eq. lia.
Qed.

(** [readdirSync] of the saves directory names a file written into it. *)
Lemma saves_entry `{Platform} (game f : string) :
  entry (chars f) ->
  entry_name (getSavesDir game) (path_join (getSavesDir game) f) = Some f.
Proof.
  intros Ef. pose proof (saves_child game (chars f) Ef) as E.
  rewrite str_chars in E.
  pose proof (entry_name_child _ _ _ Ef E) as En. by rewrite str_chars in En.
Qed.

Opaque path_join sanitizeGameName extname.

Section Further.
Context `{Platform}.

(** ** Timing of the stream *)

(** X3: for a positive [STREAM_FPS] the number [n] of ticks run per timer
    firing is the least one with [n * STREAM_FPS >= 60], so [STREAM_FPS]
    firings a second never emulate less than the native 60 ticks and
    overshoot by less than [STREAM_FPS]; the delay between firings is the
    largest whole number of milliseconds with
    [delay * STREAM_FPS <= 1000]. *)
Theorem stream_rate_bounds (n : nat) :
  0 < STREAM_FPS ->
  GameBoyEmulator.framesToAdvance = Some n ->
  60 <= Z.of_nat n * STREAM_FPS < 60 + STREAM_FPS
  /\ GameBoyEmulator.frameInterval * STREAM_FPS <= 1000
     < (GameBoyEmulator.frameInterval + 1) * STREAM_FPS.
Proof.
  intros P F. unfold GameBoyEmulator.framesToAdvance in F.
  destruct (STREAM_FPS =? 0); [done|]. injection F as <-.
  unfold GameBoyEmulator.frameInterval.
  assert (Nz : STREAM_FPS <> 0) by lia.
  pose proof (Z.div_mod (-60) STREAM_FPS Nz) as D1.
  pose proof (Z.mod_pos_bound (-60) STREAM_FPS P) as B1.
  pose proof (Z.div_mod 1000 STREAM_FPS Nz) as D2.
  pose proof (Z.mod_pos_bound 1000 STREAM_FPS P) as B2.
  assert (-60 / STREAM_FPS < 0) by (apply Z.div_lt_upper_bound; lia).
  rewrite Z2Nat.id by lia.
  set (q1 := -60 / STREAM_FPS) in *. set (q2 := 1000 / STREAM_FPS) in *.
  set (r1 := -60 mod STREAM_FPS) in *. set (r2 := 1000 mod STREAM_FPS) in *.
  lia.
Qed.

(** ** Waiting and the tools *)

Lemma doFrame_loaded s :
  romLoaded (emulator s) = true ->
  GameBoyEmulator.doFrame s = Ok (set_emulator (run_frames 1 (emulator s)) s) tt.
Proof.
  intros L. unfold GameBoyEmulator.doFrame.
  erewrite bind_Ok by reflexivity. rewrite L. apply gameboy_doFrame_run.
Qed.

Lemma repeat_guarded_doFrame n s :
  romLoaded (emulator s) = true ->
  GameBoyEmulator.repeat_M n GameBoyEmulator.doFrame s
  = Ok (set_emulator (run_frames n (emulator s)) s) tt.
Proof.
  revert s. induction n as [|n IH]; intros s L.
  - simpl. unfold ret. by rewrite run_frames_0, set_emulator_id.
  - simpl GameBoyEmulator.repeat_M.
    erewrite bind_Ok by (by apply doFrame_loaded).
    rewrite IH by exact L. unfold set_emulator. state_simpl.
    by rewrite run_frames_S.
Qed.

Lemma waitFrames_loaded n s :
  romLoaded (emulator s) = true ->
  waitFrames n s
  = Ok (set_emulator (redrawn (run_frames (Z.to_nat n) (emulator s))) s)
       (ImageContent
          (base64 (current_frame (run_frames (Z.to_nat n) (emulator s))))
          "image/png").
Proof.
  intros L. unfold waitFrames. erewrite bind_Ok by reflexivity.
  simpl. rewrite L. simpl.
  erewrite bind_Ok by (by apply repeat_guarded_doFrame).
  by rewrite getScreen_loaded by exact L.
Qed.

(** X4: [waitFrames(n)] on a loaded session runs exactly [n] ticks with
    no key pressed (none at all for [n <= 0], when the frame returned is
    that of the untouched core) and returns the frame the core then shows;
    on an unloaded session it raises [No ROM loaded] and changes nothing. *)
Theorem waitFrames_advances (n : Z) (s : state) :
  (romLoaded (emulator s) = true ->
   exists s',
     waitFrames n s
     = Ok s' (ImageContent (base64 (current_frame (emulator s'))) "image/png")
     /\ frames (emulator s') = (frames (emulator s) + Z.to_nat n)%nat
     /\ gameboy (emulator s') = Nat.iter (Z.to_nat n) gb_doFrame (gameboy (emulator s))
     /\ (n <= 0 -> gameboy (emulator s') = gameboy (emulator s)))
  /\ (romLoaded (emulator s) = false ->
      waitFrames n s = Throw s (Error "No ROM loaded")).
Proof.
  split; intros L.
  - rewrite waitFrames_loaded by exact L.
    exists (set_emulator (redrawn (run_frames (Z.to_nat n) (emulator s))) s).
    split; [reflexivity|]. state_simpl. unfold redrawn. simpl.
    split; [lia|]. split; [done|].
    intros Hn. by replace (Z.to_nat n) with 0%nat by lia.
  - unfold waitFrames. erewrite bind_Ok by reflexivity. simpl. by rewrite L.
Qed.

Lemma pressButton_loaded button d s :
  romLoaded (emulator s) = true ->
  pressButton button d s
  = Ok (set_emulator
          (redrawn (run_frames 1
             (hold_frames (KEYMAP button) (Z.to_nat d) (emulator s)))) s)
       (ImageContent
          (base64 (current_frame
             (run_frames 1 (hold_frames (KEYMAP button) (Z.to_nat d) (emulator s)))))
          "image/png").
Proof.
  intros L. unfold pressButton.
  erewrite bind_Ok by reflexivity. simpl. rewrite L. simpl.
  unfold GameBoyEmulator.pressButton. simpl.
  erewrite bind_Ok; cycle 1.
  { erewrite bind_Ok by reflexivity. simpl. rewrite L. simpl.
    erewrite bind_Ok by apply repeat_hold.
    apply gameboy_doFrame_run. }
  by rewrite getScreen_loaded by exact L.
Qed.

(** X5: on a loaded session the tools [press_*] and [wait_frames] answer
    without error with the frame of the session they leave and a line of
    text; a press with no duration given holds the button for 25 ticks
    (26 ticks in all), a wait with no count given runs 100 ticks. *)
Theorem tools_on_loaded (s : state) :
  romLoaded (emulator s) = true ->
  (forall button d,
     exists s',
       call_tool (press button d) s
       = Ok s' (mkResponse
                  [ImageContent (base64 (current_frame (emulator s'))) "image/png";
                   TextContent ("Pressed " +:+ button_name button +:+ " for "
                                +:+ pretty (default 25 d) +:+ " frames.")]
                  false)
       /\ frames (emulator s')
          = (frames (emulator s) + (Z.to_nat (default 25%Z d) + 1))%nat)
  /\ (forall f,
        exists s',
          call_tool (wait_frames f) s
          = Ok s' (mkResponse
                     [ImageContent (base64 (current_frame (emulator s'))) "image/png";
                      TextContent ("Waited " +:+ pretty (default 100 f) +:+ " frames.")]
                     false)
          /\ frames (emulator s')
             = (frames (emulator s) + Z.to_nat (default 100%Z f))%nat).
Proof.
  intros L. split.
  - intros button d. unfold call_tool, try_catch, call_tool_body.
    erewrite bind_Ok by (by apply pressButton_loaded).
    erewrite bind_Ok by (by apply getScreen_loaded).
    eexists. split; [reflexivity|]. state_simpl. unfold redrawn. simpl. lia.
  - intros f. unfold call_tool, try_catch, call_tool_body.
    erewrite bind_Ok by (by apply waitFrames_loaded).
    erewrite bind_Ok by (by apply getScreen_loaded).
    eexists. split; [reflexivity|]. state_simpl. unfold redrawn. simpl. lia.
Qed.

Lemma pressButton_unloaded button d s :
  romLoaded (emulator s) = false ->
  pressButton button d s = Throw s (Error "No ROM loaded").
Proof.
  intros L. unfold pressButton. erewrite bind_Ok by reflexivity.
  simpl. by rewrite L.
Qed.

Lemma waitFrames_unloaded n s :
  romLoaded (emulator s) = false ->
  waitFrames n s = Throw s (Error "No ROM loaded").
Proof.
  intros L. unfold waitFrames. erewrite bind_Ok by reflexivity.
  simpl. by rewrite L.
Qed.

(** X6: on an unloaded session the tools [press_*], [wait_frames] and
    [get_screen] answer with the error [No ROM loaded]; no exception leaves
    the handler and nothing at all changes. *)
Theorem tools_need_rom (s : state) :
  romLoaded (emulator s) = false ->
  (forall button d,
     call_tool (press button d) s = Ok s (error_response "Error: No ROM loaded"))
  /\ (forall f,
        call_tool (wait_frames f) s = Ok s (error_response "Error: No ROM loaded"))
  /\ call_tool get_screen s = Ok s (error_response "Error: No ROM loaded").
Proof.
  intros L. split; [|split].
  - intros button d. unfold call_tool, try_catch, call_tool_body.
    by erewrite bind_Throw by (by apply pressButton_unloaded).
  - intros f. unfold call_tool, try_catch, call_tool_body.
    by erewrite bind_Throw by (by apply waitFrames_unloaded).
  - unfold call_tool, try_catch, call_tool_body.
    erewrite bind_Ok by reflexivity. simpl. by rewrite L.
Qed.

(** ** Starting, stopping and subscribing *)

(** The emulator once [stopStream] has run. *)
Lemma stopStream_run s :
  GameBoyEmulator.stopStream s
  = Ok (set_emulator
          (GameBoyEmulator.set_clients []
             (GameBoyEmulator.set_streamActive false (emulator s))) s) tt.
Proof. reflexivity. Qed.

Lemma tick_inactive s :
  streamActive (emulator s) = false -> GameBoyEmulator.tick s = Ok s tt.
Proof.
  intros A. unfold GameBoyEmulator.tick.
  erewrite bind_Ok by reflexivity. by rewrite A.
Qed.

(** X7: [stopStream] marks the stream inactive and drops every client
    without touching the core, the tick counter, the disk or the pending
    timeouts; a timeout that fires afterwards finds the stream inactive,
    runs no tick, delivers nothing and schedules nothing. *)
Theorem stopStream_halts (s : state) :
  exists s1,
    GameBoyEmulator.stopStream s = Ok s1 tt
    /\ streamActive (emulator s1) = false
    /\ streamClients (emulator s1) = []
    /\ gameboy (emulator s1) = gameboy (emulator s)
    /\ frames (emulator s1) = frames (emulator s)
    /\ romLoaded (emulator s1) = romLoaded (emulator s)
    /\ fs s1 = fs s
    /\ timers s1 = timers s
    /\ GameBoyEmulator.tick s1 = Ok s1 tt.
Proof.
  eexists. split; [apply stopStream_run|].
  do 7 (split; [reflexivity|]). by apply tick_inactive.
Qed.

Lemma startStream_active s :
  streamActive (emulator s) = true -> GameBoyEmulator.startStream s = Ok s tt.
Proof.
  intros A. unfold GameBoyEmulator.startStream.
  erewrite bind_Ok by reflexivity. by rewrite A.
Qed.

(** [startStream] on a stream that is not active: the flag is set and
    [runStreamLoop] runs. *)
Lemma startStream_inactive s :
  streamActive (emulator s) = false ->
  GameBoyEmulator.startStream s
  = GameBoyEmulator.runStreamLoop
      (set_emulator (GameBoyEmulator.set_streamActive true (emulator s)) s).
Proof.
  intros A. unfold GameBoyEmulator.startStream.
  erewrite bind_Ok by reflexivity. rewrite A.
  by erewrite bind_Ok by reflexivity.
Qed.

Lemma runStreamLoop_live s :
  streamActive (emulator s) = true -> romLoaded (emulator s) = true ->
  GameBoyEmulator.runStreamLoop s = GameBoyEmulator.tick s.
Proof.
  intros A L. unfold GameBoyEmulator.runStreamLoop.
  erewrite bind_Ok by reflexivity. by rewrite A, L.
Qed.

Lemma runStreamLoop_unloaded s :
  romLoaded (emulator s) = false ->
  GameBoyEmulator.runStreamLoop s = Ok s tt.
Proof.
  intros L. unfold GameBoyEmulator.runStreamLoop.
  erewrite bind_Ok by reflexivity. rewrite L. by rewrite orb_true_r.
Qed.

(** A tick that returns leaves the stream flag as it found it. *)
Lemma tick_keeps_active s s' :
  GameBoyEmulator.tick s = Ok s' tt ->
  streamActive (emulator s') = streamActive (emulator s).
Proof.
  intros E.
  destruct (streamActive (emulator s)) eqn:A;
    [|rewrite (tick_inactive s A) in E; injection E as <-; exact A].
  destruct (romLoaded (emulator s)) eqn:L.
  - destruct GameBoyEmulator.framesToAdvance as [n|] eqn:F.
    + destruct (tick_run s n A L F) as (s2 & E2 & _ & _ & _ & _ & A2 & _).
      rewrite E2 in E. by injection E as <-.
    + unfold GameBoyEmulator.tick in E.
      erewrite bind_Ok in E by reflexivity. by rewrite A, L, F in E.
  - unfold GameBoyEmulator.tick in E.
    erewrite bind_Ok in E by reflexivity. rewrite A, L in E.
    injection E as <-. exact A.
Qed.

(** X8: a [startStream] that returns leaves the stream active, and a
    second [startStream] then changes nothing: no second loop is started.
    The first call on an inactive stream with a ROM loaded runs its first
    tick at once and schedules the next one. *)
Theorem startStream_idempotent (s s1 : state) :
  GameBoyEmulator.startStream s = Ok s1 tt ->
  streamActive (emulator s1) = true
  /\ GameBoyEmulator.startStream s1 = Ok s1 tt
  /\ (streamActive (emulator s) = true -> s1 = s)
  /\ (forall n,
        streamActive (emulator s) = false -> romLoaded (emulator s) = true ->
        GameBoyEmulator.framesToAdvance = Some n ->
        frames (emulator s1) = (n + frames (emulator s))%nat
        /\ timers s1 = timers s ++ [GameBoyEmulator.frameInterval]).
Proof.
  intros E.
  assert (A1 : streamActive (emulator s1) = true).
  { destruct (streamActive (emulator s)) eqn:A.
    - rewrite (startStream_active s A) in E. by injection E as <-.
    - rewrite (startStream_inactive s A) in E.
      destruct (romLoaded (emulator s)) eqn:L.
      + rewrite runStreamLoop_live in E by done.
        by rewrite (tick_keeps_active _ _ E).
      + rewrite runStreamLoop_unloaded in E by done. by injection E as <-. }
  split; [exact A1|]. split; [by apply startStream_active|]. split.
  - intros A. rewrite (startStream_active s A) in E. by injection E.
  - intros n A L F. rewrite (startStream_inactive s A) in E.
    rewrite runStreamLoop_live in E by done.
    destruct (tick_run
                (set_emulator (GameBoyEmulator.set_streamActive true (emulator s)) s)
                n eq_refl L F) as (s2 & E2 & T & _ & _ & Fr & _).
    rewrite E2 in E. injection E as <-. by rewrite Fr, T.
Qed.

(** X9: without a ROM loaded [startStream] sets the stream flag and
    nothing more: no tick, no timeout.  The flag then makes every later
    [startStream] return at once, also after a ROM has been loaded, so
    no tick is ever scheduled until [stopStream] has reset the flag. *)
Theorem startStream_before_load (s : state) :
  streamActive (emulator s) = false ->
  romLoaded (emulator s) = false ->
  exists s1,
    GameBoyEmulator.startStream s = Ok s1 tt
    /\ streamActive (emulator s1) = true
    /\ timers s1 = timers s
    /\ frames (emulator s1) = frames (emulator s)
    /\ forall s2,
         streamActive (emulator s2) = true ->
         GameBoyEmulator.startStream s2 = Ok s2 tt.
Proof.
  intros A L. rewrite (startStream_inactive s A).
  rewrite runStreamLoop_unloaded by exact L.
  eexists. split; [reflexivity|]. repeat split.
  intros s2 A2. by apply startStream_active.
Qed.

(** X10: [stopStream] does not cancel the pending timeout.  Start, stop
    and start again before it has fired, on a loaded session: two timeouts
    are pending and the stream is active, so both will tick and each will
    schedule its successor. *)
Theorem restart_leaves_two_timeouts (s : state) (n : nat) :
  streamActive (emulator s) = false ->
  romLoaded (emulator s) = true ->
  GameBoyEmulator.framesToAdvance = Some n ->
  exists s3,
    (do* GameBoyEmulator.startStream in
     do* GameBoyEmulator.stopStream in
     GameBoyEmulator.startStream) s = Ok s3 tt
    /\ streamActive (emulator s3) = true
    /\ timers s3
       = timers s ++ [GameBoyEmulator.frameInterval; GameBoyEmulator.frameInterval]
    /\ frames (emulator s3) = (n + n + frames (emulator s))%nat.
Proof.
  intros A L F.
  set (sA := set_emulator (GameBoyEmulator.set_streamActive true (emulator s)) s).
  destruct (tick_run sA n eq_refl L F)
    as (s1 & E1 & T1 & _ & _ & Fr1 & _ & L1 & _).
  assert (S1 : GameBoyEmulator.startStream s = Ok s1 tt).
  { rewrite (startStream_inactive s A). by rewrite runStreamLoop_live. }
  erewrite bind_Ok by exact S1.
  erewrite bind_Ok by apply stopStream_run.
  set (sB := set_emulator
               (GameBoyEmulator.set_clients []
                  (GameBoyEmulator.set_streamActive false (emulator s1))) s1).
  rewrite (startStream_inactive sB eq_refl).
  set (sC := set_emulator (GameBoyEmulator.set_streamActive true (emulator sB)) sB).
  rewrite (runStreamLoop_live sC eq_refl L1).
  destruct (tick_run sC n eq_refl L1 F) as (s3 & E3 & T3 & _ & _ & Fr3 & A3 & _).
  exists s3. split; [exact E3|]. split; [exact A3|]. split.
  - rewrite T3. change (timers sC) with (timers s1). rewrite T1.
    change (timers sA) with (timers s). by rewrite <- app_assoc.
  - rewrite Fr3. change (frames (emulator sC)) with (frames (emulator s1)).
    rewrite Fr1. change (frames (emulator sA)) with (frames (emulator s)). lia.
Qed.

Lemma delete_client_run c s :
  GameBoyEmulator.unsubscribe c s
  = Ok (set_emulator
          (GameBoyEmulator.set_clients
             (filter (fun c' => cid c' <> cid c) (streamClients (emulator s)))
             (emulator s)) s) tt.
Proof. reflexivity. Qed.

Lemma filter_other_ids (c : client) (cs : list client) :
  cid c ∉ cid <$> cs -> filter (fun c' => cid c' <> cid c) cs = cs.
Proof.
  induction cs as [|a cs IH]; intros N; [done|].
  rewrite fmap_cons, not_elem_of_cons in N. destruct N as [Na N].
  rewrite filter_cons_True by congruence. by rewrite IH.
Qed.

(** X11: the function returned by [addStreamClient] removes that client
    and no other.  On a live stream the next tick then calls every
    remaining client once with the frame, and does not call the removed
    one. *)
Theorem unsubscribe_removes_only (c : client) (s : state) (n : nat) :
  streamActive (emulator s) = true ->
  romLoaded (emulator s) = true ->
  GameBoyEmulator.framesToAdvance = Some n ->
  NoDup (cid <$> streamClients (emulator s)) ->
  exists s1 s2,
    GameBoyEmulator.unsubscribe c s = Ok s1 tt
    /\ streamClients (emulator s1)
       = filter (fun c' => cid c' <> cid c) (streamClients (emulator s))
    /\ (forall c', c' ∈ streamClients (emulator s1)
          <-> c' ∈ streamClients (emulator s) /\ cid c' <> cid c)
    /\ GameBoyEmulator.tick s1 = Ok s2 tt
    /\ deliveries s2
       = deliveries s
         ++ (delivery_of (current_frame (run_frames n (emulator s)))
               <$> filter (fun c' => cid c' <> cid c) (streamClients (emulator s)))
    /\ (forall d, d ∈ deliveries s2 -> d ∉ deliveries s -> d_client d <> cid c).
Proof.
  intros A L F N.
  set (s1 := set_emulator
               (GameBoyEmulator.set_clients
                  (filter (fun c' => cid c' <> cid c) (streamClients (emulator s)))
                  (emulator s)) s).
  destruct (tick_run s1 n A L F) as (s2 & E2 & _ & _ & _ & _ & _ & _ & D & _).
  exists s1, s2. split; [apply delete_client_run|]. split; [done|].
  split.
  { intros c'. subst s1. state_simpl. simpl.
    rewrite list_elem_of_filter. tauto. }
  split; [exact E2|]. split; [exact D|].
  intros d Hd Hn. rewrite D in Hd. apply elem_of_app in Hd as [Hd|Hd]; [done|].
  apply list_elem_of_fmap in Hd as (c' & -> & Hc').
  subst s1. state_simpl. simpl in Hc'.
  apply list_elem_of_filter in Hc' as [Hc' _]. exact Hc'.
Qed.

(** X12: subscribing a callback that is not registered yet and then
    calling the function [addStreamClient] returned puts the whole state
    back as it was. *)
Theorem subscribe_unsubscribe (c : client) (s : state) :
  cid c ∉ cid <$> streamClients (emulator s) ->
  (do* GameBoyEmulator.addStreamClient c in GameBoyEmulator.unsubscribe c) s
  = Ok s tt
  /\ exists s1,
       GameBoyEmulator.addStreamClient c s = Ok s1 tt
       /\ streamClients (emulator s1) = streamClients (emulator s) ++ [c].
Proof.
  intros N.
  assert (E1 : GameBoyEmulator.addStreamClient c s
               = Ok (set_emulator
                       (GameBoyEmulator.set_clients (streamClients (emulator s) ++ [c])
                          (emulator s)) s) tt).
  { unfold GameBoyEmulator.addStreamClient, update_this, modify.
    by rewrite bool_decide_false by exact N. }
  split; [|eexists; split; [exact E1|done]].
  erewrite bind_Ok by exact E1. rewrite delete_client_run.
  f_equal. unfold set_emulator, GameBoyEmulator.set_clients. state_simpl.
  rewrite filter_app, filter_other_ids by exact N.
  rewrite filter_cons_False by (intros X; by apply X).
  rewrite filter_nil, app_nil_r.
  destruct s as [e ? ? ? ? ? ? ?]. by destruct e.
Qed.

(** ** Snapshots *)

(** [deleteState] for a game to look in, when neither artifact path is a
    directory. *)
Lemma deleteState_run stateId name game s :
  target_game name s = Some game -> truthy game = true ->
  is_dir (stateFile_of game stateId) s = false ->
  is_dir (metadataFile_of game stateId) s = false ->
  GameBoyEmulator.deleteState stateId name s
  = Ok (set_fs (delete (metadataFile_of game stateId)
                  (delete (stateFile_of game stateId) (fs s))) s)
       (present (stateFile_of game stateId) s
        || present (metadataFile_of game stateId) s).
Proof.
  unfold target_game. intros T G Ds0 Dm0. unfold GameBoyEmulator.deleteState.
  erewrite bind_Ok by reflexivity. rewrite T.
  cbn [truthy_opt from_option id]. rewrite G. cbn [negb].
  change (path_join (getSavesDir game) (stateId +:+ ".state.json"))
    with (stateFile_of game stateId).
  change (path_join (getSavesDir game) (stateId +:+ ".meta.json"))
    with (metadataFile_of game stateId).
  set (sf := stateFile_of game stateId) in *.
  set (mf := metadataFile_of game stateId) in *.
  erewrite bind_Ok by reflexivity. fold (present sf s).
  destruct (not_dir_cases _ _ Ds0) as [Es|(ts & ds & Es)].
  - rewrite (proj2 (present_false sf s) Es).
    erewrite bind_Ok by reflexivity.
    erewrite bind_Ok by reflexivity. fold (present mf s).
    rewrite (delete_id (fs s) sf Es).
    destruct (not_dir_cases _ _ Dm0) as [Em|(tm & dm & Em)].
    + rewrite (proj2 (present_false mf s) Em).
      erewrite bind_Ok by reflexivity.
      rewrite (delete_id (fs s) mf Em).
      unfold ret. f_equal. by destruct s.
    + rewrite (proj2 (present_true mf s)) by eauto.
      erewrite bind_Ok; cycle 1.
      { erewrite bind_Ok by (eapply unlinkSync_file; exact Em). reflexivity. }
      reflexivity.
  - rewrite (proj2 (present_true sf s)) by eauto.
    erewrite bind_Ok; cycle 1.
    { erewrite bind_Ok by (eapply unlinkSync_file; exact Es). reflexivity. }
    erewrite bind_Ok by reflexivity.
    unfold set_fs at 1 2. state_simpl.
    destruct (delete sf (fs s) !! mf) as [n|] eqn:Em.
    + rewrite bool_decide_true by eauto.
      assert (Em' : fs s !! mf = Some n).
      { apply lookup_delete_Some in Em. tauto. }
      destruct n as [tm dm|tm].
      * erewrite bind_Ok; cycle 1.
        { erewrite bind_Ok; [reflexivity|].
          unfold unlinkSync. state_simpl. rewrite Em. reflexivity. }
        reflexivity.
      * unfold is_dir in Dm0. by rewrite Em' in Dm0.
    + rewrite bool_decide_false by (intros [? ?]; done).
      erewrite bind_Ok by reflexivity.
      rewrite (delete_id _ mf Em). reflexivity.
Qed.

(** Everything a successful [saveState] does. *)
Lemma saveState_effect name s s1 md :
  GameBoyEmulator.saveState name s = Ok s1 md ->
  exists game,
    romLoaded (emulator s) = true
    /\ gameName (emulator s) = Some game
    /\ truthy game = true
    /\ md = mkSaveStateMetadata (entropy s (drawn s))
              (if truthy_opt name then default "" name
               else "save-" +:+ entropy s (drawn s))
              game (toISOString (now s)) (base64 (current_frame (emulator s)))
    /\ s1 = mkState (redrawn (emulator s))
              (<[metadataFile_of game (ss_id md) :=
                   File (now s) (Json (metadata_json md))]>
                 (<[stateFile_of game (ss_id md) :=
                      File (now s) (Json (gb_saveState (gameboy (emulator s))))]>
                    (fs (ensured (getSavesDir game) s))))
              (now s) (entropy s) (S (drawn s)) (deliveries s) (timers s) (copies s).
Proof.
  unfold GameBoyEmulator.saveState. erewrite bind_Ok by reflexivity.
  destruct (romLoaded (emulator s)) eqn:L;
    [|cbn [negb orb]; unfold throw; done].
  destruct (gameName (emulator s)) as [game|] eqn:G;
    [|cbn [negb orb truthy_opt]; unfold throw; done].
  cbn [truthy_opt]. destruct (truthy game) eqn:T;
    [|cbn [negb orb]; unfold throw; done].
  cbn [negb orb from_option id].
  erewrite bind_Ok by apply ensureDir_run.
  erewrite bind_Ok by reflexivity.
  erewrite bind_Ok by reflexivity.
  erewrite bind_Ok; cycle 1.
  { apply getScreenAsBase64_loaded. state_simpl.
    unfold ensured. destruct (present _ s); exact L. }
  state_simpl.
  assert (Ee : emulator (ensured (getSavesDir game) s) = emulator s)
    by apply ensured_emulator.
  assert (Ex : entropy (ensured (getSavesDir game) s) = entropy s)
    by (unfold ensured; by destruct (present _ s)).
  assert (Ed : drawn (ensured (getSavesDir game) s) = drawn s)
    by (unfold ensured; by destruct (present _ s)).
  assert (Edl : deliveries (ensured (getSavesDir game) s) = deliveries s)
    by (unfold ensured; by destruct (present _ s)).
  assert (Et : timers (ensured (getSavesDir game) s) = timers s)
    by (unfold ensured; by destruct (present _ s)).
  rewrite !Ee, !Ex, !Ed, !Edl, !Et, !ensured_now, !ensured_copies.
  set (id := entropy s (drawn s)).
  change (path_join (getSavesDir game) (id +:+ ".state.json"))
    with (stateFile_of game id).
  change (path_join (getSavesDir game) (id +:+ ".meta.json"))
    with (metadataFile_of game id).
  intros E. unfold bind at 1 in E.
  match type of E with
  | context [writeFileSync ?p ?d ?s0] =>
      destruct (writeFileSync p d s0) as [sa ?|sa ?|] eqn:W1; try done
  end.
  apply writeFileSync_inv in W1 as [_ ->].
  unfold bind at 1 in E.
  match type of E with
  | context [writeFileSync ?p ?d ?s0] =>
      destruct (writeFileSync p d s0) as [sb ?|sb ?|] eqn:W2; try done
  end.
  apply writeFileSync_inv in W2 as [_ ->].
  unfold ret in E. injection E as <- <-.
  exists game. do 4 (split; [done|]).
  unfold set_fs, set_emulator. state_simpl.
  by rewrite ?Ee, ?Ex, ?Ed, ?Edl, ?Et, ?ensured_now, ?ensured_copies.
Qed.

(** X13: a successful [saveState] leaves the session where it was: the
    core, the tick counter, the stream and its clients are untouched (only
    the canvas is redrawn).  On disk it writes the exported core state and
    the returned metadata into the state file and the metadata file of the
    id it drew, and the saves directory is there afterwards.  Nothing that
    was on the disk is removed; apart from the two files no regular file
    appears, changes or disappears, and every directory is still a
    directory.  When the saves directory was there already, the two files
    are the only paths added. *)
Theorem saveState_footprint (name : option string) (s s1 : state)
    (md : SaveStateMetadata) :
  GameBoyEmulator.saveState name s = Ok s1 md ->
  exists game,
    gameName (emulator s) = Some game
    /\ ss_id md = entropy s (drawn s)
    /\ ss_gameName md = game
    /\ ss_name md = (if truthy_opt name then default "" name
                     else "save-" +:+ ss_id md)
    /\ gameboy (emulator s1) = gameboy (emulator s)
    /\ frames (emulator s1) = frames (emulator s)
    /\ streamActive (emulator s1) = streamActive (emulator s)
    /\ streamClients (emulator s1) = streamClients (emulator s)
    /\ fs s1 !! stateFile_of game (ss_id md)
       = Some (File (now s) (Json (gb_saveState (gameboy (emulator s)))))
    /\ fs s1 !! metadataFile_of game (ss_id md)
       = Some (File (now s) (Json (metadata_json md)))
    /\ {[metadataFile_of game (ss_id md); stateFile_of game (ss_id md);
         getSavesDir game]} ∪ dom (fs s) ⊆ dom (fs s1)
    /\ (present (getSavesDir game) s = true ->
        dom (fs s1)
        = {[metadataFile_of game (ss_id md); stateFile_of game (ss_id md)]}
          ∪ dom (fs s))
    /\ (forall p t d,
          p <> metadataFile_of game (ss_id md) ->
          p <> stateFile_of game (ss_id md) ->
          fs s1 !! p = Some (File t d) <-> fs s !! p = Some (File t d))
    /\ (forall p,
          p <> metadataFile_of game (ss_id md) ->
          p <> stateFile_of game (ss_id md) ->
          is_dir p s = true -> is_dir p s1 = true).
Proof.
  intros E. destruct (saveState_effect _ _ _ _ E) as (game & L & G & T & -> & ->).
  exists game. cbn [ss_id ss_gameName ss_name]. state_simpl.
  do 8 (split; [done|]).
  set (id := entropy s (drawn s)).
  set (md := mkSaveStateMetadata _ _ _ _ _).
  set (sf := stateFile_of game id). set (mf := metadataFile_of game id).
  assert (Ds : sf <> mf) by apply state_meta_distinct.
  split; [by rewrite lookup_insert_ne, lookup_insert_eq|].
  split; [by rewrite lookup_insert_eq|].
  split; [rewrite !dom_insert_L, ensured_dom; clear; set_solver|].
  split.
  { intros P. rewrite (ensured_present _ _ P), !dom_insert_L. clear. set_solver. }
  split.
  - intros p t d N1 N2. rewrite !lookup_insert_ne by done. apply ensured_file.
  - intros p N1 N2 D. unfold is_dir in *. state_simpl.
    rewrite !lookup_insert_ne by done.
    rewrite ensured_lookup; [done|]. destruct (fs s !! p); [eauto|done].
Qed.

(** X14: a successful [saveState] followed by [deleteState] of the id it
    returned: the delete returns [true] and removes both artifacts, and a
    [loadState] of that id then fails with [Save state not found]. *)
Theorem save_delete_load (name : option string) (s s1 : state)
    (md : SaveStateMetadata) :
  GameBoyEmulator.saveState name s = Ok s1 md ->
  exists s2,
    GameBoyEmulator.deleteState (ss_id md) None s1 = Ok s2 true
    /\ (forall game, gameName (emulator s) = Some game ->
          fs s2 !! stateFile_of game (ss_id md) = None
          /\ fs s2 !! metadataFile_of game (ss_id md) = None)
    /\ emulator s2 = emulator s1
    /\ GameBoyEmulator.loadState (ss_id md) s2
       = Throw s2 (Error ("Save state not found: " +:+ ss_id md)).
Proof.
  intros E. destruct (saveState_inv _ _ _ _ E)
    as (game & L & G & T & _ & _ & _ & Ee & Efs).
  set (sf := stateFile_of game (ss_id md)) in *.
  set (mf := metadataFile_of game (ss_id md)) in *.
  assert (Ds : sf <> mf) by apply state_meta_distinct.
  assert (Es : fs s1 !! sf
               = Some (File (now s) (Json (gb_saveState (gameboy (emulator s)))))).
  { rewrite Efs, lookup_insert_ne by done. apply lookup_insert_eq. }
  assert (Em : fs s1 !! mf = Some (File (now s) (Json (metadata_json md)))).
  { rewrite Efs. apply lookup_insert_eq. }
  assert (G1 : gameName (emulator s1) = Some game) by (by rewrite Ee).
  assert (L1 : romLoaded (emulator s1) = true) by (by rewrite Ee).
  assert (Tg : target_game None s1 = Some game).
  { unfold target_game, or_else. cbn [truthy_opt]. exact G1. }
  rewrite (deleteState_run (ss_id md) None game s1 Tg T);
    [|unfold is_dir; fold sf; by rewrite Es|unfold is_dir; fold mf; by rewrite Em].
  fold sf mf.
  rewrite (proj2 (present_true sf s1)) by (rewrite Es; eauto).
  eexists. split; [reflexivity|].
  assert (Ns : delete mf (delete sf (fs s1)) !! sf = None).
  { rewrite !lookup_delete. by repeat case_decide. }
  split.
  { intros game' G'. assert (game' = game) as -> by congruence.
    fold sf mf. state_simpl. split; [exact Ns|apply lookup_delete_eq]. }
  split; [done|].
  apply (loadState_missing _ _ game); [exact L1|exact G1|exact T|exact Ns].
Qed.

Lemma rev_state_ne_meta (a b : list ascii) :
  a ++ chars ".state.json" <> b ++ chars ".meta.json".
Proof.
  intros E. apply (f_equal (@rev ascii)) in E. rewrite !rev_app_distr in E.
  simpl in E. discriminate.
Qed.

(** Artifacts of two snapshots named by separator-free ids are the same
    file only when they are the same artifact of the same id. *)
Lemma artifacts_distinct (game id1 id2 : string) :
  no_slash (chars id1) = true -> no_slash (chars id2) = true -> id1 <> id2 ->
  stateFile_of game id1 <> stateFile_of game id2
  /\ metadataFile_of game id1 <> metadataFile_of game id2
  /\ stateFile_of game id1 <> metadataFile_of game id2
  /\ metadataFile_of game id1 <> stateFile_of game id2.
Proof.
  intros N1 N2 Ne.
  destruct (path_join_tail (getSavesDir game) "") as (pre & E).
  assert (Tail : forall id0 ext,
            no_slash (chars id0) = true -> no_slash (chars ext) = true ->
            (3 <= length (chars ext))%nat ->
            chars (path_join (getSavesDir game) (id0 +:+ ext))
            = pre ++ chars id0 ++ chars ext).
  { intros id0 ext Hi He Hl.
    specialize (E (chars id0 ++ chars ext)).
    rewrite <- chars_app, str_chars in E. simpl in E.
    rewrite chars_app in E. apply E.
    - unfold no_slash in *. by rewrite forallb_app, Hi, He.
    - rewrite length_app. lia. }
  unfold stateFile_of, metadataFile_of.
  repeat split; intros Eq; apply (f_equal chars) in Eq;
    rewrite !Tail in Eq by (done || (simpl; lia));
    apply app_inv_head in Eq.
  - apply app_inv_tail in Eq. by apply chars_inj in Eq.
  - apply app_inv_tail in Eq. by apply chars_inj in Eq.
  - by apply rev_state_ne_meta in Eq.
  - symmetry in Eq. by apply rev_state_ne_meta in Eq.
Qed.

(** X15: a save writes only the artifacts of the id it drew.  When that
    id and another id are free of path separators and differ, the state
    file and the metadata file already stored under the other id are left
    exactly as they were. *)
Theorem saveState_keeps_other_snapshots (name : option string) (s s1 : state)
    (md : SaveStateMetadata) (game other : string) :
  GameBoyEmulator.saveState name s = Ok s1 md ->
  gameName (emulator s) = Some game ->
  no_slash (chars (ss_id md)) = true ->
  no_slash (chars other) = true ->
  other <> ss_id md ->
  is_Some (fs s !! stateFile_of game other) ->
  is_Some (fs s !! metadataFile_of game other) ->
  fs s1 !! stateFile_of game other = fs s !! stateFile_of game other
  /\ fs s1 !! metadataFile_of game other = fs s !! metadataFile_of game other
  /\ readable (stateFile_of game other) s1 = readable (stateFile_of game other) s
  /\ readable (metadataFile_of game other) s1
     = readable (metadataFile_of game other) s.
Proof.
  intros E G N1 N2 Ne Ps Pm.
  destruct (saveState_inv _ _ _ _ E) as (game' & _ & G' & _ & _ & _ & _ & _ & Efs).
  assert (game' = game) as -> by congruence.
  destruct (artifacts_distinct game other (ss_id md) N2 N1 Ne) as (D1 & D2 & D3 & D4).
  assert (A : fs s1 !! stateFile_of game other = fs s !! stateFile_of game other).
  { rewrite Efs, !lookup_insert_ne by done. by apply ensured_lookup. }
  assert (B : fs s1 !! metadataFile_of game other
              = fs s !! metadataFile_of game other).
  { rewrite Efs, !lookup_insert_ne by done. by apply ensured_lookup. }
  unfold readable. by rewrite A, B.
Qed.

(** X16: without a ROM loaded, or with a loaded game whose name is the
    empty string, [saveState] and [loadState] raise [No ROM loaded] before
    they draw an id, read or write a file or touch the core. *)
Theorem snapshots_need_game (name : option string) (stateId : string) (s : state) :
  romLoaded (emulator s) = false \/ truthy_opt (gameName (emulator s)) = false ->
  GameBoyEmulator.saveState name s = Throw s (Error "No ROM loaded")
  /\ GameBoyEmulator.loadState stateId s = Throw s (Error "No ROM loaded").
Proof.
  intros C.
  assert (G : negb (romLoaded (emulator s))
              || negb (truthy_opt (gameName (emulator s))) = true).
  { destruct C as [-> | ->]; [done|]. by rewrite orb_true_r. }
  split.
  - unfold GameBoyEmulator.saveState. erewrite bind_Ok by reflexivity.
    by rewrite G.
  - unfold GameBoyEmulator.loadState. erewrite bind_Ok by reflexivity.
    by rewrite G.
Qed.

(** ** The title registry: installing and loading *)

Lemma sa_source src name s t d :
  fs s !! src = Some (File t d) ->
  fs (dirs_ensured name s) !! src = Some (File t d).
Proof.
  intros Es. unfold dirs_ensured.
  rewrite !ensured_lookup; rewrite ?ensured_lookup; rewrite ?Es; eauto.
Qed.

(** What a successful [installRom] of a regular file returns. *)
Lemma installRom_inv src custom s s1 g t d :
  fs s !! src = Some (File t d) ->
  GameBoyEmulator.installRom src custom s = Ok s1 g ->
  let name := install_name src custom in
  s1 = installed src custom s
  /\ g = mkInstalledGame name (destRomPath_of src name) (getSavesDir name)
           (toISOString (now s)).
Proof.
  intros Es E name. rewrite (installRom_run src custom s t d Es) in E.
  cbv zeta in E. fold name in E.
  destruct (_ && _); [done|]. destruct (is_dir _ _); [done|].
  injection E as <- <-. done.
Qed.

Lemma installed_lookup src custom s p :
  p <> metadataPath_of (install_name src custom) ->
  fs (installed src custom s) !! p
  = fs (copied src (destRomPath_of src (install_name src custom))
          (dirs_ensured (install_name src custom) s)) !! p.
Proof.
  intros Ne. unfold installed. cbv zeta. state_simpl.
  by rewrite lookup_insert_ne.
Qed.

(** When the copy is due, the installed ROM holds the bytes of the source. *)
Lemma installed_rom_copy src custom s t d :
  fs s !! src = Some (File t d) ->
  must_copy src (destRomPath_of src (install_name src custom))
    (dirs_ensured (install_name src custom) s) = true ->
  fs (installed src custom s) !! destRomPath_of src (install_name src custom)
  = Some (File (now s) d).
Proof.
  intros Es Mc. rewrite installed_lookup by apply dest_ne_metadata.
  unfold copied. rewrite Mc, (sa_source src _ s t d Es).
  unfold count_copy. state_simpl. rewrite lookup_insert_eq.
  unfold dirs_ensured. by rewrite !ensured_now.
Qed.

(** X17: what a successful [installRom] of a regular file leaves on the
    disk.  When the copy is due (no destination yet, or a strictly newer
    source) the installed ROM holds the bytes of the source, stamped with the
    current time; otherwise the destination is left as it was, whatever it
    holds.  [game.json] is rewritten on every install and records the source
    path and the current time.  The source itself is not changed (unless it
    is that very [game.json]) and the emulator is not touched. *)
Theorem installRom_effect (src : string) (custom : option string)
    (s s1 : state) (g : InstalledGame) (t : Z) (d : content) :
  fs s !! src = Some (File t d) ->
  GameBoyEmulator.installRom src custom s = Ok s1 g ->
  let name := install_name src custom in
  let sa := dirs_ensured name s in
  ig_romPath g = destRomPath_of src name
  /\ (must_copy src (ig_romPath g) sa = true ->
      fs s1 !! ig_romPath g = Some (File (now s) d))
  /\ (must_copy src (ig_romPath g) sa = false ->
      fs s1 !! ig_romPath g = fs sa !! ig_romPath g)
  /\ fs s1 !! metadataPath_of name
     = Some (File (now s) (Json (game_json name src (toISOString (now s)))))
  /\ (src <> metadataPath_of name -> fs s1 !! src = Some (File t d))
  /\ emulator s1 = emulator s.
Proof.
  intros Es E name sa.
  destruct (installRom_inv _ _ _ _ _ _ _ Es E) as [-> ->]. fold name.
  cbn [ig_romPath]. set (dest := destRomPath_of src name).
  pose proof (sa_source src name s t d Es) as Esa. fold sa in Esa.
  assert (Now : now sa = now s)
    by (subst sa; unfold dirs_ensured; by rewrite !ensured_now).
  split; [done|]. split; [|split; [|split; [|split]]].
  - intros Mc. by apply installed_rom_copy with t.
  - intros Mc. rewrite installed_lookup by apply dest_ne_metadata.
    fold name dest sa. unfold copied. by rewrite Mc.
  - unfold installed. cbv zeta. state_simpl. by rewrite lookup_insert_eq.
  - intros Ne. rewrite installed_lookup by exact Ne. fold name dest sa.
    destruct (decide (src = dest)) as [Eq|Nd].
    + unfold copied, must_copy, mtime_of. rewrite <- Eq.
      rewrite (proj2 (present_true src sa)) by (rewrite Esa; eauto).
      rewrite Esa. cbn [negb orb node_mtime].
      by rewrite Z.gtb_ltb, Z.ltb_irrefl.
    + by rewrite copied_lookup_other.
  - unfold installed. cbv zeta. state_simpl. fold name dest sa.
    unfold copied. destruct (must_copy _ _ _); rewrite ?Esa;
      unfold count_copy; state_simpl; subst sa; unfold dirs_ensured;
      by rewrite !ensured_emulator.
Qed.

(** [loadRom] once the ROM file has been found. *)
Lemma loadRom_found x s :
  GameBoyEmulator.loadRom x s
  = let gb := path_join (getGameDir x) "rom.gb" in
    let gbc := path_join (getGameDir x) "rom.gbc" in
    (let* found :=
       (if present gb s then ret (gb, x)
        else if present gbc s then ret (gbc, x)
        else if present x s then
          let* installed := GameBoyEmulator.installRom x None in
          ret (ig_romPath installed, ig_name installed)
        else throw (Error ("ROM not found: " +:+ x))) in
     let* rom := readFileSync found.1 in
     update_this (loaded_with rom found.1 found.2)) s.
Proof.
  unfold GameBoyEmulator.loadRom, present. cbv zeta.
  unfold bind, existsSync, ret.
  destruct (bool_decide (is_Some (fs s !! path_join (getGameDir x) "rom.gb")));
    [reflexivity|].
  destruct (bool_decide (is_Some (fs s !! path_join (getGameDir x) "rom.gbc")));
    [reflexivity|].
  destruct (bool_decide (is_Some (fs s !! x))); [|reflexivity].
  destruct (GameBoyEmulator.installRom x None s) as [s0 [] | |]; reflexivity.
Qed.

Lemma load_from path name s t d :
  fs s !! path = Some (File t d) ->
  (let* rom := readFileSync path in update_this (loaded_with rom path name)) s
  = Ok (set_emulator (loaded_with d path name (emulator s)) s) tt.
Proof.
  intros E. erewrite bind_Ok by (unfold readFileSync; rewrite E; reflexivity).
  reflexivity.
Qed.

Lemma loadRom_gb x s t d :
  fs s !! path_join (getGameDir x) "rom.gb" = Some (File t d) ->
  GameBoyEmulator.loadRom x s
  = Ok (set_emulator
          (loaded_with d (path_join (getGameDir x) "rom.gb") x (emulator s)) s) tt.
Proof.
  intros E. rewrite loadRom_found. cbv zeta.
  rewrite (proj2 (present_true _ s)) by (rewrite E; eauto).
  erewrite bind_Ok by reflexivity. cbn [fst snd].
  by apply load_from with t.
Qed.

Lemma loadRom_gbc x s t d :
  fs s !! path_join (getGameDir x) "rom.gb" = None ->
  fs s !! path_join (getGameDir x) "rom.gbc" = Some (File t d) ->
  GameBoyEmulator.loadRom x s
  = Ok (set_emulator
          (loaded_with d (path_join (getGameDir x) "rom.gbc") x (emulator s)) s) tt.
Proof.
  intros E0 E. rewrite loadRom_found. cbv zeta.
  rewrite (proj2 (present_false _ s) E0).
  rewrite (proj2 (present_true _ s)) by (rewrite E; eauto).
  erewrite bind_Ok by reflexivity. cbn [fst snd].
  by apply load_from with t.
Qed.

(** X18: how [loadRom] resolves the name of an installed game.  [rom.gb] in
    the game's directory is preferred to [rom.gbc]; the core is fed the
    bytes of that file, the game name is the argument unchanged; the disk, the
    tick count, the canvas, the stream and its subscribers stay as they
    were.  A directory in the place of [rom.gb] makes the load fail even when
    [rom.gbc] is a good file. *)
Theorem loadRom_by_name (x : string) (s : state) (t : Z) (d : content) :
  let gb := path_join (getGameDir x) "rom.gb" in
  let gbc := path_join (getGameDir x) "rom.gbc" in
  (fs s !! gb = Some (File t d) ->
   GameBoyEmulator.loadRom x s
   = Ok (set_emulator (loaded_with d gb x (emulator s)) s) tt)
  /\ (fs s !! gb = None -> fs s !! gbc = Some (File t d) ->
      GameBoyEmulator.loadRom x s
      = Ok (set_emulator (loaded_with d gbc x (emulator s)) s) tt)
  /\ (is_dir gb s = true ->
      GameBoyEmulator.loadRom x s = Throw s (SystemError "EISDIR" gb)).
Proof.
  intros gb gbc. split; [|split].
  - intros E. by apply loadRom_gb with t.
  - intros E0 E. by apply loadRom_gbc with t.
  - rewrite loadRom_found. cbv zeta. fold gb gbc. unfold is_dir. intros D.
    destruct (fs s !! gb) as [[|tm]|] eqn:E; try done.
    rewrite (proj2 (present_true gb s)) by (rewrite E; eauto).
    erewrite bind_Ok by reflexivity. cbn [fst snd].
    erewrite bind_Throw; [reflexivity|]. unfold readFileSync. by rewrite E.
Qed.

(** X19: a ROM that cannot be found is reported by the argument given, and
    nothing changes: [loadRom] when neither ROM file of the game nor the path
    exists, and [installRom] when its source does not exist (no directory is
    created for the game). *)
Theorem rom_not_found (x : string) (custom : option string) (s : state) :
  fs s !! x = None ->
  GameBoyEmulator.installRom x custom s
  = Throw s (Error ("ROM file not found: " +:+ x))
  /\ (fs s !! path_join (getGameDir x) "rom.gb" = None ->
      fs s !! path_join (getGameDir x) "rom.gbc" = None ->
      GameBoyEmulator.loadRom x s = Throw s (Error ("ROM not found: " +:+ x))).
Proof.
  intros E. split.
  - apply installRom_absent. by apply present_false.
  - intros E1 E2. rewrite loadRom_found. cbv zeta.
    rewrite (proj2 (present_false _ s) E1), (proj2 (present_false _ s) E2),
      (proj2 (present_false _ s) E).
    reflexivity.
Qed.

(** X20: a game installed from a [.gb] file (or from a [.gbc] file, when the
    game has no [rom.gb]) can be loaded by the name the install returned:
    the core is fed what the installed ROM file holds, which is the content of
    the source whenever the install made its copy. *)
Theorem install_then_load (src : string) (custom : option string)
    (s s1 : state) (g : InstalledGame) (t : Z) (d : content) :
  fs s !! src = Some (File t d) ->
  GameBoyEmulator.installRom src custom s = Ok s1 g ->
  must_copy src (ig_romPath g) (dirs_ensured (ig_name g) s) = true ->
  extname src = ".gb"
  \/ (extname src = ".gbc"
      /\ fs s1 !! path_join (getGameDir (ig_name g)) "rom.gb" = None) ->
  GameBoyEmulator.loadRom (ig_name g) s1
  = Ok (set_emulator (loaded_with d (ig_romPath g) (ig_name g) (emulator s1)) s1) tt.
Proof.
  intros Es E Mc Ext.
  destruct (installRom_inv _ _ _ _ _ _ _ Es E) as [Es1 Eg].
  assert (En : ig_name g = install_name src custom) by (by rewrite Eg).
  assert (Ep : ig_romPath g = destRomPath_of src (install_name src custom))
    by (by rewrite Eg).
  rewrite En, Ep in *.
  pose proof (installed_rom_copy src custom s t d Es Mc) as Ed.
  rewrite <- Es1 in Ed. unfold destRomPath_of in *.
  destruct Ext as [X|[X N]]; rewrite X in *.
  - change ("rom" +:+ ".gb") with "rom.gb" in *. by apply loadRom_gb with (now s).
  - change ("rom" +:+ ".gbc") with "rom.gbc" in *. by apply loadRom_gbc with (now s).
Qed.

(** X21: [loadRom] of a path that is not the name of an installed game
    installs the file first, under the sanitised name of the path, and loads
    the installed copy, not the file at the path: the core is fed what the
    installed ROM file holds after the install, which is the content of the
    source only when the install made its copy.  A failing install fails the
    load with the same error. *)
Theorem loadRom_by_path (src : string) (s : state) (t : Z) (d : content) :
  fs s !! path_join (getGameDir src) "rom.gb" = None ->
  fs s !! path_join (getGameDir src) "rom.gbc" = None ->
  fs s !! src = Some (File t d) ->
  (forall s1 g t' d',
     GameBoyEmulator.installRom src None s = Ok s1 g ->
     fs s1 !! ig_romPath g = Some (File t' d') ->
     ig_name g = sanitizeGameName src
     /\ GameBoyEmulator.loadRom src s
        = Ok (set_emulator
                (loaded_with d' (ig_romPath g) (sanitizeGameName src) (emulator s1))
                s1) tt
     /\ (must_copy src (ig_romPath g) (dirs_ensured (sanitizeGameName src) s) = true ->
         d' = d))
  /\ (forall s1 e,
        GameBoyEmulator.installRom src None s = Throw s1 e ->
        GameBoyEmulator.loadRom src s = Throw s1 e).
Proof.
  intros E1 E2 Es.
  assert (L := loadRom_found src s). cbv zeta in L.
  rewrite (proj2 (present_false _ s) E1), (proj2 (present_false _ s) E2) in L.
  rewrite (proj2 (present_true src s)) in L by (rewrite Es; eauto).
  split.
  - intros s1 g t' d' E Ed.
    destruct (installRom_inv _ _ _ _ _ _ _ Es E) as [_ Eg].
    assert (En : ig_name g = sanitizeGameName src) by (by rewrite Eg).
    split; [exact En|]. split.
    + rewrite L. erewrite bind_Ok; cycle 1.
      { erewrite bind_Ok by exact E. reflexivity. }
      cbn [fst snd]. rewrite En. by apply load_from with t'.
    + intros Mc.
      destruct (installRom_inv _ _ _ _ _ _ _ Es E) as [Es1 _].
      assert (Ep : ig_romPath g = destRomPath_of src (install_name src None))
        by (by rewrite Eg).
      rewrite Ep in *.
      pose proof (installed_rom_copy src None s t d Es Mc) as Ec.
      rewrite <- Es1, Ed in Ec. by injection Ec.
  - intros s1 e E. rewrite L.
    erewrite bind_Throw; [reflexivity|]. by erewrite bind_Throw.
Qed.

(** ** Listing the snapshots *)

Lemma readdir_elem dir s entries p n f :
  readdirSync dir s = Ok s entries ->
  fs s !! p = Some n -> entry_name dir p = Some f -> f ∈ entries.
Proof.
  unfold readdirSync. intros E Ep Ef.
  destruct (fs s !! dir) as [[]|]; try done. injection E as <-.
  apply list_elem_of_omap. exists (p, n). split; [|done].
  by apply elem_of_map_to_list.
Qed.

Lemma read_parse_state p s s' v :
  (let* text := readFileSync p in JSON_parse text) s = Ok s' v ->
  s' = s /\ exists t, fs s !! p = Some (File t (Json v)).
Proof.
  unfold bind, readFileSync, JSON_parse, ret, throw.
  destruct (fs s !! p) as [[t [v'|b]|t]|]; try done.
  intros E. injection E as <- <-. eauto.
Qed.

Lemma map_M_state {X Y} (f : X -> M Y) (l : list X) s s' ys :
  (forall x s0 s1 y, f x s0 = Ok s1 y -> s1 = s0) ->
  GameBoyEmulator.map_M f l s = Ok s' ys -> s' = s.
Proof.
  intros Pure. revert ys. induction l as [|a l IH]; intros ys E.
  - simpl in E. unfold ret in E. by injection E.
  - simpl in E. apply bind_inv in E as (s0 & y & Ea & E).
    pose proof (Pure _ _ _ _ Ea) as ->.
    apply bind_inv in E as (s1 & ys' & El & E).
    unfold ret in E. injection E as <- <-. by apply (IH ys').
Qed.

Lemma map_M_elem {X Y} (f : X -> M Y) (l : list X) s s' ys x :
  (forall x s0 s1 y, f x s0 = Ok s1 y -> s1 = s0) ->
  GameBoyEmulator.map_M f l s = Ok s' ys -> x ∈ l ->
  exists y, f x s = Ok s y /\ y ∈ ys.
Proof.
  intros Pure. revert ys. induction l as [|a l IH]; intros ys E Hx.
  { by apply elem_of_nil in Hx. }
  simpl in E. apply bind_inv in E as (s0 & y & Ea & E).
  pose proof (Pure _ _ _ _ Ea) as ->.
  apply bind_inv in E as (s1 & ys' & El & E).
  unfold ret in E. injection E as <- <-.
  pose proof (map_M_state _ _ _ _ _ Pure El) as ->.
  apply elem_of_cons in Hx as [->|Hx].
  - exists y. split; [done|]. apply elem_of_cons. by left.
  - destruct (IH ys' El Hx) as (y' & Ey & Hy).
    exists y'. split; [done|]. apply elem_of_cons. by right.
Qed.

Lemma insert_sorted_elem (x y : json * option Z) (l : list (json * option Z)) :
  y ∈ GameBoyEmulator.insert_sorted x l <-> y = x \/ y ∈ l.
Proof.
  induction l as [|z l IH]; simpl.
  - rewrite list_elem_of_singleton, elem_of_nil. tauto.
  - destruct (GameBoyEmulator.after z.2 x.2).
    + by rewrite elem_of_cons.
    + rewrite !elem_of_cons, IH. tauto.
Qed.

Lemma insertion_elem (y : json * option Z) (l acc : list (json * option Z)) :
  y ∈ foldl (fun acc x => GameBoyEmulator.insert_sorted x acc) acc l <-> y ∈ acc \/ y ∈ l.
Proof.
  revert acc. induction l as [|x l IH]; intros acc; simpl.
  - rewrite elem_of_nil. tauto.
  - rewrite IH, insert_sorted_elem, elem_of_cons. tauto.
Qed.

Lemma keyed_fst (l : list json) (keyed : list (json * option Z)) :
  mapM (fun v => (fun t => (v, t)) <$> GameBoyEmulator.timestamp_getTime v) l = Some keyed ->
  keyed.*1 = l.
Proof.
  revert keyed. induction l as [|v l IH]; intros keyed E.
  - by injection E as <-.
  - simpl in E. destruct (GameBoyEmulator.timestamp_getTime v) as [t|]; [|done]. simpl in E.
    destruct (mapM _ l) as [k|] eqn:El; [|done]. simpl in E.
    injection E as <-. rewrite fmap_cons. cbn [fst]. f_equal. by apply IH.
Qed.

(** Sorting returns the values it was given. *)
Lemma sort_by_timestamp_elem (l r : list json) s s' (v : json) :
  GameBoyEmulator.sort_by_timestamp l s = Ok s' r -> s' = s /\ (v ∈ r <-> v ∈ l).
Proof.
  unfold GameBoyEmulator.sort_by_timestamp. intros E.
  destruct l as [|a [|b l]]; try (unfold ret in E; by injection E as <- <-).
  destruct (mapM _ _) as [keyed|] eqn:K; [|done].
  unfold ret in E. injection E as <- <-. split; [done|].
  apply keyed_fst in K. rewrite <- K.
  rewrite !list_elem_of_fmap. split.
  - intros (y & -> & Hy). exists y. split; [done|].
    apply insertion_elem in Hy as [Hy|Hy]; [by apply elem_of_nil in Hy|done].
  - intros (y & -> & Hy). exists y. split; [done|].
    apply insertion_elem. by right.
Qed.

(** What a [listStates] that returns has read, when there is a saves
    directory. *)
Lemma listStates_inv name game s s' l :
  target_game name s = Some game -> truthy game = true ->
  present (getSavesDir game) s = true ->
  GameBoyEmulator.listStates name s = Ok s' l ->
  s' = s
  /\ exists entries parsed,
       readdirSync (getSavesDir game) s = Ok s entries
       /\ GameBoyEmulator.map_M (fun f =>
                   let* text := readFileSync (path_join (getSavesDir game) f) in
                   JSON_parse text)
                (filter (fun f => ends_with ".meta.json" f = true) entries) s
          = Ok s parsed
       /\ forall v, v ∈ l <-> v ∈ parsed.
Proof.
  unfold target_game. intros T G P E. unfold GameBoyEmulator.listStates in E.
  erewrite bind_Ok in E by reflexivity. rewrite T in E.
  cbn [truthy_opt from_option id] in E. rewrite G in E. cbn [negb] in E.
  erewrite bind_Ok in E by reflexivity.
  fold (present (getSavesDir game) s) in E. rewrite P in E. cbn [negb] in E.
  apply bind_inv in E as (s0 & entries & Er & E).
  assert (s0 = s) as ->.
  { unfold readdirSync in Er. destruct (fs s !! getSavesDir game) as [[]|];
      try done. by injection Er. }
  apply bind_inv in E as (s1 & parsed & Em & E).
  assert (s1 = s) as ->.
  { apply (map_M_state _ _ _ _ _) in Em; [done|].
    intros x sa sb y Ex. by apply read_parse_state in Ex as [-> _]. }
  destruct (sort_by_timestamp_elem parsed l s s' JNull E) as [-> _].
  split; [done|]. exists entries, parsed. split; [done|]. split; [done|].
  intros v. by destruct (sort_by_timestamp_elem parsed l s s v E).
Qed.

(** X22: a snapshot that was saved is listed.  After a successful
    [saveState] whose id holds no separator, every [listStates] of the game
    that returns - by the current game or by its name - leaves the state as
    it is and holds the metadata that [saveState] returned. *)
Theorem save_then_list (name arg : option string) (s s1 s2 : state)
    (md : SaveStateMetadata) (l : list json) :
  GameBoyEmulator.saveState name s = Ok s1 md ->
  no_slash (chars (ss_id md)) = true ->
  arg = None \/ arg = Some (ss_gameName md) ->
  GameBoyEmulator.listStates arg s1 = Ok s2 l ->
  s2 = s1 /\ metadata_json md ∈ l.
Proof.
  intros Sv Nid Harg Ls.
  destruct (saveState_effect _ _ _ _ Sv) as (game & L & G & T & Emd & Es1).
  assert (Eid : ss_id md = entropy s (drawn s)) by (by rewrite Emd).
  assert (Eg : ss_gameName md = game) by (by rewrite Emd).
  assert (Tg : target_game arg s1 = Some game).
  { unfold target_game, or_else. rewrite Es1. state_simpl.
    unfold redrawn, GameBoyEmulator.set_canvas. cbn [gameName].
    destruct Harg as [->| ->]; cbn [truthy_opt]; [done|].
    by rewrite Eg, T. }
  set (mf := metadataFile_of game (ss_id md)).
  assert (Emf : fs s1 !! mf = Some (File (now s) (Json (metadata_json md)))).
  { rewrite Es1. state_simpl. by rewrite lookup_insert_eq. }
  assert (Pd : present (getSavesDir game) s1 = true).
  { apply present_true. rewrite Es1. state_simpl.
    rewrite !lookup_insert_ne.
    - unfold ensured. destruct (present (getSavesDir game) s) eqn:P.
      + by apply present_true in P.
      + state_simpl. rewrite lookup_insert_eq. eauto.
    - intros Eq. symmetry in Eq. revert Eq.
      apply saves_child_ne. by apply state_entry.
    - intros Eq. symmetry in Eq. revert Eq.
      apply saves_child_ne. by apply meta_entry. }
  destruct (listStates_inv _ _ _ _ _ Tg T Pd Ls) as (-> & entries & parsed & Er & Em & Hl).
  split; [done|]. apply Hl.
  pose proof (meta_entry (ss_id md) Nid) as Ent.
  assert (Hf : ss_id md +:+ ".meta.json" ∈ entries).
  { apply (readdir_elem _ _ _ mf _ _ Er Emf).
    unfold mf, metadataFile_of. by apply saves_entry. }
  assert (Hm : ss_id md +:+ ".meta.json"
               ∈ filter (fun f => ends_with ".meta.json" f = true) entries).
  { apply list_elem_of_filter. split; [apply ends_with_app|done]. }
  eapply map_M_elem in Em as (y & Ey & Hy); [| |exact Hm].
  - apply read_parse_state in Ey as (_ & t & Ey).
    change (path_join (getSavesDir game) (ss_id md +:+ ".meta.json")) with mf in Ey.
    rewrite Emf in Ey. by injection Ey as _ <-.
  - intros x sa sb y' Ex. by apply read_parse_state in Ex as [-> _].
Qed.

Lemma read_parse_total p s :
  (exists v, (let* text := readFileSync p in JSON_parse text) s = Ok s v)
  \/ (exists e, (let* text := readFileSync p in JSON_parse text) s = Throw s e).
Proof.
  unfold bind, readFileSync, JSON_parse, ret, throw.
  destruct (fs s !! p) as [[t [v|b]|t]|]; eauto.
Qed.

Lemma map_M_fails {X Y} (f : X -> M Y) (l : list X) s x e :
  (forall x, (exists y, f x s = Ok s y) \/ (exists e, f x s = Throw s e)) ->
  x ∈ l -> f x s = Throw s e ->
  exists e', GameBoyEmulator.map_M f l s = Throw s e'.
Proof.
  intros Tot Hx Ex. induction l as [|a l IH]; [by apply elem_of_nil in Hx|].
  simpl. destruct (Tot a) as [(y & Ea)|(e0 & Ea)].
  - erewrite bind_Ok by exact Ea.
    apply elem_of_cons in Hx as [->|Hx]; [by rewrite Ea in Ex|].
    destruct (IH Hx) as (e' & El). exists e'. by erewrite bind_Throw.
  - exists e0. by erewrite bind_Throw.
Qed.

(** X23: one unreadable metadata file fails the whole listing.  When the
    saves directory of the game holds an entry [<stem>.meta.json] that is a
    directory, or a file that is not JSON text, [listStates] raises, whatever
    else the directory holds, and changes nothing. *)
Theorem listStates_bad_entry (name : option string) (game stem : string)
    (s : state) (t0 : Z) (n : node) :
  target_game name s = Some game -> truthy game = true ->
  fs s !! getSavesDir game = Some (Dir t0) ->
  no_slash (chars stem) = true ->
  fs s !! path_join (getSavesDir game) (stem +:+ ".meta.json") = Some n ->
  readable (path_join (getSavesDir game) (stem +:+ ".meta.json")) s = false ->
  exists e, GameBoyEmulator.listStates name s = Throw s e.
Proof.
  unfold target_game. intros T G Ed Ns En Rd.
  set (f := stem +:+ ".meta.json") in *.
  unfold GameBoyEmulator.listStates.
  erewrite bind_Ok by reflexivity. rewrite T.
  cbn [truthy_opt from_option id]. rewrite G. cbn [negb].
  erewrite bind_Ok by reflexivity.
  rewrite bool_decide_true by (rewrite Ed; eauto). cbn [negb].
  assert (Er : readdirSync (getSavesDir game) s
               = Ok s (omap (fun kv => entry_name (getSavesDir game) kv.1)
                         (map_to_list (fs s))))
    by (unfold readdirSync; by rewrite Ed).
  erewrite bind_Ok by exact Er.
  pose proof (meta_entry stem Ns) as Ent. fold f in Ent.
  assert (Hf : f ∈ filter (fun f => ends_with ".meta.json" f = true)
                 (omap (fun kv => entry_name (getSavesDir game) kv.1)
                    (map_to_list (fs s)))).
  { apply list_elem_of_filter. split; [apply ends_with_app|].
    apply (readdir_elem _ _ _ _ _ _ Er En).
    by apply saves_entry. }
  assert (Bad : exists e,
            (let* text := readFileSync (path_join (getSavesDir game) f) in
             JSON_parse text) s = Throw s e).
  { destruct (read_parse_total (path_join (getSavesDir game) f) s)
      as [(v & Ev)|]; [|done].
    apply read_parse_state in Ev as (_ & t & Ev).
    unfold readable in Rd. by rewrite Ev in Rd. }
  destruct Bad as (e & Bad).
  destruct (map_M_fails
              (fun f => let* text := readFileSync (path_join (getSavesDir game) f) in
                        JSON_parse text)
              _ s f e (fun x => read_parse_total _ s) Hf Bad) as (e' & Em).
  exists e'. by erewrite bind_Throw.
Qed.

(** ** The [delete_state] tool *)

(** X24: the [delete_state] tool.  Without a [state_id] it answers with the
    error [state_id is required] and deletes nothing.  With one, and no game
    to look in (no [game_name] and nothing loaded), it answers
    [Save state <id> not found], which is not flagged as an error.  With a
    game, neither artifact path being a directory, both artifacts are gone
    afterwards; the answer is [Deleted save state <id>] exactly when one of
    them was there, and neither answer is flagged as an error. *)
Theorem delete_state_tool (state_id game_name : option string) (s : state) :
  (truthy_opt state_id = false ->
   call_tool (delete_state state_id game_name) s
   = Ok s (error_response "Error: state_id is required"))
  /\ (forall stateId,
        state_id = Some stateId -> truthy stateId = true ->
        truthy_opt (target_game game_name s) = false ->
        call_tool (delete_state state_id game_name) s
        = Ok s (mkResponse
                  [TextContent ("Save state " +:+ stateId +:+ " not found")]
                  false))
  /\ (forall stateId game,
        state_id = Some stateId -> truthy stateId = true ->
        target_game game_name s = Some game -> truthy game = true ->
        is_dir (stateFile_of game stateId) s = false ->
        is_dir (metadataFile_of game stateId) s = false ->
        call_tool (delete_state state_id game_name) s
        = Ok (set_fs (delete (metadataFile_of game stateId)
                        (delete (stateFile_of game stateId) (fs s))) s)
             (mkResponse
                [TextContent
                   (if present (stateFile_of game stateId) s
                       || present (metadataFile_of game stateId) s
                    then "Deleted save state " +:+ stateId
                    else "Save state " +:+ stateId +:+ " not found")]
                false)).
Proof.
  split; [|split].
  - intros T. unfold call_tool, try_catch, call_tool_body. by rewrite T.
  - intros stateId -> T G. unfold call_tool, try_catch, call_tool_body.
    cbn [truthy_opt]. rewrite T. cbn [negb from_option].
    assert (D : GameBoyEmulator.deleteState stateId game_name s = Ok s false).
    { unfold GameBoyEmulator.deleteState. erewrite bind_Ok by reflexivity.
      unfold target_game in G. by rewrite G. }
    erewrite bind_Ok by exact D. reflexivity.
  - intros stateId game -> T Tg G D1 D2.
    unfold call_tool, try_catch, call_tool_body.
    cbn [truthy_opt]. rewrite T. cbn [negb from_option].
    erewrite bind_Ok by (by apply deleteState_run).
    reflexivity.
Qed.

Lemma map_M_source {X Y} (f : X -> M Y) (l : list X) s s' ys y :
  (forall x s0 s1 y, f x s0 = Ok s1 y -> s1 = s0) ->
  GameBoyEmulator.map_M f l s = Ok s' ys -> y ∈ ys ->
  exists x, x ∈ l /\ f x s = Ok s y.
Proof.
  intros Pure. revert ys. induction l as [|a l IH]; intros ys E Hy.
  - simpl in E. unfold ret in E. injection E as <- <-.
    by apply elem_of_nil in Hy.
  - simpl in E. apply bind_inv in E as (s0 & y0 & Ea & E).
    pose proof (Pure _ _ _ _ Ea) as ->.
    apply bind_inv in E as (s1 & ys' & El & E).
    unfold ret in E. injection E as <- <-.
    pose proof (map_M_state _ _ _ _ _ Pure El) as ->.
    apply elem_of_cons in Hy as [->|Hy].
    + exists a. split; [apply elem_of_cons; by left|done].
    + destruct (IH ys' El Hy) as (x & Hx & Ex).
      exists x. split; [apply elem_of_cons; by right|done].
Qed.

(** X25: [listStates] lists nothing but metadata files.  Every value in a
    listing that returns is the parsed content of a regular file of the
    game's saves directory whose entry name ends with [.meta.json]; state
    files and other entries are never listed, and the listing changes
    nothing. *)
Theorem listStates_sound (name : option string) (game : string)
    (s s' : state) (l : list json) :
  target_game name s = Some game -> truthy game = true ->
  GameBoyEmulator.listStates name s = Ok s' l ->
  s' = s
  /\ forall v, v ∈ l ->
       exists f p t,
         ends_with ".meta.json" f = true
         /\ entry_name (getSavesDir game) p = Some f
         /\ is_Some (fs s !! p)
         /\ fs s !! path_join (getSavesDir game) f = Some (File t (Json v)).
Proof.
  intros T G E.
  destruct (present (getSavesDir game) s) eqn:P.
  - destruct (listStates_inv _ _ _ _ _ T G P E)
      as (-> & entries & parsed & Er & Em & Hl).
    split; [done|]. intros v Hv. apply Hl in Hv.
    eapply map_M_source in Em as (f & Hf & Ef); [| |exact Hv].
    + apply list_elem_of_filter in Hf as [He Hf].
      unfold readdirSync in Er.
      destruct (fs s !! getSavesDir game) as [[]|]; try done.
      injection Er as <-.
      apply list_elem_of_omap in Hf as ([p n] & Hp & Hn).
      apply elem_of_map_to_list in Hp.
      apply read_parse_state in Ef as (_ & t & Ef).
      exists f, p, t. split; [done|]. split; [done|]. split; [|done].
      simpl. rewrite Hp. eauto.
    + intros x sa sb y Ex. by apply read_parse_state in Ex as [-> _].
  - unfold target_game in T. unfold GameBoyEmulator.listStates in E.
    erewrite bind_Ok in E by reflexivity. rewrite T in E.
    cbn [truthy_opt from_option id] in E. rewrite G in E. cbn [negb] in E.
    erewrite bind_Ok in E by reflexivity.
    fold (present (getSavesDir game) s) in E. rewrite P in E.
    unfold ret in E. cbn [negb] in E. injection E as <- <-.
    split; [done|]. intros v Hv. by apply elem_of_nil in Hv.
Qed.

(** ** Advancing without a guard of its own *)

(** X26: [advanceFrames(n)] runs exactly [n] ticks on a loaded session.
    It has no check of its own: on an unloaded session it raises
    [No ROM loaded] from its first tick when [n] is positive, and returns
    normally, with nothing changed, when [n <= 0] - where [waitFrames]
    raises. *)
Theorem advanceFrames_runs (n : Z) (s : state) :
  (romLoaded (emulator s) = true ->
   advanceFrames n s
   = Ok (set_emulator (run_frames (Z.to_nat n) (emulator s)) s) tt)
  /\ (romLoaded (emulator s) = false -> 0 < n ->
      advanceFrames n s = Throw s (Error "No ROM loaded"))
  /\ (romLoaded (emulator s) = false -> n <= 0 ->
      advanceFrames n s = Ok s tt
      /\ waitFrames n s = Throw s (Error "No ROM loaded")).
Proof.
  unfold advanceFrames. split; [|split].
  - intros L. by apply repeat_guarded_doFrame.
  - intros L Hn. destruct (Z.to_nat n) as [|k] eqn:Ek; [lia|].
    simpl GameBoyEmulator.repeat_M. erewrite bind_Throw; [reflexivity|].
    unfold GameBoyEmulator.doFrame. erewrite bind_Ok by reflexivity.
    by rewrite L.
  - intros L Hn. replace (Z.to_nat n) with 0%nat by lia.
    split; [reflexivity|]. by apply waitFrames_unloaded.
Qed.

End Further.

Transparent path_join sanitizeGameName extname.

(* ===================================================================== *)
(** * The further properties at work *)
(* ===================================================================== *)

Lemma unit_value `{Platform} (m : M unit) (s : state) :
  succeeds m s = true -> m s = Ok (state_after m s) tt.
Proof. unfold succeeds, state_after. by destruct (m s) as [? []| |]. Qed.

Section Scenarios.
Local Existing Instance counter_platform.

Lemma sanitizeGameName_idempotent_witness :
  sanitized_form "pokemon-red" = true
  /\ no_edge_dash "pokemon-red" = true
  /\ sanitizeGameName "pokemon-red" = "pokemon-red".
Proof.
  split; [reflexivity|]. split; [reflexivity|].
  destruct (sanitizeGameName_idempotent "Pokemon Red.gb") as [_ F].
  apply F; reflexivity.
Defined.

Lemma render_bounds_witness :
  (1 < 160 * 144 * 4)%nat
  /\ GameBoyEmulator.render [300; -4; 7] !! 1%nat = Some 0.
Proof.
  assert (B : (1 < 160 * 144 * 4)%nat) by lia.
  split; [exact B|].
  destruct (render_bounds [300; -4; 7]) as (_ & C & _). exact (C 1%nat B).
Defined.

Lemma stream_rate_bounds_witness :
  0 < STREAM_FPS
  /\ GameBoyEmulator.framesToAdvance = Some 4%nat
  /\ 60 <= Z.of_nat 4 * STREAM_FPS < 60 + STREAM_FPS
  /\ GameBoyEmulator.frameInterval * STREAM_FPS <= 1000
     < (GameBoyEmulator.frameInterval + 1) * STREAM_FPS.
Proof.
  split; [reflexivity|]. split; [reflexivity|].
  apply (stream_rate_bounds 4); reflexivity.
Defined.

Lemma waitFrames_advances_witness :
  romLoaded (emulator demo_loaded) = true
  /\ exists s',
       waitFrames 3 demo_loaded
       = Ok s' (ImageContent (base64 (current_frame (emulator s'))) "image/png")
       /\ frames (emulator s') = (frames (emulator demo_loaded) + Z.to_nat 3)%nat.
Proof.
  assert (L : romLoaded (emulator demo_loaded) = true) by (vm_compute; reflexivity).
  split; [exact L|].
  destruct (waitFrames_advances 3 demo_loaded) as [Hl _].
  destruct (Hl L) as (s' & E & F & _). exists s'. split; [exact E|exact F].
Defined.

Lemma tools_on_loaded_witness :
  romLoaded (emulator demo_loaded) = true
  /\ exists s',
       call_tool (press A None) demo_loaded
       = Ok s' (mkResponse
                  [ImageContent (base64 (current_frame (emulator s'))) "image/png";
                   TextContent ("Pressed " +:+ button_name A +:+ " for "
                                +:+ pretty (default 25 None) +:+ " frames.")]
                  false)
       /\ frames (emulator s')
          = (frames (emulator demo_loaded) + (Z.to_nat (default 25%Z None) + 1))%nat.
Proof.
  assert (L : romLoaded (emulator demo_loaded) = true) by (vm_compute; reflexivity).
  split; [exact L|].
  destruct (tools_on_loaded demo_loaded L) as [Hp _]. exact (Hp A None).
Defined.

Lemma tools_need_rom_witness :
  romLoaded (emulator demo_boot) = false
  /\ call_tool get_screen demo_boot
     = Ok demo_boot (error_response "Error: No ROM loaded")
  /\ call_tool (wait_frames None) demo_boot
     = Ok demo_boot (error_response "Error: No ROM loaded").
Proof.
  assert (L : romLoaded (emulator demo_boot) = false) by (vm_compute; reflexivity).
  split; [exact L|].
  destruct (tools_need_rom demo_boot L) as (_ & Hw & Hg).
  split; [exact Hg|exact (Hw None)].
Defined.

Lemma startStream_idempotent_witness :
  GameBoyEmulator.startStream demo_loaded = Ok demo_idle_stream tt
  /\ streamActive (emulator demo_idle_stream) = true
  /\ GameBoyEmulator.startStream demo_idle_stream = Ok demo_idle_stream tt.
Proof.
  assert (E : GameBoyEmulator.startStream demo_loaded = Ok demo_idle_stream tt)
    by (unfold demo_idle_stream; apply unit_value; vm_compute; reflexivity).
  split; [exact E|].
  destruct (startStream_idempotent demo_loaded demo_idle_stream E) as (A1 & A2 & _).
  split; [exact A1|exact A2].
Defined.

Lemma startStream_before_load_witness :
  streamActive (emulator demo_boot) = false
  /\ romLoaded (emulator demo_boot) = false
  /\ exists s1,
       GameBoyEmulator.startStream demo_boot = Ok s1 tt
       /\ streamActive (emulator s1) = true
       /\ timers s1 = timers demo_boot.
Proof.
  assert (A : streamActive (emulator demo_boot) = false) by (vm_compute; reflexivity).
  assert (L : romLoaded (emulator demo_boot) = false) by (vm_compute; reflexivity).
  split; [exact A|]. split; [exact L|].
  destruct (startStream_before_load demo_boot A L) as (s1 & E & B & T & _).
  exists s1. split; [exact E|]. split; [exact B|exact T].
Defined.

Lemma restart_leaves_two_timeouts_witness :
  streamActive (emulator demo_loaded) = false
  /\ romLoaded (emulator demo_loaded) = true
  /\ GameBoyEmulator.framesToAdvance = Some 4%nat
  /\ exists s3,
       (do* GameBoyEmulator.startStream in
        do* GameBoyEmulator.stopStream in
        GameBoyEmulator.startStream) demo_loaded = Ok s3 tt
       /\ streamActive (emulator s3) = true
       /\ timers s3
          = timers demo_loaded
            ++ [GameBoyEmulator.frameInterval; GameBoyEmulator.frameInterval].
Proof.
  assert (A : streamActive (emulator demo_loaded) = false) by (vm_compute; reflexivity).
  assert (L : romLoaded (emulator demo_loaded) = true) by (vm_compute; reflexivity).
  split; [exact A|]. split; [exact L|]. split; [reflexivity|].
  destruct (restart_leaves_two_timeouts demo_loaded 4 A L eq_refl)
    as (s3 & E & B & T & _).
  exists s3. split; [exact E|]. split; [exact B|exact T].
Defined.

Lemma unsubscribe_removes_only_witness :
  streamActive (emulator demo_watched_stream) = true
  /\ romLoaded (emulator demo_watched_stream) = true
  /\ NoDup (cid <$> streamClients (emulator demo_watched_stream))
  /\ exists s1 s2,
       GameBoyEmulator.unsubscribe (Client 2 (fun _ => false)) demo_watched_stream
       = Ok s1 tt
       /\ GameBoyEmulator.tick s1 = Ok s2 tt
       /\ (forall d, d ∈ deliveries s2 -> d ∉ deliveries demo_watched_stream ->
             d_client d <> 2%nat).
Proof.
  assert (N : NoDup (cid <$> streamClients (emulator demo_watched_stream))).
  { vm_compute. repeat constructor; set_solver. }
  assert (A : streamActive (emulator demo_watched_stream) = true)
    by (vm_compute; reflexivity).
  assert (L : romLoaded (emulator demo_watched_stream) = true)
    by (vm_compute; reflexivity).
  split; [exact A|]. split; [exact L|]. split; [exact N|].
  destruct (unsubscribe_removes_only (Client 2 (fun _ => false))
              demo_watched_stream 4 A L eq_refl N)
    as (s1 & s2 & E1 & _ & _ & E2 & _ & D).
  exists s1, s2. split; [exact E1|]. split; [exact E2|exact D].
Defined.

Lemma subscribe_unsubscribe_witness :
  (cid (Client 9 (fun _ => true)) ∉ cid <$> streamClients (emulator demo_idle_stream))
  /\ (do* GameBoyEmulator.addStreamClient (Client 9 (fun _ => true)) in
      GameBoyEmulator.unsubscribe (Client 9 (fun _ => true))) demo_idle_stream
     = Ok demo_idle_stream tt.
Proof.
  assert (N : cid (Client 9 (fun _ => true))
              ∉ cid <$> streamClients (emulator demo_idle_stream)).
  { assert (E : streamClients (emulator demo_idle_stream) = [])
      by (vm_compute; reflexivity).
    rewrite E. apply not_elem_of_nil. }
  split; [exact N|].
  destruct (subscribe_unsubscribe (Client 9 (fun _ => true)) demo_idle_stream N)
    as [R _].
  exact R.
Defined.

Lemma saveState_footprint_witness :
  GameBoyEmulator.saveState (Some "checkpoint") demo_loaded
  = Ok demo_saved demo_metadata
  /\ present (getSavesDir "pokemon-red") demo_loaded = true
  /\ exists game,
       gameName (emulator demo_loaded) = Some game
       /\ ss_id demo_metadata = entropy demo_loaded (drawn demo_loaded)
       /\ gameboy (emulator demo_saved) = gameboy (emulator demo_loaded)
       /\ dom (fs demo_saved)
          = {[metadataFile_of game (ss_id demo_metadata);
              stateFile_of game (ss_id demo_metadata)]} ∪ dom (fs demo_loaded).
Proof.
  assert (E : GameBoyEmulator.saveState (Some "checkpoint") demo_loaded
              = Ok demo_saved demo_metadata)
    by (unfold demo_saved, demo_metadata; apply succeeds_Ok;
        vm_compute; reflexivity).
  assert (P : present (getSavesDir "pokemon-red") demo_loaded = true)
    by (vm_compute; reflexivity).
  assert (G0 : gameName (emulator demo_loaded) = Some "pokemon-red")
    by (vm_compute; reflexivity).
  split; [exact E|]. split; [exact P|].
  destruct (saveState_footprint _ _ _ _ E)
    as (game & G & I & _ & _ & C & _ & _ & _ & _ & _ & _ & D & _).
  exists game. split; [exact G|]. split; [exact I|]. split; [exact C|].
  apply D. assert (Eg : game = "pokemon-red") by congruence.
  rewrite Eg. exact P.
Defined.

Lemma save_delete_load_witness :
  GameBoyEmulator.saveState (Some "checkpoint") demo_loaded
  = Ok demo_saved demo_metadata
  /\ exists s2,
       GameBoyEmulator.deleteState (ss_id demo_metadata) None demo_saved = Ok s2 true
       /\ GameBoyEmulator.loadState (ss_id demo_metadata) s2
          = Throw s2 (Error ("Save state not found: " +:+ ss_id demo_metadata)).
Proof.
  assert (E : GameBoyEmulator.saveState (Some "checkpoint") demo_loaded
              = Ok demo_saved demo_metadata)
    by (unfold demo_saved, demo_metadata; apply succeeds_Ok;
        vm_compute; reflexivity).
  split; [exact E|].
  destruct (save_delete_load _ _ _ _ E) as (s2 & D & _ & _ & Ld).
  exists s2. split; [exact D|exact Ld].
Defined.

Lemma saveState_keeps_other_snapshots_witness :
  GameBoyEmulator.saveState None demo_saved = Ok demo_resaved demo_metadata2
  /\ "5f3a9c00" <> ss_id demo_metadata2
  /\ fs demo_resaved !! stateFile_of "pokemon-red" "5f3a9c00"
     = fs demo_saved !! stateFile_of "pokemon-red" "5f3a9c00"
  /\ fs demo_resaved !! metadataFile_of "pokemon-red" "5f3a9c00"
     = fs demo_saved !! metadataFile_of "pokemon-red" "5f3a9c00".
Proof.
  assert (E : GameBoyEmulator.saveState None demo_saved
              = Ok demo_resaved demo_metadata2)
    by (unfold demo_resaved, demo_metadata2; apply succeeds_Ok;
        vm_compute; reflexivity).
  assert (Ne : "5f3a9c00" <> ss_id demo_metadata2) by (vm_compute; discriminate).
  split; [exact E|]. split; [exact Ne|].
  assert (G : gameName (emulator demo_saved) = Some "pokemon-red")
    by (vm_compute; reflexivity).
  assert (N1 : no_slash (chars (ss_id demo_metadata2)) = true)
    by (vm_compute; reflexivity).
  assert (Ps : is_Some (fs demo_saved !! stateFile_of "pokemon-red" "5f3a9c00"))
    by (vm_compute; eexists; reflexivity).
  assert (Pm : is_Some (fs demo_saved !! metadataFile_of "pokemon-red" "5f3a9c00"))
    by (vm_compute; eexists; reflexivity).
  destruct (saveState_keeps_other_snapshots None demo_saved demo_resaved
              demo_metadata2 "pokemon-red" "5f3a9c00" E G N1 eq_refl Ne Ps Pm)
    as (A1 & A2 & _).
  split; [exact A1|exact A2].
Defined.

Lemma snapshots_need_game_witness :
  romLoaded (emulator demo_boot) = false
  /\ GameBoyEmulator.saveState None demo_boot
     = Throw demo_boot (Error "No ROM loaded")
  /\ GameBoyEmulator.loadState "5f3a9c00" demo_boot
     = Throw demo_boot (Error "No ROM loaded").
Proof.
  assert (L : romLoaded (emulator demo_boot) = false) by (vm_compute; reflexivity).
  split; [exact L|].
  exact (snapshots_need_game None "5f3a9c00" demo_boot (or_introl L)).
Defined.

Lemma installRom_effect_witness :
  fs demo_boot !! demo_source = Some (File 100 (Raw "ROM"))
  /\ GameBoyEmulator.installRom demo_source None demo_boot = Ok demo_installed demo_game
  /\ must_copy demo_source (ig_romPath demo_game)
       (dirs_ensured (install_name demo_source None) demo_boot) = true
  /\ demo_source <> metadataPath_of (install_name demo_source None)
  /\ fs demo_installed !! ig_romPath demo_game
     = Some (File (now demo_boot) (Raw "ROM"))
  /\ fs demo_installed !! demo_source = Some (File 100 (Raw "ROM")).
Proof.
  assert (E0 : fs demo_boot !! demo_source = Some (File 100 (Raw "ROM")))
    by (vm_compute; reflexivity).
  assert (E : GameBoyEmulator.installRom demo_source None demo_boot
              = Ok demo_installed demo_game)
    by (unfold demo_installed, demo_game; apply succeeds_Ok;
        vm_compute; reflexivity).
  assert (Mc : must_copy demo_source (ig_romPath demo_game)
                 (dirs_ensured (install_name demo_source None) demo_boot) = true)
    by (vm_compute; reflexivity).
  assert (Ne : demo_source <> metadataPath_of (install_name demo_source None))
    by (vm_compute; discriminate).
  split; [exact E0|]. split; [exact E|]. split; [exact Mc|]. split; [exact Ne|].
  destruct (installRom_effect demo_source None demo_boot demo_installed demo_game
              100 (Raw "ROM") E0 E)
    as (_ & Hc & _ & _ & Hs & _).
  split; [exact (Hc Mc)|exact (Hs Ne)].
Defined.

Lemma loadRom_by_name_witness :
  fs demo_installed !! path_join (getGameDir "pokemon-red") "rom.gb"
  = Some (File 1000 (Raw "ROM"))
  /\ GameBoyEmulator.loadRom "pokemon-red" demo_installed
     = Ok (set_emulator
             (loaded_with (Raw "ROM") (path_join (getGameDir "pokemon-red") "rom.gb")
                "pokemon-red" (emulator demo_installed))
             demo_installed) tt.
Proof.
  assert (E : fs demo_installed !! path_join (getGameDir "pokemon-red") "rom.gb"
              = Some (File 1000 (Raw "ROM")))
    by (vm_compute; reflexivity).
  split; [exact E|].
  destruct (loadRom_by_name "pokemon-red" demo_installed 1000 (Raw "ROM"))
    as (Hgb & _).
  exact (Hgb E).
Defined.

Lemma rom_not_found_witness :
  fs demo_boot !! "/tmp/missing.gb" = None
  /\ GameBoyEmulator.installRom "/tmp/missing.gb" None demo_boot
     = Throw demo_boot (Error ("ROM file not found: " +:+ "/tmp/missing.gb"))
  /\ GameBoyEmulator.loadRom "/tmp/missing.gb" demo_boot
     = Throw demo_boot (Error ("ROM not found: " +:+ "/tmp/missing.gb")).
Proof.
  assert (E : fs demo_boot !! "/tmp/missing.gb" = None) by (vm_compute; reflexivity).
  split; [exact E|].
  destruct (rom_not_found "/tmp/missing.gb" None demo_boot E) as [Hi Hl].
  split; [exact Hi|]. apply Hl; vm_compute; reflexivity.
Defined.

Lemma install_then_load_witness :
  fs demo_boot !! demo_source = Some (File 100 (Raw "ROM"))
  /\ GameBoyEmulator.installRom demo_source None demo_boot = Ok demo_installed demo_game
  /\ extname demo_source = ".gb"
  /\ GameBoyEmulator.loadRom (ig_name demo_game) demo_installed
     = Ok (set_emulator
             (loaded_with (Raw "ROM") (ig_romPath demo_game) (ig_name demo_game)
                (emulator demo_installed))
             demo_installed) tt.
Proof.
  assert (E0 : fs demo_boot !! demo_source = Some (File 100 (Raw "ROM")))
    by (vm_compute; reflexivity).
  assert (E : GameBoyEmulator.installRom demo_source None demo_boot
              = Ok demo_installed demo_game)
    by (unfold demo_installed, demo_game; apply succeeds_Ok;
        vm_compute; reflexivity).
  assert (X : extname demo_source = ".gb") by (vm_compute; reflexivity).
  assert (Mc : must_copy demo_source (ig_romPath demo_game)
                 (dirs_ensured (ig_name demo_game) demo_boot) = true)
    by (vm_compute; reflexivity).
  split; [exact E0|]. split; [exact E|]. split; [exact X|].
  exact (install_then_load demo_source None demo_boot demo_installed demo_game
           100 (Raw "ROM") E0 E Mc (or_introl X)).
Defined.

Lemma loadRom_by_path_witness :
  fs demo_boot !! path_join (getGameDir demo_source) "rom.gb" = None
  /\ fs demo_boot !! path_join (getGameDir demo_source) "rom.gbc" = None
  /\ fs demo_boot !! demo_source = Some (File 100 (Raw "ROM"))
  /\ GameBoyEmulator.installRom demo_source None demo_boot = Ok demo_installed demo_game
  /\ fs demo_installed !! ig_romPath demo_game = Some (File 1000 (Raw "ROM"))
  /\ GameBoyEmulator.loadRom demo_source demo_boot
     = Ok (set_emulator
             (loaded_with (Raw "ROM") (ig_romPath demo_game)
                (sanitizeGameName demo_source) (emulator demo_installed))
             demo_installed) tt.
Proof.
  assert (E1 : fs demo_boot !! path_join (getGameDir demo_source) "rom.gb" = None)
    by (vm_compute; reflexivity).
  assert (E2 : fs demo_boot !! path_join (getGameDir demo_source) "rom.gbc" = None)
    by (vm_compute; reflexivity).
  assert (E0 : fs demo_boot !! demo_source = Some (File 100 (Raw "ROM")))
    by (vm_compute; reflexivity).
  assert (E : GameBoyEmulator.installRom demo_source None demo_boot
              = Ok demo_installed demo_game)
    by (unfold demo_installed, demo_game; apply succeeds_Ok;
        vm_compute; reflexivity).
  assert (Ed : fs demo_installed !! ig_romPath demo_game
               = Some (File 1000 (Raw "ROM")))
    by (vm_compute; reflexivity).
  split; [exact E1|]. split; [exact E2|]. split; [exact E0|].
  split; [exact E|]. split; [exact Ed|].
  destruct (loadRom_by_path demo_source demo_boot 100 (Raw "ROM") E1 E2 E0)
    as [Hok _].
  destruct (Hok demo_installed demo_game 1000 (Raw "ROM") E Ed) as (_ & Hl & _).
  exact Hl.
Defined.

Lemma save_then_list_witness :
  GameBoyEmulator.saveState (Some "checkpoint") demo_loaded
  = Ok demo_saved demo_metadata
  /\ no_slash (chars (ss_id demo_metadata)) = true
  /\ exists l,
       GameBoyEmulator.listStates None demo_saved = Ok demo_saved l
       /\ metadata_json demo_metadata ∈ l.
Proof.
  assert (E : GameBoyEmulator.saveState (Some "checkpoint") demo_loaded
              = Ok demo_saved demo_metadata)
    by (unfold demo_saved, demo_metadata; apply succeeds_Ok;
        vm_compute; reflexivity).
  assert (N : no_slash (chars (ss_id demo_metadata)) = true)
    by (vm_compute; reflexivity).
  split; [exact E|]. split; [exact N|].
  assert (Ls : GameBoyEmulator.listStates None demo_saved
               = Ok (state_after (GameBoyEmulator.listStates None) demo_saved)
                    (value_after (GameBoyEmulator.listStates None) demo_saved []))
    by (apply succeeds_Ok; vm_compute; reflexivity).
  destruct (save_then_list (Some "checkpoint") None demo_loaded demo_saved _ _ _
              E N (or_introl eq_refl) Ls) as [Es Hin].
  exists (value_after (GameBoyEmulator.listStates None) demo_saved []).
  split; [|exact Hin]. rewrite <- Es at 2. exact Ls.
Defined.

Lemma listStates_bad_entry_witness :
  target_game None demo_bad_listing = Some "pokemon-red"
  /\ fs demo_bad_listing !! getSavesDir "pokemon-red" = Some (Dir 1000)
  /\ fs demo_bad_listing
       !! path_join (getSavesDir "pokemon-red") ("5f3a9c00" +:+ ".meta.json")
     = Some (File 2000 (Raw "{"))
  /\ exists e,
       GameBoyEmulator.listStates None demo_bad_listing = Throw demo_bad_listing e.
Proof.
  assert (T : target_game None demo_bad_listing = Some "pokemon-red")
    by (vm_compute; reflexivity).
  assert (Ed : fs demo_bad_listing !! getSavesDir "pokemon-red" = Some (Dir 1000))
    by (vm_compute; reflexivity).
  assert (En : fs demo_bad_listing
                 !! path_join (getSavesDir "pokemon-red") ("5f3a9c00" +:+ ".meta.json")
               = Some (File 2000 (Raw "{")))
    by (vm_compute; reflexivity).
  split; [exact T|]. split; [exact Ed|]. split; [exact En|].
  apply (listStates_bad_entry None "pokemon-red" "5f3a9c00" demo_bad_listing 1000
           (File 2000 (Raw "{")) T eq_refl Ed eq_refl En).
  vm_compute; reflexivity.
Defined.

Lemma delete_state_tool_witness :
  call_tool (delete_state None None) demo_saved
  = Ok demo_saved (error_response "Error: state_id is required")
  /\ target_game None demo_saved = Some "pokemon-red"
  /\ exists s1,
       call_tool (delete_state (Some "5f3a9c00") None) demo_saved
       = Ok s1 (mkResponse [TextContent ("Deleted save state " +:+ "5f3a9c00")] false)
       /\ fs s1 !! stateFile_of "pokemon-red" "5f3a9c00" = None.
Proof.
  destruct (delete_state_tool None None demo_saved) as (H0 & _).
  split; [exact (H0 eq_refl)|].
  assert (T : target_game None demo_saved = Some "pokemon-red")
    by (vm_compute; reflexivity).
  split; [exact T|].
  destruct (delete_state_tool (Some "5f3a9c00") None demo_saved) as (_ & _ & H2).
  assert (D1 : is_dir (stateFile_of "pokemon-red" "5f3a9c00") demo_saved = false)
    by (vm_compute; reflexivity).
  assert (D2 : is_dir (metadataFile_of "pokemon-red" "5f3a9c00") demo_saved = false)
    by (vm_compute; reflexivity).
  assert (P : present (stateFile_of "pokemon-red" "5f3a9c00") demo_saved = true)
    by (vm_compute; reflexivity).
  pose proof (H2 "5f3a9c00" "pokemon-red" eq_refl eq_refl T eq_refl D1 D2) as R.
  rewrite P in R. cbn [orb] in R.
  eexists. split; [exact R|].
  cbn [set_fs fs].
  rewrite lookup_delete_ne
    by exact (fun Eq => state_meta_distinct (getSavesDir "pokemon-red") "5f3a9c00"
                          (eq_sym Eq)).
  apply lookup_delete_eq.
Defined.

Lemma listStates_sound_witness :
  target_game None demo_saved = Some "pokemon-red"
  /\ exists l,
       GameBoyEmulator.listStates None demo_saved = Ok demo_saved l
       /\ forall v, v ∈ l ->
            exists f t,
              ends_with ".meta.json" f = true
              /\ fs demo_saved !! path_join (getSavesDir "pokemon-red") f
                 = Some (File t (Json v)).
Proof.
  assert (T : target_game None demo_saved = Some "pokemon-red")
    by (vm_compute; reflexivity).
  split; [exact T|].
  assert (Ls : GameBoyEmulator.listStates None demo_saved
               = Ok (state_after (GameBoyEmulator.listStates None) demo_saved)
                    (value_after (GameBoyEmulator.listStates None) demo_saved []))
    by (apply succeeds_Ok; vm_compute; reflexivity).
  destruct (listStates_sound None "pokemon-red" demo_saved _ _ T eq_refl Ls)
    as [Es Hs].
  exists (value_after (GameBoyEmulator.listStates None) demo_saved []).
  split; [rewrite <- Es at 2; exact Ls|].
  intros v Hv. destruct (Hs v Hv) as (f & p & t & He & _ & _ & Ef).
  exists f, t. split; [exact He|exact Ef].
Defined.

Lemma advanceFrames_runs_witness :
  romLoaded (emulator demo_boot) = false
  /\ advanceFrames 5 demo_boot = Throw demo_boot (Error "No ROM loaded")
  /\ advanceFrames 0 demo_boot = Ok demo_boot tt
  /\ romLoaded (emulator demo_loaded) = true
  /\ advanceFrames 5 demo_loaded
     = Ok (set_emulator (run_frames (Z.to_nat 5) (emulator demo_loaded)) demo_loaded) tt.
Proof.
  assert (L0 : romLoaded (emulator demo_boot) = false) by (vm_compute; reflexivity).
  assert (L1 : romLoaded (emulator demo_loaded) = true) by (vm_compute; reflexivity).
  split; [exact L0|].
  destruct (advanceFrames_runs 5 demo_boot) as (_ & Hp & _).
  split; [apply (Hp L0); lia|].
  destruct (advanceFrames_runs 0 demo_boot) as (_ & _ & Hz).
  split; [apply (Hz L0); lia|].
  split; [exact L1|].
  destruct (advanceFrames_runs 5 demo_loaded) as (Hl & _). exact (Hl L1).
Defined.

End Scenarios.
